(** * heat-solver: the result-aggregation and error-reporting pipeline

    A shallow embedding of [heat-solver-main/plot_results.py] (the current
    script) and of [plot_results] of the older [plot_results.py] kept at
    the repository root (module [Legacy]).

    Conventions of the embedding.

    - A float64 is a [spec_float] of the Standard Library, with the IEEE 754
      binary64 parameters [prec = 53], [emax = 1024]; arithmetic is the
      round-to-nearest-even arithmetic of [SpecFloat], so NaN, the
      infinities and signed zeros behave as they do in numpy.
    - A CSV cell of a value column is a [token]: either text that parses as
      a number (including [inf], [nan], the empty cell and the other
      markers pandas reads as NaN) or text that does not.
    - A pandas DataFrame is the list of its rows, each carrying its index
      label; a Series is a list of (label, value) pairs.
    - Printing, early return and exceptions are explicit: a computation is
      a [Run], the text printed so far together with either a value or the
      exception that ended it.
    - matplotlib is a black box: a report records the values handed to it.
      [plot_results] and [compare_methods] take its calls to succeed; the
      modules [Rendered] and [LegacyRendered] have the calls in place and
      let any of them raise.
*)

From Stdlib Require Import ZArith List Bool Lia String Sorted.
From Stdlib Require Import Floats.SpecFloat.
From stdpp Require Import base option list strings gmap.

(** ** Binary64 arithmetic *)

Module F64.

Definition prec : Z := 53%Z.
Definition emax : Z := 1024%Z.

Definition nan : spec_float := S754_nan.
Definition zero : spec_float := S754_zero false.

Definition add := SFadd prec emax.
Definition sub := SFsub prec emax.
Definition mul := SFmul prec emax.
Definition div := SFdiv prec emax.
Definition sqrt := SFsqrt prec emax.
Definition abs := SFabs.
Definition eqb := SFeqb.
Definition ltb := SFltb.
Definition leb := SFleb.

(** Conversion of a Python integer (int -> double, to nearest even). *)
Definition of_Z (n : Z) : spec_float := binary_normalize prec emax n 0%Z false.
Definition of_nat (n : nat) : spec_float := of_Z (Z.of_nat n).

Definition isnan (f : spec_float) : bool :=
  match f with S754_nan => true | _ => false end.

Definition isinf (f : spec_float) : bool :=
  match f with S754_infinity _ => true | _ => false end.

(** [np.isfinite]: neither NaN nor an infinity. *)
Definition isfinite (f : spec_float) : bool :=
  match f with
  | S754_zero _ | S754_finite _ _ _ => true
  | S754_infinity _ | S754_nan => false
  end.

(** [np.maximum] on two doubles: [(a >= b || isnan a) ? a : b]. *)
Definition maximum (a b : spec_float) : spec_float :=
  if leb b a || isnan a then a else b.

(** Python's builtin [max(a, b)] and [min(a, b)] on two items: the first
    argument is kept unless the second compares strictly better. *)
Definition py_max2 (a b : spec_float) : spec_float := if ltb a b then b else a.
Definition py_min2 (a b : spec_float) : spec_float := if ltb b a then b else a.

End F64.

Abbreviation float := spec_float.

(** ** The input table *)

(** A cell of [u_numeric], [u_exact] or [error] as written in the file. *)
Inductive token :=
| Num (f : float)      (* text that parses as the number [f] *)
| Text (s : string).   (* any other text *)

Definition is_text (c : token) : bool :=
  match c with Text _ => true | Num _ => false end.

(** One line of the file. [t] and [x] are numeric columns. *)
Record CsvRow := {
  csv_t : float;
  csv_x : float;
  csv_u_numeric : token;
  csv_u_exact : token;
  csv_error : token
}.

(** A file: whether its header has an [error] column (when it has none,
    [csv_error] of the rows is not read), and its lines in order. *)
Record CsvFile := {
  has_error_column : bool;
  csv_rows : list CsvRow
}.

(** The file system seen by [os.path.exists] and [pd.read_csv]. *)
Abbreviation FileSystem := (gmap string CsvFile).

(** ** Data frames *)

Record Row := {
  idx : nat;            (* the index label: the line number in the file *)
  t : float;
  x : float;
  u_numeric : float;
  u_exact : float;
  error : float
}.

Abbreviation DataFrame := (list Row).
Abbreviation Series := (list (nat * float)).

Definition column (f : Row -> float) (df : DataFrame) : Series :=
  map (fun r => (idx r, f r)) df.

Definition values (s : Series) : list float := map snd s.
Definition labels (s : Series) : list nat := map fst s.

(** [pd.to_numeric(..., errors="coerce")] on one cell. *)
Definition to_numeric (c : token) : float :=
  match c with
  | Num f => f
  | Text _ => F64.nan
  end.

(** [df.replace([np.inf, -np.inf], np.nan)] on one value. *)
Definition replace_inf (v : float) : float :=
  if F64.isinf v then F64.nan else v.

(** Lines 18-21 of [plot_results]: both value columns coerced, then
    [df["error"] = np.abs(df["u_numeric"] - df["u_exact"])], whatever the
    file had in its own [error] column. The arithmetic is that of
    binary64; on two columns that pandas reads as int64 (integer literals
    only) numpy subtracts with wrap-around instead. *)
Definition recompute_error (i : nat) (r : CsvRow) : Row :=
  let un := to_numeric (csv_u_numeric r) in
  let ue := to_numeric (csv_u_exact r) in
  {| idx := i; t := csv_t r; x := csv_x r;
     u_numeric := un; u_exact := ue;
     error := F64.abs (F64.sub un ue) |}.

(** Line 22: the replacement runs over every column of the frame. *)
Definition replace_inf_row (r : Row) : Row :=
  {| idx := idx r;
     t := replace_inf (t r); x := replace_inf (x r);
     u_numeric := replace_inf (u_numeric r);
     u_exact := replace_inf (u_exact r);
     error := replace_inf (error r) |}.

(** Lines 15-22: the frame every later step of the current script uses. *)
Definition load_frame (f : CsvFile) : DataFrame :=
  map replace_inf_row (imap recompute_error (csv_rows f)).

(** ** Selection, ordering and reductions used by both entry points *)

(** Membership test of the hash table behind [Series.unique]: equal as
    doubles (so [0.0] and [-0.0] are one key), or both NaN. *)
Definition same_key (a b : float) : bool :=
  F64.eqb a b || (F64.isnan a && F64.isnan b).

(** [Series.unique()]: the distinct values in order of first appearance. *)
Fixpoint unique (l : list float) : list float :=
  match l with
  | [] => []
  | a :: l' => a :: List.filter (fun b => negb (same_key a b)) (unique l')
  end.

(** Insertion into a list ordered by [key]; an element goes in front of
    the first element that is not strictly smaller, so that equal keys
    keep their input order. *)
Fixpoint insert_by {A} (key : A -> float) (a : A) (l : list A) : list A :=
  match l with
  | [] => [a]
  | b :: l' =>
      if F64.ltb (key b) (key a) then b :: insert_by key a l' else a :: l
  end.

Definition sort_by {A} (key : A -> float) (l : list A) : list A :=
  foldr (insert_by key) [] l.

(** Python's [sorted] on a list of doubles. On NaN-free input every
    comparison sort returns this list. With a NaN among the keys (a [t] or
    an [x] that is NaN) the list Python returns depends on the runs
    timsort finds and need not be this one; the statements about which
    time comes first or last assume finite times. *)
Definition sorted (l : list float) : list float := sort_by id l.

(** [df[df["t"] == tv]]. *)
Definition rows_at (df : DataFrame) (tv : float) : DataFrame :=
  List.filter (fun r => F64.eqb (t r) tv) df.

(** [.sort_values("x")]: ascending, rows whose [x] is NaN last. Rows
    with equal [x] keep their order here; pandas sorts with quicksort and
    may order them otherwise. *)
Definition sort_values_x (df : DataFrame) : DataFrame :=
  sort_by x (List.filter (fun r => negb (F64.isnan (x r))) df)
  ++ List.filter (fun r => F64.isnan (x r)) df.

(** [s[mask]] for a mask computed from the same frame. *)
Definition boolean_index {A} (mask : list bool) (s : list A) : list A :=
  map snd (List.filter fst (zip mask s)).

(** pandas reductions skip NaN and return NaN when nothing is left. The
    sum runs left to right here; numpy adds in blocks, which can change
    the last bits of a sum of many terms. *)
Definition dropna (l : list float) : list float :=
  List.filter (fun v => negb (F64.isnan v)) l.

Definition series_mean (s : Series) : float :=
  match dropna (values s) with
  | [] => F64.nan
  | v => F64.div (fold_left F64.add v F64.zero) (F64.of_nat (length v))
  end.

Definition series_max (s : Series) : float :=
  match dropna (values s) with
  | [] => F64.nan
  | a :: v => fold_left F64.maximum v a
  end.

(** [np.minimum] reduction: [(a <= b || isnan a) ? a : b]. *)
Definition minimum (a b : float) : float :=
  if F64.leb a b || F64.isnan a then a else b.

Definition series_min (s : Series) : float :=
  match dropna (values s) with
  | [] => F64.nan
  | a :: v => fold_left minimum v a
  end.

(** [s ** 2]. *)
Definition series_sq (s : Series) : Series :=
  map (fun p => (fst p, F64.mul (snd p) (snd p))) s.

(** Python's [min] and [max] of a non-empty list. *)
Definition py_min (a : float) (l : list float) : float := fold_left F64.py_min2 l a.
Definition py_max (a : float) (l : list float) : float := fold_left F64.py_max2 l a.

(** ** Final-time error: validity mask, plotted values, statistics *)

(** Line 86: [valid = np.isfinite(final_data["error"])]. *)
Definition valid (final_data : DataFrame) : list bool :=
  map (fun r => F64.isfinite (error r)) final_data.

Definition x_valid (final_data : DataFrame) : Series :=
  boolean_index (valid final_data) (column x final_data).

Definition u_valid (final_data : DataFrame) : Series :=
  boolean_index (valid final_data) (column u_numeric final_data).

Definition err_valid (final_data : DataFrame) : Series :=
  boolean_index (valid final_data) (column error final_data).

(** Line 92: the double nearest to [1e-20]. *)
Definition epsilon : float := S754_finite false 6646139978924579 (-119).

(** Line 93: [err_plot = np.maximum(err_valid, epsilon)]. *)
Definition log_floor (v : float) : float := F64.maximum v epsilon.

Definition err_plot (errs : Series) : Series :=
  map (fun p => (fst p, log_floor (snd p))) errs.

(** What panel 3 is asked to draw. *)
Inductive ErrorPanel :=
| ErrorCurve (xs : Series) (ys : Series) (ylim : float * float)
| NoValidErrorData.

Definition two : float := F64.of_Z 2.
Definition half : float := F64.div (F64.of_Z 1) two.

(** Lines 91-119. *)
Definition error_panel (final_data : DataFrame) : ErrorPanel :=
  let errs := err_valid final_data in
  if (0 <? length errs)%nat then
    let ys := err_plot errs in
    ErrorCurve (x_valid final_data) ys
      (F64.py_max2 (F64.mul (series_min ys) half) epsilon,
       F64.mul (series_max ys) two)
  else NoValidErrorData.

Record ErrorSummary := {
  l2_error : float;
  linf_error : float;
  mean_error : float
}.

(** Lines 160-165 and the guarded mean of line 190. *)
Definition error_statistics (errs : Series) : ErrorSummary :=
  if (0 <? length errs)%nat then
    {| l2_error := F64.sqrt (series_mean (series_sq errs));
       linf_error := series_max errs;
       mean_error := series_mean errs |}
  else
    {| l2_error := F64.nan; linf_error := F64.nan; mean_error := F64.nan |}.

(** ** Exceptions and printed output *)

Inductive exn :=
| FileNotFoundError (path : string)   (* [pd.read_csv] on an absent file *)
| IndexError                          (* list index out of range *)
| BroadcastError (got want : nat)     (* ValueError: could not broadcast *)
| ConversionError                     (* ValueError: could not convert string to float *)
| KeyError (col : string)
| TypeError
| MatplotlibError (what : string).    (* raised inside a matplotlib call *)

Inductive result (A : Type) :=
| Ok (a : A)
| Raise (e : exn).
Arguments Ok {A} a.
Arguments Raise {A} e.

(** The lines the scripts print, with the values they interpolate. *)
Inductive message :=
| MsgFileNotFound (csv_file : string)
| MsgLoading (csv_file : string)
| MsgTimeLayers (n : nat)
| MsgFiguresSaved (csv_file : string)
| MsgErrorStatistics (final_t : float) (s : ErrorSummary)
| MsgWarningSkipped (csv_file : string)
| MsgComparisonSaved
| MsgUsage
| MsgNeedPairs.

Record Run (A : Type) := MkRun {
  stdout : list message;
  outcome : result A
}.
Arguments MkRun {A} stdout outcome.
Arguments stdout {A} r.
Arguments outcome {A} r.

Definition run_ret {A} (a : A) : Run A := MkRun [] (Ok a).

Definition run_bind {A B} (m : Run A) (k : A -> Run B) : Run B :=
  match outcome m with
  | Ok a => let r := k a in MkRun (stdout m ++ stdout r) (outcome r)
  | Raise e => MkRun (stdout m) (Raise e)
  end.

Definition print (m : message) : Run unit := MkRun [m] (Ok tt).
Definition lift {A} (r : result A) : Run A := MkRun [] r.

#[global] Instance run_mret : MRet Run := @run_ret.
#[global] Instance run_mbind : MBind Run := fun A B k m => run_bind m k.

#[global] Instance result_mret : MRet result := @Ok.
#[global] Instance result_mbind : MBind result := fun A B k m =>
  match m with Ok a => k a | Raise e => Raise e end.

(** [l[i]] for a non-negative [i], and [l[-1]]. *)
Definition list_item {A} (l : list A) (i : nat) : result A :=
  match l !! i with
  | Some a => Ok a
  | None => Raise IndexError
  end.

Definition last_item {A} (l : list A) : result A :=
  match last l with
  | Some a => Ok a
  | None => Raise IndexError
  end.

(** [for i, a in enumerate(l): s = body(s, i, a)], first index [i]. *)
Fixpoint for_enumerate {A St} (body : St -> nat -> A -> result St)
    (i : nat) (l : list A) (s : St) : result St :=
  match l with
  | [] => Ok s
  | a :: l' =>
      match body s i a with
      | Ok s' => for_enumerate body (S i) l' s'
      | Raise e => Raise e
      end
  end.

(** ** Panel 1: evolution of the solution *)

(** [np.linspace(0, stop, num, dtype=int)]: sample [i] is the floor of
    [i * stop / (num - 1)] and the last sample is [stop] itself; one
    sample alone is the start, 0. numpy evaluates the quotient in doubles
    before flooring; the embedding takes the exact quotient. *)
Definition linspace_int (stop num : nat) : list nat :=
  map (fun i =>
         if (1 <? num)%nat then
           if (i =? num - 1)%nat then stop else (i * stop / (num - 1))%nat
         else 0%nat)
      (seq 0 num).

Record Curve := {
  curve_t : float;
  curve_color : nat * nat;   (* colormap argument [i / max(1, num - 1)] *)
  curve_x : Series;
  curve_u : Series
}.

(** Lines 32-47. *)
Definition evolution_panel (df : DataFrame) (times : list float)
    : result (list Curve) :=
  let num_snapshots := Nat.min 6 (length times) in
  let snapshot_indices := linspace_int (length times - 1) num_snapshots in
  for_enumerate
    (fun curves i t_idx =>
       tv ← list_item times t_idx;
       let data := sort_values_x (rows_at df tv) in
       Ok (curves ++ [ {| curve_t := tv;
                          curve_color := (i, Nat.max 1 (num_snapshots - 1));
                          curve_x := column x data;
                          curve_u := column u_numeric data |} ]))
    0%nat snapshot_indices [].

(** ** Panel 4: the heat map *)

(** [l[::step]] for [step >= 1]: [skip] elements are passed over before
    the next one is taken. *)
Fixpoint stride_from {A} (step skip : nat) (l : list A) : list A :=
  match l with
  | [] => []
  | a :: l' =>
      match skip with
      | O => a :: stride_from step (step - 1) l'
      | S k => stride_from step k l'
      end
  end.

Definition slice_step {A} (step : nat) (l : list A) : list A :=
  stride_from step 0 l.

(** [.fillna(0.0)]. *)
Definition fillna0 (v : float) : float :=
  if F64.isnan v then F64.zero else v.

(** [u_matrix[i, :] = vals]: the values must fill the row, a single value
    is broadcast over it, anything else is a ValueError. *)
Definition assign_row (ncols : nat) (vals : list float) : result (list float) :=
  if (length vals =? ncols)%nat then Ok vals
  else match vals with
       | [v] => Ok (replicate ncols v)
       | _ => Raise (BroadcastError (length vals) ncols)
       end.

Record Heatmap := {
  x_vals : list float;
  t_vals_subset : list float;
  u_matrix : list (list float);
  extent : float * float * float * float
}.

Definition step_of (t_vals : list float) : nat :=
  Nat.max 1 (length t_vals / 50).

(** Lines 140-142 for the time [tv]: the values written into its row. *)
Definition layer_row (df : DataFrame) (ncols : nat) (tv : float)
    : result (list float) :=
  let data := sort_values_x (rows_at df tv) in
  assign_row ncols (map (fun r => fillna0 (u_numeric r)) data).

(** Lines 139-142: one matrix row per selected time. *)
Definition fill_matrix (df : DataFrame) (ncols : nat)
    (t_subset : list float) (zeros : list (list float))
    : result (list (list float)) :=
  for_enumerate
    (fun m i tv =>
       row ← layer_row df ncols tv;
       Ok (<[i := row]> m))
    0%nat t_subset zeros.

(** Python's [min(l)] and [max(l)]; a ValueError on the empty list cannot
    be reached below, the lists being non-empty there. *)
Definition py_min_list (l : list float) : float :=
  match l with [] => F64.nan | a :: l' => py_min a l' end.
Definition py_max_list (l : list float) : float :=
  match l with [] => F64.nan | a :: l' => py_max a l' end.

(** Lines 131-148. *)
Definition build_heatmap (df : DataFrame) : result Heatmap :=
  let xs := sorted (unique (values (column x df))) in
  let t_vals := sorted (unique (values (column t df))) in
  let step := step_of t_vals in
  let subset := slice_step step t_vals in
  let zeros := replicate (length subset) (replicate (length xs) F64.zero) in
  m ← fill_matrix df (length xs) subset zeros;
  Ok {| x_vals := xs; t_vals_subset := subset; u_matrix := m;
        extent := (py_min_list xs, py_max_list xs,
                   py_min_list subset, py_max_list subset) |}.

(** ** Single-dataset mode *)

Record SingleReport := {
  method_name : string;
  evolution : list Curve;
  final_t : float;
  final_x : Series;
  final_numeric : Series;
  final_exact : Series;
  error_distribution : ErrorPanel;
  heat_map : Heatmap;
  summary : ErrorSummary
}.

(** [plot_results(csv_file, method_name)]. The Python function returns
    [None] on every path; the value here is the figure it saved, [None]
    when it returned before drawing anything. Output file names are not
    modelled. *)
Definition plot_results (fs : FileSystem) (csv_file method : string)
    : Run (option SingleReport) :=
  match fs !! csv_file with
  | None =>
      print (MsgFileNotFound csv_file);;
      mret None
  | Some file =>
      print (MsgLoading csv_file);;
      let df := load_frame file in
      let times := sorted (unique (values (column t df))) in
      print (MsgTimeLayers (length times));;
      curves ← lift (evolution_panel df times);
      ft ← lift (last_item times);
      let final_data := sort_values_x (rows_at df ft) in
      let panel3 := error_panel final_data in
      hm ← lift (build_heatmap df);
      let stats := error_statistics (err_valid final_data) in
      print (MsgFiguresSaved csv_file);;
      print (MsgErrorStatistics ft stats);;
      mret (Some {| method_name := method;
                    evolution := curves;
                    final_t := ft;
                    final_x := column x final_data;
                    final_numeric := column u_numeric final_data;
                    final_exact := column u_exact final_data;
                    error_distribution := panel3;
                    heat_map := hm;
                    summary := stats |})
  end.

(** ** Comparison mode *)

Definition colors : list string := ["blue"; "red"; "green"; "orange"]%string.
Definition markers : list string := ["o"; "s"; "^"; "d"]%string.

(** What the four panels receive for one method. *)
Record MethodEntry := {
  entry_idx : nat;        (* position of the pair in the argument lists *)
  entry_label : string;
  entry_color : string;
  entry_marker : string;
  entry_x : Series;
  entry_u : Series;
  entry_err : Series;
  entry_l2 : float;
  entry_linf : float
}.

Record ComparisonReport := {
  entries : list MethodEntry;
  analytical : option (Series * Series);
  tick_labels : list string
}.

(** Line 213 and line 236: [df["t"].max()]. *)
Definition max_time (df : DataFrame) : float := series_max (column t df).

(** Lines 213-231 for one loaded file: what the four panels receive. *)
Definition method_entry (i : nat) (method color marker : string)
    (file : CsvFile) : MethodEntry :=
  let df := load_frame file in
  let final_data := sort_values_x (rows_at df (max_time df)) in
  let errs := err_valid final_data in
  {| entry_idx := i;
     entry_label := method;
     entry_color := color;
     entry_marker := marker;
     entry_x := x_valid final_data;
     entry_u := u_valid final_data;
     entry_err := errs;
     entry_l2 := F64.sqrt (series_mean (series_sq errs));
     entry_linf := series_max errs |}.

(** The body of the loop of lines 201-231 for the pair at position [i]. *)
Definition compare_step (fs : FileSystem) (done : list MethodEntry)
    (i : nat) (source : string * string) : Run (list MethodEntry) :=
  let '(csv_file, method) := source in
  match fs !! csv_file with
  | None =>
      print (MsgWarningSkipped csv_file);;
      mret done
  | Some file =>
      color ← lift (list_item colors i);
      marker ← lift (list_item markers i);
      mret (done ++ [method_entry i method color marker file])
  end.

Fixpoint compare_loop (fs : FileSystem) (i : nat)
    (pairs : list (string * string)) (done : list MethodEntry)
    : Run (list MethodEntry) :=
  match pairs with
  | [] => mret done
  | source :: rest =>
      done' ← compare_step fs done i source;
      compare_loop fs (S i) rest done'
  end.

(** Lines 234-237: the frame behind the analytical curve. Only [u_exact]
    is coerced there and no infinity is replaced; the other value columns
    of that frame are not read. *)
Definition reference_frame (f : CsvFile) : DataFrame :=
  imap (fun i r =>
          {| idx := i; t := csv_t r; x := csv_x r;
             u_numeric := to_numeric (csv_u_numeric r);
             u_exact := to_numeric (csv_u_exact r);
             error := to_numeric (csv_error r) |})
       (csv_rows f).

(** [pd.read_csv(path)]. *)
Definition read_csv (fs : FileSystem) (path : string) : result CsvFile :=
  match fs !! path with
  | Some file => Ok file
  | None => Raise (FileNotFoundError path)
  end.

(** Lines 236-240: the analytical curve read off one file. *)
Definition reference_curve (file : CsvFile) : Series * Series :=
  let df0 := reference_frame file in
  let final_data0 := sort_values_x (rows_at df0 (max_time df0)) in
  (column x final_data0, column u_exact final_data0).

(** Lines 233-240. *)
Definition analytical_curve (fs : FileSystem) (csv_files : list string)
    : result (option (Series * Series)) :=
  match csv_files with
  | [] => Ok None
  | first :: _ =>
      file ← read_csv fs first;
      Ok (Some (reference_curve file))
  end.

(** [compare_methods(csv_files, method_names)]. *)
Definition compare_methods (fs : FileSystem)
    (csv_files method_names : list string) : Run ComparisonReport :=
  done ← compare_loop fs 0 (zip csv_files method_names) [];
  curve ← lift (analytical_curve fs csv_files);
  print MsgComparisonSaved;;
  mret {| entries := done; analytical := curve; tick_labels := method_names |}.

(** ** The command line *)

Inductive Figure :=
| SingleFigure (r : SingleReport)
| ComparisonFigure (r : ComparisonReport).

(** What the caller of the script observes: the text printed, the exit
    status (1 after [sys.exit(1)] and after an uncaught exception, 0 when
    the script runs to its end), the exception if one escaped, and the
    figure saved if any. *)
Record Process := {
  process_stdout : list message;
  exit_status : nat;
  uncaught : option exn;
  saved : option Figure
}.

Definition finish {A} (r : Run A) (fig : A -> option Figure) : Process :=
  match outcome r with
  | Ok a =>
      {| process_stdout := stdout r; exit_status := 0;
         uncaught := None; saved := fig a |}
  | Raise e =>
      {| process_stdout := stdout r; exit_status := 1;
         uncaught := Some e; saved := None |}
  end.

Definition sys_exit_1 (msgs : list message) : Process :=
  {| process_stdout := msgs; exit_status := 1;
     uncaught := None; saved := None |}.

(** The [__main__] block; [argv] is [sys.argv]. *)
Definition main (fs : FileSystem) (argv : list string) : Process :=
  if (length argv <? 2)%nat then sys_exit_1 [MsgUsage]
  else
    match argv !! 1%nat with
    | Some arg1 =>
        if String.eqb arg1 "compare" then
          if (length argv <? 4)%nat || negb (length argv mod 2 =? 0)%nat
          then sys_exit_1 [MsgNeedPairs]
          else
            let csv_files := slice_step 2 (drop 2 argv) in
            let method_names := slice_step 2 (drop 3 argv) in
            finish (compare_methods fs csv_files method_names)
                   (fun r => Some (ComparisonFigure r))
        else
          let method :=
            if (2 <? length argv)%nat then default "Unknown"%string (argv !! 2%nat)
            else "Unknown"%string in
          finish (plot_results fs arg1 method) (fmap SingleFigure)
    | None => sys_exit_1 [MsgUsage]
    end.

(** ** The older script at the repository root *)

Module Legacy.

(** [pd.read_csv] alone: nothing is coerced or recomputed, and the
    [error] column is the file's own. A value column with text in any
    line is a column of strings. *)
Definition stored_frame (file : CsvFile) : DataFrame :=
  imap (fun i r =>
          {| idx := i; t := csv_t r; x := csv_x r;
             u_numeric := to_numeric (csv_u_numeric r);
             u_exact := to_numeric (csv_u_exact r);
             error := to_numeric (csv_error r) |})
       (csv_rows file).

Definition has_text (f : CsvRow -> token) (file : CsvFile) : bool :=
  existsb (fun r => is_text (f r)) (csv_rows file).

Definition cell_is_text (file : CsvFile) (f : CsvRow -> token) (r : Row)
    : bool :=
  match csv_rows file !! idx r with
  | Some c => is_text (f c)
  | None => false
  end.

(** Lines 25-36; the snapshots are drawn in file order. *)
Definition evolution_panel (df : DataFrame) (times : list float)
    : result (list Curve) :=
  let num_snapshots := Nat.min 6 (length times) in
  let snapshot_indices := linspace_int (length times - 1) num_snapshots in
  for_enumerate
    (fun curves i t_idx =>
       tv ← list_item times t_idx;
       let data := rows_at df tv in
       Ok (curves ++ [ {| curve_t := tv;
                          curve_color := (i, num_snapshots);
                          curve_x := column x data;
                          curve_u := column u_numeric data |} ]))
    0%nat snapshot_indices [].

(** Lines 74-84: the row takes the stored values as they are; text
    cannot be stored in the matrix (in Python this and the broadcast
    failure are both a ValueError). *)
Definition fill_matrix (file : CsvFile) (df : DataFrame) (ncols : nat)
    (t_subset : list float) (zeros : list (list float))
    : result (list (list float)) :=
  for_enumerate
    (fun m i tv =>
       let data := sort_values_x (rows_at df tv) in
       if existsb (cell_is_text file csv_u_numeric) data
       then Raise ConversionError
       else
         row ← assign_row ncols (map u_numeric data);
         Ok (<[i := row]> m))
    0%nat t_subset zeros.

Record Report := {
  method_name : string;
  evolution : list Curve;
  final_t : float;
  final_x : Series;
  final_numeric : Series;
  final_exact : Series;
  error_distribution : Series;
  u_matrix : list (list float);
  summary : ErrorSummary
}.

(** The older [plot_results(csv_file, method_name)]. *)
Definition plot_results (fs : FileSystem) (csv_file method : string)
    : Run (option Report) :=
  match fs !! csv_file with
  | None =>
      print (MsgFileNotFound csv_file);;
      mret None
  | Some file =>
      print (MsgLoading csv_file);;
      let df := stored_frame file in
      let times := sorted (unique (values (column t df))) in
      print (MsgTimeLayers (length times));;
      curves ← lift (evolution_panel df times);
      ft ← lift (last_item times);
      let final_data := sort_values_x (rows_at df ft) in
      (* line 63: final_data['error'] *)
      (if has_error_column file then mret tt
       else lift (Raise (KeyError "error")));;
      let errs := column error final_data in
      let xs := sorted (unique (values (column x df))) in
      let subset := slice_step (step_of times) times in
      let zeros := replicate (length subset) (replicate (length xs) F64.zero) in
      m ← lift (fill_matrix file df (length xs) subset zeros);
      (* lines 95-96: arithmetic on the stored column *)
      (if has_text csv_error file then lift (Raise TypeError) else mret tt);;
      let stats :=
        {| l2_error := F64.sqrt (series_mean (series_sq errs));
           linf_error := series_max errs;
           mean_error := series_mean errs |} in
      print (MsgFiguresSaved csv_file);;
      print (MsgErrorStatistics ft stats);;
      mret (Some {| method_name := method;
                    evolution := curves;
                    final_t := ft;
                    final_x := column x final_data;
                    final_numeric := column u_numeric final_data;
                    final_exact := column u_exact final_data;
                    error_distribution := errs;
                    u_matrix := m;
                    summary := stats |})
  end.

(** [colors[idx % len(colors)]]: the older loop cycles through the lists. *)
Definition cycle_item (l : list string) (i : nat) : result string :=
  list_item l (i mod length l).

(** Lines 130-148 for one loaded file; the stored columns are drawn as
    they are. *)
Definition method_entry (i : nat) (method color marker : string)
    (file : CsvFile) : MethodEntry :=
  let df := stored_frame file in
  let final_data := sort_values_x (rows_at df (max_time df)) in
  let errs := column error final_data in
  {| entry_idx := i;
     entry_label := method;
     entry_color := color;
     entry_marker := marker;
     entry_x := column x final_data;
     entry_u := column u_numeric final_data;
     entry_err := errs;
     entry_l2 := F64.sqrt (series_mean (series_sq errs));
     entry_linf := series_max errs |}.

(** The body of the loop of lines 125-148. *)
Definition compare_step (fs : FileSystem) (done : list MethodEntry)
    (i : nat) (source : string * string) : Run (list MethodEntry) :=
  let '(csv_file, method) := source in
  match fs !! csv_file with
  | None =>
      print (MsgWarningSkipped csv_file);;
      mret done
  | Some file =>
      color ← lift (cycle_item colors i);
      marker ← lift (cycle_item markers i);
      (* line 140: final_data['error'] *)
      (if has_error_column file then mret tt
       else lift (Raise (KeyError "error")));;
      (* line 144: arithmetic on the stored column *)
      (if has_text csv_error file then lift (Raise TypeError) else mret tt);;
      mret (done ++ [method_entry i method color marker file])
  end.

Fixpoint compare_loop (fs : FileSystem) (i : nat)
    (pairs : list (string * string)) (done : list MethodEntry)
    : Run (list MethodEntry) :=
  match pairs with
  | [] => mret done
  | source :: rest =>
      done' ← compare_step fs done i source;
      compare_loop fs (S i) rest done'
  end.

(** The older [compare_methods(csv_files, method_names)]; lines 150-155
    read the first listed file as the current script does. *)
Definition compare_methods (fs : FileSystem)
    (csv_files method_names : list string) : Run ComparisonReport :=
  done ← compare_loop fs 0 (zip csv_files method_names) [];
  curve ← lift (analytical_curve fs csv_files);
  print MsgComparisonSaved;;
  mret {| entries := done; analytical := curve; tick_labels := method_names |}.

End Legacy.

(** ** The two scripts with matplotlib in the picture *)

(** The definitions above take every call into matplotlib to succeed.
    Below the calls are there, in the order the scripts make them; what a
    call does is not modelled, but whether it raises is: it is a
    parameter [mpl], which sees the calls made so far, the last one being
    the call in question, with the data they received. Calls that follow
    one another with no statement between them that could print or raise
    are recorded as one. *)
Module Rendered.

Inductive DrawCall :=
| OpenFigure (num_snapshots : nat)               (* lines 27-36 *)
| PlotSnapshot (c : Curve)                       (* lines 41-47 *)
| FinishEvolution (method : string)              (* lines 49-57 *)
| PlotFinalTime (final_t : float) (xs us es : Series)
                (panel3 : ErrorPanel)            (* lines 62-129 *)
| PlotHeatmapAndSave (csv_file method : string) (hm : Heatmap)
                     (l2 linf : float)           (* lines 144-181 *)
| OpenGrid                                       (* line 196 *)
| PlotMethod (e : MethodEntry)                   (* lines 224-231 *)
| PlotAnalytical (curve : Series * Series)       (* lines 238-240 *)
| FinishComparison (method_names : list string)  (* lines 242-266 *)
| ShowFigure.                                    (* lines 184 and 268 *)

Section Renderer.

Variable mpl : list DrawCall -> option string.

(** One call: the exception matplotlib raises, or the calls made so far. *)
Definition draw (h : list DrawCall) (c : DrawCall) : result (list DrawCall) :=
  match mpl (h ++ [c]) with
  | Some what => Raise (MatplotlibError what)
  | None => Ok (h ++ [c])
  end.

(** Lines 32-47, each snapshot drawn as soon as it is selected. *)
Definition evolution_panel (df : DataFrame) (times : list float)
    (h : list DrawCall) : result (list Curve * list DrawCall) :=
  let num_snapshots := Nat.min 6 (length times) in
  let snapshot_indices := linspace_int (length times - 1) num_snapshots in
  for_enumerate
    (fun (s : list Curve * list DrawCall) i t_idx =>
       tv ← list_item times t_idx;
       let data := sort_values_x (rows_at df tv) in
       let c := {| curve_t := tv;
                   curve_color := (i, Nat.max 1 (num_snapshots - 1));
                   curve_x := column x data;
                   curve_u := column u_numeric data |} in
       h' ← draw s.2 (PlotSnapshot c);
       Ok (s.1 ++ [c], h'))
    0%nat snapshot_indices ([], h).

(** [plot_results(csv_file, method_name)], lines 7-191. *)
Definition plot_results (fs : FileSystem) (csv_file method : string)
    : Run (option SingleReport) :=
  match fs !! csv_file with
  | None =>
      print (MsgFileNotFound csv_file);;
      mret None
  | Some file =>
      print (MsgLoading csv_file);;
      let df := load_frame file in
      let times := sorted (unique (values (column t df))) in
      print (MsgTimeLayers (length times));;
      h ← lift (draw [] (OpenFigure (Nat.min 6 (length times))));
      s ← lift (evolution_panel df times h);
      h ← lift (draw s.2 (FinishEvolution method));
      ft ← lift (last_item times);
      let final_data := sort_values_x (rows_at df ft) in
      let panel3 := error_panel final_data in
      h ← lift (draw h (PlotFinalTime ft (column x final_data)
                          (column u_numeric final_data)
                          (column u_exact final_data) panel3));
      hm ← lift (build_heatmap df);
      let stats := error_statistics (err_valid final_data) in
      h ← lift (draw h (PlotHeatmapAndSave csv_file method hm
                          (l2_error stats) (linf_error stats)));
      print (MsgFiguresSaved csv_file);;
      h ← lift (draw h ShowFigure);
      print (MsgErrorStatistics ft stats);;
      mret (Some {| method_name := method;
                    evolution := s.1;
                    final_t := ft;
                    final_x := column x final_data;
                    final_numeric := column u_numeric final_data;
                    final_exact := column u_exact final_data;
                    error_distribution := panel3;
                    heat_map := hm;
                    summary := stats |})
  end.

(** The body of the loop of lines 201-231 for the pair at position [i]. *)
Definition compare_step (fs : FileSystem)
    (s : list MethodEntry * list DrawCall)
    (i : nat) (source : string * string)
    : Run (list MethodEntry * list DrawCall) :=
  let '(csv_file, method) := source in
  match fs !! csv_file with
  | None =>
      print (MsgWarningSkipped csv_file);;
      mret s
  | Some file =>
      color ← lift (list_item colors i);
      marker ← lift (list_item markers i);
      let e := method_entry i method color marker file in
      h ← lift (draw s.2 (PlotMethod e));
      mret (s.1 ++ [e], h)
  end.

Fixpoint compare_loop (fs : FileSystem) (i : nat)
    (pairs : list (string * string)) (s : list MethodEntry * list DrawCall)
    : Run (list MethodEntry * list DrawCall) :=
  match pairs with
  | [] => mret s
  | source :: rest =>
      s' ← compare_step fs s i source;
      compare_loop fs (S i) rest s'
  end.

(** [compare_methods(csv_files, method_names)], lines 195-268. *)
Definition compare_methods (fs : FileSystem)
    (csv_files method_names : list string) : Run ComparisonReport :=
  h ← lift (draw [] OpenGrid);
  s ← compare_loop fs 0 (zip csv_files method_names) ([], h);
  curve ← lift (analytical_curve fs csv_files);
  h ← lift (match curve with
            | Some c => draw s.2 (PlotAnalytical c)
            | None => Ok s.2
            end);
  h ← lift (draw h (FinishComparison method_names));
  print MsgComparisonSaved;;
  h ← lift (draw h ShowFigure);
  mret {| entries := s.1; analytical := curve; tick_labels := method_names |}.

End Renderer.

End Rendered.

(** The older script, in the same way. *)
Module LegacyRendered.

Inductive DrawCall :=
| OpenFigure (num_snapshots : nat)               (* lines 20-29 *)
| PlotSnapshot (c : Curve)                       (* lines 34-36 *)
| FinishEvolution (method : string)              (* lines 38-45 *)
| PlotFinalTime (final_t : float) (xs us es : Series)   (* lines 50-61 *)
| PlotError (final_t : float) (xs errs : Series)        (* lines 63-72 *)
| PlotHeatmap (m : list (list float)) (final_t : float) (* lines 86-92 *)
| SaveFigure (csv_file method : string) (l2 linf : float) (* lines 98-105 *)
| OpenGrid                                       (* line 120 *)
| PlotSolution (xs us : Series) (color label : string)  (* lines 137-138 *)
| PlotErrors (xs errs : Series)
             (color marker label : string)       (* lines 140-142 *)
| PlotBars (i : nat) (l2 linf : float)
           (color label : string)                (* lines 145-148 *)
| PlotAnalytical (curve : Series * Series)       (* lines 154-155 *)
| FinishComparison (method_names : list string)  (* lines 157-183 *)
| ShowFigure.                                    (* lines 108 and 185 *)

Section Renderer.

Variable mpl : list DrawCall -> option string.

Definition draw (h : list DrawCall) (c : DrawCall) : result (list DrawCall) :=
  match mpl (h ++ [c]) with
  | Some what => Raise (MatplotlibError what)
  | None => Ok (h ++ [c])
  end.

(** Lines 25-36. *)
Definition evolution_panel (df : DataFrame) (times : list float)
    (h : list DrawCall) : result (list Curve * list DrawCall) :=
  let num_snapshots := Nat.min 6 (length times) in
  let snapshot_indices := linspace_int (length times - 1) num_snapshots in
  for_enumerate
    (fun (s : list Curve * list DrawCall) i t_idx =>
       tv ← list_item times t_idx;
       let data := rows_at df tv in
       let c := {| curve_t := tv;
                   curve_color := (i, num_snapshots);
                   curve_x := column x data;
                   curve_u := column u_numeric data |} in
       h' ← draw s.2 (PlotSnapshot c);
       Ok (s.1 ++ [c], h'))
    0%nat snapshot_indices ([], h).

(** The older [plot_results(csv_file, method_name)], lines 7-115. *)
Definition plot_results (fs : FileSystem) (csv_file method : string)
    : Run (option Legacy.Report) :=
  match fs !! csv_file with
  | None =>
      print (MsgFileNotFound csv_file);;
      mret None
  | Some file =>
      print (MsgLoading csv_file);;
      let df := Legacy.stored_frame file in
      let times := sorted (unique (values (column t df))) in
      print (MsgTimeLayers (length times));;
      h ← lift (draw [] (OpenFigure (Nat.min 6 (length times))));
      s ← lift (evolution_panel df times h);
      h ← lift (draw s.2 (FinishEvolution method));
      ft ← lift (last_item times);
      let final_data := sort_values_x (rows_at df ft) in
      h ← lift (draw h (PlotFinalTime ft (column x final_data)
                          (column u_numeric final_data)
                          (column u_exact final_data)));
      (* line 63: final_data['error'] *)
      (if has_error_column file then mret tt
       else lift (Raise (KeyError "error")));;
      let errs := column error final_data in
      h ← lift (draw h (PlotError ft (column x final_data) errs));
      let xs := sorted (unique (values (column x df))) in
      let subset := slice_step (step_of times) times in
      let zeros := replicate (length subset) (replicate (length xs) F64.zero) in
      m ← lift (Legacy.fill_matrix file df (length xs) subset zeros);
      h ← lift (draw h (PlotHeatmap m ft));
      (* lines 95-96: arithmetic on the stored column *)
      (if Legacy.has_text csv_error file then lift (Raise TypeError)
       else mret tt);;
      let stats :=
        {| l2_error := F64.sqrt (series_mean (series_sq errs));
           linf_error := series_max errs;
           mean_error := series_mean errs |} in
      h ← lift (draw h (SaveFigure csv_file method
                          (l2_error stats) (linf_error stats)));
      print (MsgFiguresSaved csv_file);;
      h ← lift (draw h ShowFigure);
      print (MsgErrorStatistics ft stats);;
      mret (Some {| Legacy.method_name := method;
                    Legacy.evolution := s.1;
                    Legacy.final_t := ft;
                    Legacy.final_x := column x final_data;
                    Legacy.final_numeric := column u_numeric final_data;
                    Legacy.final_exact := column u_exact final_data;
                    Legacy.error_distribution := errs;
                    Legacy.u_matrix := m;
                    Legacy.summary := stats |})
  end.

(** The body of the loop of lines 125-148. *)
Definition compare_step (fs : FileSystem)
    (s : list MethodEntry * list DrawCall)
    (i : nat) (source : string * string)
    : Run (list MethodEntry * list DrawCall) :=
  let '(csv_file, method) := source in
  match fs !! csv_file with
  | None =>
      print (MsgWarningSkipped csv_file);;
      mret s
  | Some file =>
      color ← lift (Legacy.cycle_item colors i);
      marker ← lift (Legacy.cycle_item markers i);
      let e := Legacy.method_entry i method color marker file in
      h ← lift (draw s.2 (PlotSolution (entry_x e) (entry_u e) color method));
      (* line 140: final_data['error'] *)
      (if has_error_column file then mret tt
       else lift (Raise (KeyError "error")));;
      h ← lift (draw h (PlotErrors (entry_x e) (entry_err e)
                          color marker method));
      (* line 144: arithmetic on the stored column *)
      (if Legacy.has_text csv_error file then lift (Raise TypeError)
       else mret tt);;
      h ← lift (draw h (PlotBars i (entry_l2 e) (entry_linf e) color method));
      mret (s.1 ++ [e], h)
  end.

Fixpoint compare_loop (fs : FileSystem) (i : nat)
    (pairs : list (string * string)) (s : list MethodEntry * list DrawCall)
    : Run (list MethodEntry * list DrawCall) :=
  match pairs with
  | [] => mret s
  | source :: rest =>
      s' ← compare_step fs s i source;
      compare_loop fs (S i) rest s'
  end.

(** The older [compare_methods(csv_files, method_names)], lines 117-185. *)
Definition compare_methods (fs : FileSystem)
    (csv_files method_names : list string) : Run ComparisonReport :=
  h ← lift (draw [] OpenGrid);
  s ← compare_loop fs 0 (zip csv_files method_names) ([], h);
  curve ← lift (analytical_curve fs csv_files);
  h ← lift (match curve with
            | Some c => draw s.2 (PlotAnalytical c)
            | None => Ok s.2
            end);
  h ← lift (draw h (FinishComparison method_names));
  print MsgComparisonSaved;;
  h ← lift (draw h ShowFigure);
  mret {| entries := s.1; analytical := curve; tick_labels := method_names |}.

End Renderer.

End LegacyRendered.

(** A matplotlib that raises nowhere. *)
Definition silent {C : Type} : list C -> option string := fun _ => None.

(** ** Vocabulary of the statements *)

(** The order of [SFcompare] on numbers, as a lexicographic key: class
    (negative infinity, negative, zero, positive, positive infinity), then
    exponent, then mantissa, the last two negated for negative numbers. *)
Definition rank (f : float) : Z * Z * Z :=
  match f with
  | S754_nan | S754_zero _ => (0, 0, 0)
  | S754_infinity false => (2, 0, 0)
  | S754_infinity true => (-2, 0, 0)
  | S754_finite false m e => (1, e, Zpos m)
  | S754_finite true m e => (-1, - e, - Zpos m)
  end%Z.

Definition lex_le (p q : Z * Z * Z) : Prop :=
  (p.1.1 < q.1.1
   \/ (p.1.1 = q.1.1
       /\ (p.1.2 < q.1.2 \/ (p.1.2 = q.1.2 /\ p.2 <= q.2))))%Z.

(** Two files with the same [t] and [x] columns. *)
Definition same_grid (f g : CsvFile) : Prop :=
  map (fun r => (csv_t r, csv_x r)) (csv_rows f)
  = map (fun r => (csv_t r, csv_x r)) (csv_rows g).

(** Two files that differ at most in their [error] column. *)
Definition same_measurements (f g : CsvFile) : Prop :=
  map (fun r => (csv_t r, csv_x r, csv_u_numeric r, csv_u_exact r)) (csv_rows f)
  = map (fun r => (csv_t r, csv_x r, csv_u_numeric r, csv_u_exact r)) (csv_rows g).

(** The frame of the final time, as [plot_results] selects it. *)
Definition times_of (df : DataFrame) : list float :=
  sorted (unique (values (column t df))).

Definition final_data_at (df : DataFrame) (ft : float) : DataFrame :=
  sort_values_x (rows_at df ft).

(** [ceil(n / d)]. *)
Definition ceil_div (n d : nat) : nat := (n + d - 1) / d.

(** The report [plot_results] draws from a loaded frame. *)
Definition report_of (method : string) (df : DataFrame) (curves : list Curve)
    (ft : float) (hm : Heatmap) : SingleReport :=
  let final_data := final_data_at df ft in
  {| method_name := method;
     evolution := curves;
     final_t := ft;
     final_x := column x final_data;
     final_numeric := column u_numeric final_data;
     final_exact := column u_exact final_data;
     error_distribution := error_panel final_data;
     heat_map := hm;
     summary := error_statistics (err_valid final_data) |}.

(** The sources of a comparison that exist. *)
Definition existing (fs : FileSystem) (sources : list (string * string))
    : list (string * string) :=
  List.filter (fun p => bool_decide (is_Some (fs !! p.1))) sources.

(** [sys.argv[2:]] for a list of (file, method) pairs. *)
Definition interleave (pairs : list (string * string)) : list string :=
  concat (map (fun p => [p.1; p.2]) pairs).

(** The values [np.isfinite] accepts that are not negative. *)
Definition nonneg_finite (v : float) : Prop :=
  match v with
  | S754_zero false | S754_finite false _ _ => True
  | _ => False
  end.

(** A line of numbers whose stored error is the absolute difference of
    its two values. *)
Definition consistent_row (r : CsvRow) : Prop :=
  F64.isinf (csv_t r) = false /\ F64.isinf (csv_x r) = false
  /\ exists a b,
       csv_u_numeric r = Num a /\ csv_u_exact r = Num b
       /\ F64.isfinite a = true /\ F64.isfinite b = true
       /\ csv_error r = Num (F64.abs (F64.sub a b))
       /\ F64.isfinite (F64.abs (F64.sub a b)) = true.

(** A command line the [__main__] block rejects. *)
Definition malformed (argv : list string) : Prop :=
  length argv < 2
  \/ (argv !! 1 = Some "compare"%string
      /\ (length argv < 4 \/ length argv mod 2 <> 0)).

(** A time layer whose number of lines can neither fill a matrix row nor
    be broadcast over it. *)
Definition irregular_layer (df : DataFrame) (ncols : nat) (tv : float) : bool :=
  negb (length (rows_at df tv) =? ncols) && negb (length (rows_at df tv) =? 1).

(** No two elements of the list are one key of [Series.unique]. *)
Fixpoint all_distinct (l : list float) : Prop :=
  match l with
  | [] => True
  | a :: l' => Forall (fun b => same_key a b = false) l' /\ all_distinct l'
  end.


(** The same for the older loop, which takes the colour and the marker of
    a position modulo four. *)
Fixpoint legacy_entries_from (fs : FileSystem) (i : nat)
    (pairs : list (string * string)) : list MethodEntry :=
  match pairs with
  | [] => []
  | (csv_file, method) :: rest =>
      match fs !! csv_file, colors !! (i mod 4), markers !! (i mod 4) with
      | Some file, Some color, Some marker =>
          Legacy.method_entry i method color marker file
          :: legacy_entries_from fs (S i) rest
      | _, _, _ => legacy_entries_from fs (S i) rest
      end
  end.

(** The warnings for the sources that do not exist, in order. *)
Definition warnings_of (fs : FileSystem) (pairs : list (string * string))
    : list message :=
  map (fun p => MsgWarningSkipped p.1)
      (List.filter (fun p => negb (bool_decide (is_Some (fs !! p.1)))) pairs).

(** The literals pandas reads as booleans when a column holds nothing
    else. *)
Definition boolean_literals : list string :=
  ["True"; "TRUE"; "true"; "False"; "FALSE"; "false"]%string.

(** A non-numeric token: text that is neither a number nor a boolean
    literal. A column holding one is read as a column of strings, which
    [pd.to_numeric] coerces cell by cell. *)
Definition non_numeric (c : token) : bool :=
  match c with
  | Text s => negb (bool_decide (s ∈ boolean_literals))
  | Num _ => false
  end.

(** A double without a fractional part. *)
Definition whole_number (f : float) : bool :=
  match f with
  | S754_zero _ => true
  | S754_finite _ m e => (0 <=? e)%Z || (Z.pos m mod 2 ^ (- e) =? 0)%Z
  | S754_infinity _ | S754_nan => false
  end.

(** pandas types a column as a whole: int64 when every cell is an integer
    literal, bool when every cell is a boolean literal, and arithmetic on
    two int64 columns wraps around. The embedding coerces cell by cell
    and computes in binary64, which is what the scripts do on a column
    that cannot be read as integers or booleans: one holding a fraction,
    an infinity or a non-numeric token. *)
Definition forces_float64 (c : token) : bool :=
  match c with
  | Num f => negb (whole_number f) && negb (F64.isnan f)
  | Text _ => non_numeric c
  end.

Definition float64_column (col : CsvRow -> token) (file : CsvFile) : bool :=
  existsb (fun r => forces_float64 (col r)) (csv_rows file).

(** The exception a computation ended with, if any. *)
Definition raised {A} (r : result A) : option exn :=
  match r with
  | Ok _ => None
  | Raise e => Some e
  end.

Definition nan_summary : ErrorSummary :=
  {| l2_error := F64.nan; linf_error := F64.nan; mean_error := F64.nan |}.

Definition zero_summary : ErrorSummary :=
  {| l2_error := F64.zero; linf_error := F64.zero; mean_error := F64.zero |}.

(** ** Sample inputs *)

Definition num (z : Z) : token := Num (F64.of_Z z).

Definition sample_row (tv xv : Z) (u e err : token) : CsvRow :=
  {| csv_t := F64.of_Z tv; csv_x := F64.of_Z xv;
     csv_u_numeric := u; csv_u_exact := e; csv_error := err |}.

(** [t] in {0, 1}, [x] in {0, 1}, numeric equal to exact on every line;
    the stored [error] column says 7 throughout. *)
Definition exact_2x2 : CsvFile :=
  {| has_error_column := true;
     csv_rows := [ sample_row 0 0 (num 1) (num 1) (num 7);
                   sample_row 0 1 (num 2) (num 2) (num 7);
                   sample_row 1 0 (num 3) (num 3) (num 7);
                   sample_row 1 1 (num 4) (num 4) (num 7) ] |}.

(** The same grid with a placeholder in [u_numeric] at the final time. *)
Definition placeholder_2x2 : CsvFile :=
  {| has_error_column := false;
     csv_rows := [ sample_row 0 0 (num 1) (num 1) (num 0);
                   sample_row 0 1 (num 2) (num 2) (num 0);
                   sample_row 1 0 (Text "diverged") (num 3) (num 0);
                   sample_row 1 1 (num 5) (num 4) (num 0) ] |}.

(** A final time layer without a single valid error. *)
Definition invalid_final_2x2 : CsvFile :=
  {| has_error_column := false;
     csv_rows := [ sample_row 0 0 (num 1) (num 1) (num 0);
                   sample_row 0 1 (num 2) (num 2) (num 0);
                   sample_row 1 0 (Text "diverged") (num 3) (num 0);
                   sample_row 1 1 (num 5) (Text "--") (num 0) ] |}.

(** File systems holding these files. *)
Definition fs_exact : FileSystem := {[ "ftcs.csv" := exact_2x2 ]}.
Definition fs_placeholder : FileSystem := {[ "cn.csv" := placeholder_2x2 ]}.
Definition fs_invalid : FileSystem := {[ "cn.csv" := invalid_final_2x2 ]}.
Definition fs_first_and_third : FileSystem :=
  {[ "ftcs.csv" := exact_2x2; "cn.csv" := placeholder_2x2 ]}.
Definition fs_second_only : FileSystem := {[ "btcs.csv" := exact_2x2 ]}.

(** [exact_2x2] without its [error] column. *)
Definition exact_2x2_without_error : CsvFile :=
  {| has_error_column := false;
     csv_rows := [ sample_row 0 0 (num 1) (num 1) (Text "");
                   sample_row 0 1 (num 2) (num 2) (Text "");
                   sample_row 1 0 (num 3) (num 3) (Text "");
                   sample_row 1 1 (num 4) (num 4) (Text "") ] |}.

Definition fs_without_error : FileSystem :=
  {[ "ftcs.csv" := exact_2x2_without_error ]}.

(** The 2x2 grid with a stored [error] column that is right. *)
Definition consistent_2x2 : CsvFile :=
  {| has_error_column := true;
     csv_rows := [ sample_row 0 0 (num 1) (num 1) (num 0);
                   sample_row 0 1 (num 2) (num 2) (num 0);
                   sample_row 1 0 (num 3) (num 5) (num 2);
                   sample_row 1 1 (num 4) (num 4) (num 0) ] |}.

Definition fs_consistent : FileSystem := {[ "cn.csv" := consistent_2x2 ]}.

(** A header without lines, and a grid that lost one line of its first
    layer. *)
Definition empty_file : CsvFile :=
  {| has_error_column := true; csv_rows := [] |}.

Definition ragged_file : CsvFile :=
  {| has_error_column := true;
     csv_rows := [ sample_row 0 0 (num 1) (num 1) (num 0);
                   sample_row 0 1 (num 2) (num 2) (num 0);
                   sample_row 1 0 (num 3) (num 3) (num 0);
                   sample_row 1 1 (num 4) (num 4) (num 0);
                   sample_row 1 2 (num 5) (num 5) (num 0);
                   sample_row 0 2 (num 5) (num 5) (num 0);
                   sample_row 2 0 (num 6) (num 6) (num 0);
                   sample_row 2 1 (num 7) (num 7) (num 0) ] |}.

Definition fs_edge : FileSystem :=
  {[ "empty.csv" := empty_file; "ragged.csv" := ragged_file ]}.

(** A grid of three positions that lost one line of its second layer and
    has a non-numeric token in [u_numeric]. *)
Definition ragged_text_file : CsvFile :=
  {| has_error_column := false;
     csv_rows := [ sample_row 0 0 (num 1) (num 1) (num 0);
                   sample_row 0 1 (num 2) (num 2) (num 0);
                   sample_row 0 2 (num 3) (num 3) (num 0);
                   sample_row 1 0 (Text "diverged") (num 3) (num 0);
                   sample_row 1 1 (num 5) (num 4) (num 0) ] |}.

Definition fs_ragged_text : FileSystem := {[ "cn.csv" := ragged_text_file ]}.

(** The 2x2 grid written with fractions; the stored [error] column is the
    absolute difference of the two value columns. *)
Definition frac (n d : Z) : token := Num (F64.div (F64.of_Z n) (F64.of_Z d)).

Definition fractional_2x2 : CsvFile :=
  {| has_error_column := true;
     csv_rows := [ sample_row 0 0 (frac 3 2) (frac 3 2) (num 0);
                   sample_row 0 1 (frac 5 2) (frac 5 2) (num 0);
                   sample_row 1 0 (frac 7 2) (num 5) (frac 3 2);
                   sample_row 1 1 (frac 9 2) (frac 9 2) (num 0) ] |}.

Definition fs_fractional : FileSystem := {[ "cn.csv" := fractional_2x2 ]}.

(** [n] time layers [0, 1, ..., n - 1] with one position each. *)
Definition ramp_file (n : nat) : CsvFile :=
  {| has_error_column := false;
     csv_rows := map (fun i => sample_row (Z.of_nat i) 0 (num 1) (num 1) (num 0))
                     (seq 0 n) |}.

(** * Properties *)

(** ** Binary64 facts *)

Section Rounding.
Local Open Scope Z_scope.

Lemma digits2_pos_bounds (p : positive) :
  2 ^ (Zpos (digits2_pos p) - 1) <= Zpos p < 2 ^ Zpos (digits2_pos p).
Proof.
  induction p as [p IH | p IH | ]; cbn [digits2_pos].
  - rewrite Pos2Z.inj_succ.
    replace (Z.succ (Zpos (digits2_pos p)) - 1)
      with (Z.succ (Zpos (digits2_pos p) - 1)) by lia.
    rewrite !Z.pow_succ_r by lia. lia.
  - rewrite Pos2Z.inj_succ.
    replace (Z.succ (Zpos (digits2_pos p)) - 1)
      with (Z.succ (Zpos (digits2_pos p) - 1)) by lia.
    rewrite !Z.pow_succ_r by lia. lia.
  - cbn. lia.
Qed.

Lemma shr_1_m (mrs : shr_record) :
  0 <= shr_m mrs -> shr_m (shr_1 mrs) = shr_m mrs / 2.
Proof.
  destruct mrs as [m r s]; cbn [shr_m]. intros Hm.
  destruct m as [ | [p | p | ] | p ]; cbn [shr_1 shr_m]; try lia;
    try reflexivity.
  - apply Z.div_unique with (r := 1); [lia | rewrite Pos2Z.inj_xI; lia].
  - apply Z.div_unique with (r := 0); [lia | rewrite Pos2Z.inj_xO; lia].
Qed.

Lemma iter_pos_shr_1_m (n : positive) : forall mrs : shr_record,
  0 <= shr_m mrs ->
  shr_m (SpecFloat.iter_pos shr_1 n mrs) = shr_m mrs / 2 ^ Zpos n.
Proof.
  induction n as [n IH | n IH | ]; intros mrs Hm; cbn [SpecFloat.iter_pos].
  - assert (Hp : 0 < 2 ^ Zpos n) by (apply Z.pow_pos_nonneg; lia).
    assert (H1 : 0 <= shr_m (shr_1 mrs))
      by (rewrite shr_1_m by lia; apply Z.div_pos; lia).
    assert (H2 : 0 <= shr_m (SpecFloat.iter_pos shr_1 n (shr_1 mrs)))
      by (rewrite IH by lia; apply Z.div_pos; lia).
    rewrite IH, IH, shr_1_m by lia.
    rewrite !Z.div_div by lia.
    f_equal.
    assert (E : Zpos n~1 = 1 + Zpos n + Zpos n) by lia.
    rewrite E, !Z.pow_add_r by lia. lia.
  - assert (Hp : 0 < 2 ^ Zpos n) by (apply Z.pow_pos_nonneg; lia).
    assert (H2 : 0 <= shr_m (SpecFloat.iter_pos shr_1 n mrs))
      by (rewrite IH by lia; apply Z.div_pos; lia).
    rewrite IH, IH by lia.
    rewrite !Z.div_div by lia.
    f_equal.
    assert (E : Zpos n~0 = Zpos n + Zpos n) by lia.
    rewrite E, !Z.pow_add_r by lia. lia.
  - rewrite shr_1_m by lia. reflexivity.
Qed.

Lemma shr_m_record_of_loc m l : shr_m (shr_record_of_loc m l) = m.
Proof. destruct l as [ | [ | | ]]; reflexivity. Qed.

(** Shifting a positive mantissa down to its format exponent leaves a
    positive mantissa, at an exponent no smaller than [emin]. *)
Lemma shr_fexp_positive (m e : Z) (l : location) :
  0 < m ->
  emin F64.prec F64.emax < Zdigits2 m + e ->
  0 < shr_m (fst (shr_fexp F64.prec F64.emax m e l))
  /\ emin F64.prec F64.emax <= snd (shr_fexp F64.prec F64.emax m e l).
Proof.
  intros Hm Hd. unfold shr_fexp, shr.
  destruct m as [ | p | p ]; try lia. cbn [Zdigits2] in *.
  pose proof (digits2_pos_bounds p) as [Hlo _].
  set (d := Zpos (digits2_pos p)) in *.
  assert (Hf : emin F64.prec F64.emax <= fexp F64.prec F64.emax (d + e))
    by (unfold fexp; lia).
  assert (Hn : fexp F64.prec F64.emax (d + e) - e <= d - 1)
    by (unfold fexp, F64.prec in *; lia).
  destruct (fexp F64.prec F64.emax (d + e) - e) as [ | n | n ] eqn:En;
    cbn [fst snd].
  - rewrite shr_m_record_of_loc. lia.
  - rewrite iter_pos_shr_1_m by (rewrite shr_m_record_of_loc; lia).
    rewrite shr_m_record_of_loc. split; [ | lia].
    apply Z.div_str_pos. split; [apply Z.pow_pos_nonneg; lia | ].
    transitivity (2 ^ (d - 1)); [ | exact Hlo].
    apply Z.pow_le_mono_r; lia.
  - rewrite shr_m_record_of_loc. lia.
Qed.

Lemma round_nearest_even_ge (m : Z) (l : location) :
  m <= round_nearest_even m l.
Proof.
  destruct l as [ | [ | | ]]; cbn; try lia. destruct (Z.even m); lia.
Qed.

Lemma Zdigits2_positive (m : Z) : 0 < m -> 0 < Zdigits2 m.
Proof. destruct m; cbn; lia. Qed.

Lemma binary_round_aux_positive (s : bool) (m e : Z) (l : location) :
  0 < m ->
  emin F64.prec F64.emax < Zdigits2 m + e ->
  (exists m' e',
      binary_round_aux F64.prec F64.emax s m e l = S754_finite s m' e')
  \/ binary_round_aux F64.prec F64.emax s m e l = S754_infinity s.
Proof.
  intros Hm Hd. unfold binary_round_aux.
  destruct (shr_fexp_positive m e l Hm Hd) as [H1 H2].
  destruct (shr_fexp F64.prec F64.emax m e l) as [mrs' e'] eqn:E1.
  cbn [fst snd] in *.
  pose proof (round_nearest_even_ge (shr_m mrs') (loc_of_shr_record mrs')) as Hr.
  set (m2 := round_nearest_even (shr_m mrs') (loc_of_shr_record mrs')) in *.
  assert (Hm2 : 0 < m2) by lia.
  pose proof (Zdigits2_positive m2 Hm2) as Hd2.
  destruct (shr_fexp_positive m2 e' loc_Exact Hm2 ltac:(lia)) as [H3 _].
  destruct (shr_fexp F64.prec F64.emax m2 e' loc_Exact) as [mrs'' e''] eqn:E2.
  cbn [fst snd] in *.
  destruct (shr_m mrs'') as [ | q | q ]; try lia.
  destruct (Z.leb e'' (F64.emax - F64.prec)); eauto.
Qed.

(** A positive count converts to a positive double (or to infinity past
    the range): never to zero, never to NaN. *)
Lemma of_nat_positive (n : nat) :
  (0 < n)%nat ->
  (exists m e, F64.of_nat n = S754_finite false m e)
  \/ F64.of_nat n = S754_infinity false.
Proof.
  intros Hn. unfold F64.of_nat, F64.of_Z, binary_normalize.
  destruct (Z.of_nat n) as [ | p | p ] eqn:Ep; try lia.
  unfold binary_round, shl_align.
  set (d := Zpos (digits2_pos p)).
  assert (Hf : emin F64.prec F64.emax <= fexp F64.prec F64.emax (d + 0))
    by (unfold fexp; lia).
  destruct (fexp F64.prec F64.emax (d + 0) - 0) as [ | k | k ] eqn:Ek.
  - apply binary_round_aux_positive; [lia | ]. cbn [Zdigits2]. fold d.
    unfold emin, F64.prec, F64.emax. lia.
  - apply binary_round_aux_positive; [lia | ]. cbn [Zdigits2]. fold d.
    unfold emin, F64.prec, F64.emax. lia.
  - apply binary_round_aux_positive; [lia | ].
    pose proof (Zdigits2_positive (Zpos (Pos.iter xO p k)) ltac:(lia)). lia.
Qed.

End Rounding.

Section Order.
Local Open Scope Z_scope.

Ltac compare_cases :=
  repeat match goal with
    | |- context [Z.compare ?a ?b] => destruct (Z.compare_spec a b)
    | |- context [Pos.compare_cont Eq ?a ?b] =>
        change (Pos.compare_cont Eq a b) with (Pos.compare a b);
        destruct (Pos.compare_spec a b)
    end.

Lemma leb_rank (a b : float) :
  F64.leb a b = true <->
  F64.isnan a = false /\ F64.isnan b = false /\ lex_le (rank a) (rank b).
Proof.
  unfold F64.leb, SFleb, lex_le.
  destruct a as [[|]|[|]| |[|] ma ea], b as [[|]|[|]| |[|] mb eb];
    cbn; compare_cases; cbn;
    (split;
     [ intros Hc; try discriminate; repeat split; try reflexivity; lia
     | intros (? & ? & ?); try discriminate; try reflexivity; subst; lia ]).
Qed.

Lemma ltb_rank (a b : float) :
  F64.ltb a b = true <->
  F64.isnan a = false /\ F64.isnan b = false /\ ~ lex_le (rank b) (rank a).
Proof.
  unfold F64.ltb, SFltb, lex_le.
  destruct a as [[|]|[|]| |[|] ma ea], b as [[|]|[|]| |[|] mb eb];
    cbn; compare_cases; cbn;
    (split;
     [ intros Hc; try discriminate; repeat split; try reflexivity; lia
     | intros (? & ? & ?); try discriminate; try reflexivity; subst; lia ]).
Qed.

Lemma eqb_rank (a b : float) :
  F64.eqb a b = true <->
  F64.isnan a = false /\ F64.isnan b = false /\ rank a = rank b.
Proof.
  unfold F64.eqb, SFeqb.
  destruct a as [[|]|[|]| |[|] ma ea], b as [[|]|[|]| |[|] mb eb];
    cbn; compare_cases; cbn;
    (split;
     [ intros Hc; try discriminate; repeat split; try reflexivity;
       subst; reflexivity
     | intros (? & ? & E); try discriminate; try reflexivity;
       inversion E; subst; lia ]).
Qed.

Lemma lex_le_trans p q r : lex_le p q -> lex_le q r -> lex_le p r.
Proof. unfold lex_le. lia. Qed.

Lemma lex_le_total p q : lex_le p q \/ lex_le q p.
Proof. unfold lex_le. lia. Qed.

Lemma lex_le_refl p : lex_le p p.
Proof. unfold lex_le. lia. Qed.

End Order.


(** ** Frames, selections and orderings *)

Lemma boolean_index_map {A B} (p : A -> bool) (f : A -> B) (l : list A) :
  boolean_index (map p l) (map f l) = map f (List.filter p l).
Proof.
  unfold boolean_index.
  induction l as [ | a l IH]; [reflexivity | ].
  cbn. destruct (p a); cbn; rewrite IH; reflexivity.
Qed.

Lemma err_valid_filter (fd : DataFrame) :
  err_valid fd = column error (List.filter (fun r => F64.isfinite (error r)) fd).
Proof. apply (boolean_index_map (fun r => F64.isfinite (error r))). Qed.

Lemma x_valid_filter (fd : DataFrame) :
  x_valid fd = column x (List.filter (fun r => F64.isfinite (error r)) fd).
Proof. apply (boolean_index_map (fun r => F64.isfinite (error r))). Qed.

Lemma insert_by_perm {A} (key : A -> float) (a : A) (l : list A) :
  insert_by key a l ≡ₚ a :: l.
Proof.
  induction l as [ | b l IH]; cbn; [reflexivity | ].
  destruct (F64.ltb (key b) (key a)); [ | reflexivity].
  rewrite IH. apply Permutation_swap.
Qed.

Lemma sort_by_perm {A} (key : A -> float) (l : list A) :
  sort_by key l ≡ₚ l.
Proof.
  induction l as [ | a l IH]; cbn; [reflexivity | ].
  rewrite insert_by_perm, IH. reflexivity.
Qed.

Lemma filter_split_perm {A} (p : A -> bool) (l : list A) :
  List.filter (fun a => negb (p a)) l ++ List.filter p l ≡ₚ l.
Proof.
  induction l as [ | a l IH]; cbn; [reflexivity | ].
  destruct (p a); cbn.
  - rewrite <- Permutation_middle. rewrite IH. reflexivity.
  - rewrite IH. reflexivity.
Qed.

Lemma sort_values_x_perm (df : DataFrame) : sort_values_x df ≡ₚ df.
Proof.
  unfold sort_values_x. rewrite sort_by_perm.
  apply (filter_split_perm (fun r => F64.isnan (x r))).
Qed.

Lemma sort_values_x_length (df : DataFrame) :
  length (sort_values_x df) = length df.
Proof. apply Permutation_length, sort_values_x_perm. Qed.

Lemma sorted_perm (l : list float) : sorted l ≡ₚ l.
Proof. apply sort_by_perm. Qed.

Lemma sorted_length (l : list float) : length (sorted l) = length l.
Proof. apply Permutation_length, sorted_perm. Qed.

Lemma unique_subset (l : list float) (v : float) : v ∈ unique l -> v ∈ l.
Proof.
  induction l as [ | a l IH]; cbn; [trivial | ].
  rewrite !elem_of_cons, list_elem_of_In, filter_In, <- list_elem_of_In.
  intros [-> | [H _]]; auto.
Qed.

(** Every value of the column is represented in [unique] by a value that
    compares equal to it. *)
Lemma unique_covers (l : list float) (v : float) :
  v ∈ l -> exists u, u ∈ unique l /\ same_key u v = true.
Proof.
  induction l as [ | a l IH]; cbn.
  - intros H. inversion H.
  - rewrite elem_of_cons. intros [-> | Hv].
    + exists a. split; [left | ].
      unfold same_key. destruct (F64.isnan a) eqn:En.
      * rewrite orb_true_r. reflexivity.
      * replace (F64.eqb a a) with true; [reflexivity | ].
        symmetry. apply eqb_rank. auto.
    + destruct (IH Hv) as (u & Hu & Hk).
      destruct (same_key a u) eqn:Ea.
      * exists a. split; [left | ].
        unfold same_key in *.
        apply orb_true_iff in Ea, Hk. apply orb_true_iff.
        destruct Ea as [Ea | Ea], Hk as [Hk | Hk].
        -- left. apply eqb_rank in Ea, Hk. apply eqb_rank.
           destruct Ea as (? & ? & ?), Hk as (? & ? & ?). repeat split; congruence.
        -- apply eqb_rank in Ea. apply andb_true_iff in Hk.
           destruct Ea as (? & ? & ?), Hk. congruence.
        -- apply eqb_rank in Hk. apply andb_true_iff in Ea.
           destruct Hk as (? & ? & ?), Ea. congruence.
        -- right. apply andb_true_iff in Ea, Hk. apply andb_true_iff. tauto.
      * exists u. split; [ | exact Hk].
        right. rewrite list_elem_of_In, filter_In, <- list_elem_of_In.
        rewrite Ea. auto.
Qed.


Lemma insert_by_head {A} (key : A -> float) (a : A) (l : list A) :
  head (insert_by key a l) =
  match l with
  | [] => Some a
  | b :: _ => if F64.ltb (key b) (key a) then Some b else Some a
  end.
Proof.
  destruct l as [ | b l]; cbn; [reflexivity | ].
  destruct (F64.ltb _ _); reflexivity.
Qed.

Lemma leb_refl (a : float) : F64.isnan a = false -> F64.leb a a = true.
Proof. intros H. apply leb_rank. auto using lex_le_refl. Qed.

Lemma leb_trans (a b c : float) :
  F64.leb a b = true -> F64.leb b c = true -> F64.leb a c = true.
Proof.
  rewrite !leb_rank. intros (? & ? & ?) (? & ? & ?).
  eauto using lex_le_trans.
Qed.

Lemma ltb_leb (a b : float) : F64.ltb a b = true -> F64.leb a b = true.
Proof.
  rewrite ltb_rank, leb_rank. intros (? & ? & Hn). repeat split; auto.
  destruct (lex_le_total (rank a) (rank b)); tauto.
Qed.

Lemma not_ltb_leb (a b : float) :
  F64.isnan a = false -> F64.isnan b = false ->
  F64.ltb b a = false -> F64.leb a b = true.
Proof.
  intros Ha Hb Hlt. apply leb_rank. repeat split; auto.
  destruct (F64.leb a b) eqn:E; [apply leb_rank in E; tauto | ].
  exfalso. assert (F64.ltb b a = true) as Hc; [ | congruence].
  apply ltb_rank. repeat split; auto.
  intros Hle. assert (F64.leb a b = true); [ | congruence].
  apply leb_rank. auto.
Qed.

(** The head of a sorted NaN-free list is one of its elements and is
    below all of them. *)
Lemma sorted_head_least (l : list float) (m : float) :
  Forall (fun v => F64.isnan v = false) l ->
  head (sorted l) = Some m ->
  m ∈ l /\ Forall (fun v => F64.leb m v = true) l.
Proof.
  revert m. induction l as [ | a l IH]; intros m Hn Hh; [discriminate | ].
  inversion Hn as [ | ? ? Ha Hl]; subst.
  unfold sorted in *.
  change (sort_by id (a :: l)) with (insert_by id a (sort_by id l)) in Hh.
  rewrite insert_by_head in Hh.
  destruct (sort_by id l) as [ | b s] eqn:Es.
  - assert (l = []) as ->.
    { apply Permutation_nil_r. rewrite <- Es. symmetry. apply sort_by_perm. }
    inversion Hh; subst. split; [left | ].
    constructor; [ | constructor]. apply leb_refl, Ha.
  - destruct (IH b Hl eq_refl) as [Hb Hall].
    assert (Hbn : F64.isnan b = false).
    { rewrite Forall_forall in Hl. apply Hl, Hb. }
    unfold id in Hh.
    destruct (F64.ltb b a) eqn:Elt; inversion Hh; subst.
    + split; [right; exact Hb | ].
      constructor; [ | exact Hall]. apply ltb_leb, Elt.
    + split; [left | ].
      assert (Hab : F64.leb m b = true) by (apply not_ltb_leb; assumption).
      constructor; [apply leb_refl, Ha | ].
      eapply Forall_impl; [exact Hall | ].
      intros v Hv. cbn in Hv. eapply leb_trans; eassumption.
Qed.

(** [l[-1]] of a non-empty list is one of its elements. *)
Lemma last_item_elem {A} (l : list A) (a : A) : last_item l = Ok a -> a ∈ l.
Proof.
  unfold last_item. destruct (last l) as [b | ] eqn:E; [ | discriminate].
  intros [= ->]. apply last_Some in E as [l' ->].
  apply elem_of_app. right. left.
Qed.

Lemma last_item_nonempty {A} (l : list A) :
  l <> [] -> exists a, last_item l = Ok a.
Proof.
  intros Hl. unfold last_item. destruct (last l) as [b | ] eqn:E; eauto.
  apply last_None in E. contradiction.
Qed.

Lemma times_of_nonempty (df : DataFrame) : df <> [] -> times_of df <> [].
Proof.
  intros Hdf Ht. unfold times_of in Ht.
  apply (f_equal length) in Ht. rewrite sorted_length in Ht.
  destruct df as [ | r df]; [contradiction | ]. cbn in Ht. discriminate.
Qed.

Lemma times_of_elem (df : DataFrame) (tv : float) :
  tv ∈ times_of df -> exists r, r ∈ df /\ t r = tv.
Proof.
  unfold times_of. rewrite sorted_perm. intros H%unique_subset.
  unfold values, column in H. rewrite map_map in H. cbn in H.
  apply list_elem_of_fmap in H as (r & -> & Hr). eauto.
Qed.

(** Samples of [np.linspace(0, n - 1, min(6, n), dtype=int)] index [times]. *)
Lemma linspace_int_in_range (n i : nat) :
  i ∈ linspace_int (n - 1) (Nat.min 6 n) -> i < n.
Proof.
  unfold linspace_int. intros H.
  apply list_elem_of_fmap in H as (k & -> & Hk).
  apply elem_of_seq in Hk.
  destruct (1 <? Nat.min 6 n) eqn:E1.
  - apply Nat.ltb_lt in E1.
    destruct (k =? Nat.min 6 n - 1) eqn:E2; [lia | ].
    apply Nat.eqb_neq in E2.
    apply Nat.Div0.div_lt_upper_bound. nia.
  - lia.
Qed.

Lemma for_enumerate_ok {A St} (body : St -> nat -> A -> result St)
    (P : A -> Prop) (l : list A) :
  (forall s i a, P a -> exists s', body s i a = Ok s') ->
  Forall P l ->
  forall i s, exists s', for_enumerate body i l s = Ok s'.
Proof.
  intros Hb. induction 1 as [ | a l Ha Hl IH]; intros i s; cbn; [eauto | ].
  destruct (Hb s i a Ha) as [s' ->]. apply IH.
Qed.

Lemma evolution_panel_ok (df : DataFrame) (times : list float) :
  exists curves, evolution_panel df times = Ok curves.
Proof.
  unfold evolution_panel.
  apply for_enumerate_ok with (P := fun i => i < length times).
  - intros s i a Ha. unfold list_item.
    destruct (lookup_lt_is_Some_2 times a Ha) as [tv ->]. cbn. eauto.
  - apply Forall_forall. intros i Hi. apply linspace_int_in_range. exact Hi.
Qed.

(** ** The heat map *)

Lemma stride_from_length {A} (step : nat) (l : list A) : forall skip,
  skip < step ->
  length (stride_from step skip l) = (length l + (step - 1 - skip)) / step.
Proof.
  induction l as [ | a l IH]; intros skip Hs; cbn [stride_from length].
  - symmetry. apply Nat.div_small. lia.
  - destruct skip as [ | k].
    + cbn [length]. rewrite IH by lia.
      replace (step - 1 - (step - 1)) with 0 by lia.
      replace (S (length l) + (step - 1 - 0)) with (length l + 1 * step) by lia.
      rewrite Nat.div_add by lia. rewrite Nat.add_0_r. lia.
    + rewrite IH by lia. f_equal. lia.
Qed.

Lemma slice_step_length {A} (step : nat) (l : list A) :
  0 < step -> length (slice_step step l) = ceil_div (length l) step.
Proof.
  intros Hs. unfold slice_step, ceil_div.
  rewrite stride_from_length by lia. f_equal. lia.
Qed.

Lemma slice_step_head {A} (step : nat) (l : list A) :
  head (slice_step step l) = head l.
Proof. destruct l; reflexivity. Qed.

Lemma step_of_positive (t_vals : list float) : 0 < step_of t_vals.
Proof. unfold step_of. lia. Qed.

(** The row count [ceil(n / max(1, n // 50))] as a function of [n]. *)
Lemma row_count_small (n : nat) :
  n < 50 -> ceil_div n (Nat.max 1 (n / 50)) = n.
Proof.
  intros Hn. rewrite (Nat.div_small n 50) by lia. cbn [Nat.max].
  unfold ceil_div. rewrite Nat.div_1_r. lia.
Qed.

Lemma row_count_large (n : nat) :
  50 <= n ->
  ceil_div n (Nat.max 1 (n / 50)) = 50 + (n mod 50 + n / 50 - 1) / (n / 50).
Proof.
  intros Hn. pose proof (Nat.div_mod_eq n 50) as E.
  pose proof (Nat.mod_upper_bound n 50 ltac:(lia)) as Hr.
  set (k := n / 50) in *. set (r := n mod 50) in *.
  assert (Hk : 1 <= k) by (unfold k; apply Nat.div_le_lower_bound; lia).
  rewrite Nat.max_r by lia. unfold ceil_div.
  replace (n + k - 1) with ((r + k - 1) + 50 * k) by lia.
  rewrite Nat.div_add by lia. lia.
Qed.

Lemma row_count_bounds (n : nat) :
  ceil_div n (Nat.max 1 (n / 50)) <= 99
  /\ (ceil_div n (Nat.max 1 (n / 50)) <= 50 <-> n <= 50 \/ n mod 50 = 0).
Proof.
  destruct (Nat.lt_ge_cases n 50) as [Hn | Hn].
  - rewrite row_count_small by lia. lia.
  - rewrite row_count_large by lia.
    pose proof (Nat.div_mod_eq n 50) as E.
    pose proof (Nat.mod_upper_bound n 50 ltac:(lia)) as Hr.
    set (k := n / 50) in *. set (r := n mod 50) in *.
    assert (Hk : 1 <= k) by (unfold k; apply Nat.div_le_lower_bound; lia).
    assert (Hq : (r + k - 1) / k <= r).
    { apply Nat.lt_succ_r. apply Nat.Div0.div_lt_upper_bound. nia. }
    split; [lia | ].
    split.
    + intros H. right.
      assert (Hz : (r + k - 1) / k = 0) by lia.
      apply Nat.div_small_iff in Hz; lia.
    + intros H.
      assert (H0 : r = 0) by (destruct H as [H | H]; [lia | exact H]).
      assert (Hz : (r + k - 1) / k = 0) by (apply Nat.div_small; lia).
      lia.
Qed.

Lemma assign_row_length (ncols : nat) (vals row : list float) :
  assign_row ncols vals = Ok row -> length row = ncols.
Proof.
  unfold assign_row. destruct (length vals =? ncols) eqn:E.
  - intros [= <-]. apply Nat.eqb_eq, E.
  - destruct vals as [ | v [ | ? ?]]; try discriminate.
    intros [= <-]. apply length_replicate.
Qed.

Lemma layer_row_length (df : DataFrame) (ncols : nat) (tv : float) row :
  layer_row df ncols tv = Ok row -> length row = ncols.
Proof. apply assign_row_length. Qed.

(** The loop of lines 139-142 keeps the shape of the matrix, leaves the
    rows before its first index alone, and writes row [i + k] from the
    [k]-th time it is given. *)
Lemma fill_loop_spec (df : DataFrame) (ncols : nat) (l : list float) :
  forall (i : nat) (m m' : list (list float)),
  for_enumerate
    (fun m i tv => row ← layer_row df ncols tv; Ok (<[i := row]> m)) i l m
  = Ok m' ->
  length m' = length m
  /\ (forall j, j < i -> m' !! j = m !! j)
  /\ (forall k tv, l !! k = Some tv -> i + k < length m ->
        exists row, layer_row df ncols tv = Ok row /\ m' !! (i + k) = Some row)
  /\ (Forall (fun row => length row = ncols) m ->
      Forall (fun row => length row = ncols) m').
Proof.
  induction l as [ | tv l IH]; intros i m m' H; cbn in H.
  - injection H as <-. repeat split; auto.
    intros k tv Hk. rewrite lookup_nil in Hk. discriminate.
  - destruct (layer_row df ncols tv) as [row | e] eqn:Er; cbn in H; [ | discriminate].
    apply IH in H as (Hlen & Hbefore & Hrows & Hshape).
    rewrite length_insert in Hlen.
    split; [exact Hlen | ].
    split; [ | split].
    + intros j Hj. rewrite Hbefore by lia.
      apply list_lookup_insert_ne. lia.
    + intros k tv' Hk Hik. destruct k as [ | k]; cbn in Hk.
      * injection Hk as <-. exists row. split; [exact Er | ].
        rewrite Nat.add_0_r. rewrite Hbefore by lia.
        apply list_lookup_insert_eq. lia.
      * replace (i + S k) with (S i + k) by lia.
        apply Hrows; [exact Hk | rewrite length_insert; lia].
    + intros Hm. apply Hshape.
      apply Forall_insert; [exact Hm | ].
      eapply layer_row_length, Er.
Qed.

Lemma build_heatmap_spec (df : DataFrame) (hm : Heatmap) :
  build_heatmap df = Ok hm ->
  x_vals hm = sorted (unique (values (column x df)))
  /\ t_vals_subset hm = slice_step (step_of (times_of df)) (times_of df)
  /\ length (u_matrix hm) = length (t_vals_subset hm)
  /\ Forall (fun row => length row = length (x_vals hm)) (u_matrix hm)
  /\ (forall k tv, t_vals_subset hm !! k = Some tv ->
        exists row, layer_row df (length (x_vals hm)) tv = Ok row
                    /\ u_matrix hm !! k = Some row).
Proof.
  unfold build_heatmap, fill_matrix. fold (times_of df).
  set (xs := sorted (unique (values (column x df)))).
  set (subset := slice_step (step_of (times_of df)) (times_of df)).
  destruct (for_enumerate _ 0 subset _) as [m | e] eqn:E; cbn; [ | discriminate].
  intros [= <-]. cbn.
  apply fill_loop_spec in E as (Hlen & _ & Hrows & Hshape).
  rewrite length_replicate in Hlen.
  repeat split; auto.
  - apply Hshape. apply Forall_replicate. apply length_replicate.
  - intros k tv Hk. apply (Hrows k tv Hk).
    rewrite length_replicate. cbn. apply lookup_lt_Some in Hk. exact Hk.
Qed.

(** ** What the outcome of [plot_results] depends on *)

Lemma values_column (f : Row -> float) (df : DataFrame) :
  values (column f df) = map f df.
Proof. unfold values, column. rewrite map_map. reflexivity. Qed.

Lemma labels_column (f : Row -> float) (df : DataFrame) :
  labels (column f df) = map idx df.
Proof. unfold labels, column. rewrite map_map. reflexivity. Qed.

Lemma load_frame_field {B} (f : Row -> B) (g : nat -> CsvRow -> B) (file : CsvFile) :
  (forall i r, f (replace_inf_row (recompute_error i r)) = g i r) ->
  map f (load_frame file) = imap g (csv_rows file).
Proof.
  intros H. unfold load_frame. rewrite map_map.
  change (map ?h ?l) with (h <$> l). rewrite fmap_imap.
  apply imap_ext. intros i r _. apply H.
Qed.

Lemma load_frame_t (file : CsvFile) :
  map t (load_frame file) = map (fun r => replace_inf (csv_t r)) (csv_rows file).
Proof.
  rewrite (load_frame_field t (fun _ r => replace_inf (csv_t r))) by reflexivity.
  apply imap_const.
Qed.

Lemma load_frame_x (file : CsvFile) :
  map x (load_frame file) = map (fun r => replace_inf (csv_x r)) (csv_rows file).
Proof.
  rewrite (load_frame_field x (fun _ r => replace_inf (csv_x r))) by reflexivity.
  apply imap_const.
Qed.

Lemma load_frame_length (file : CsvFile) :
  length (load_frame file) = length (csv_rows file).
Proof. unfold load_frame. rewrite length_map, length_imap. reflexivity. Qed.

Lemma load_frame_lookup (file : CsvFile) (i : nat) (r : CsvRow) :
  csv_rows file !! i = Some r ->
  load_frame file !! i = Some (replace_inf_row (recompute_error i r)).
Proof.
  intros H. unfold load_frame.
  change (map ?h ?l) with (h <$> l).
  rewrite list_lookup_fmap, list_lookup_imap, H. reflexivity.
Qed.

Lemma same_grid_columns (f g : CsvFile) :
  same_grid f g ->
  map t (load_frame f) = map t (load_frame g)
  /\ map x (load_frame f) = map x (load_frame g).
Proof.
  unfold same_grid. intros H. rewrite !load_frame_t, !load_frame_x.
  split.
  - apply (f_equal (map (fun p => replace_inf (fst p)))) in H.
    rewrite !map_map in H. exact H.
  - apply (f_equal (map (fun p => replace_inf (snd p)))) in H.
    rewrite !map_map in H. exact H.
Qed.

Lemma rows_at_length (df : DataFrame) (tv : float) :
  length (rows_at df tv)
  = length (List.filter (fun v => F64.eqb v tv) (map t df)).
Proof.
  unfold rows_at. induction df as [ | r df IH]; cbn; [reflexivity | ].
  destruct (F64.eqb (t r) tv); cbn; rewrite IH; reflexivity.
Qed.

Lemma raised_assign_row (ncols : nat) (u v : list float) :
  length u = length v ->
  raised (assign_row ncols u) = raised (assign_row ncols v).
Proof.
  intros H. unfold assign_row. rewrite H.
  destruct (length v =? ncols); [reflexivity | ].
  destruct u as [ | ? [ | ? ?]], v as [ | ? [ | ? ?]]; try discriminate;
    cbn in *; try reflexivity; congruence.
Qed.

Lemma raised_layer_row (df df' : DataFrame) (ncols : nat) (tv : float) :
  map t df = map t df' ->
  raised (layer_row df ncols tv) = raised (layer_row df' ncols tv).
Proof.
  intros H. unfold layer_row. apply raised_assign_row.
  rewrite !length_map, !sort_values_x_length, !rows_at_length, H.
  reflexivity.
Qed.

Lemma raised_fill_loop (df df' : DataFrame) (ncols : nat) (l : list float) :
  map t df = map t df' ->
  forall (i : nat) (m m' : list (list float)),
  raised (for_enumerate
            (fun (m : list (list float)) i tv =>
               row ← layer_row df ncols tv; Ok (<[i := row]> m))
            i l m)
  = raised (for_enumerate
              (fun (m : list (list float)) i tv =>
                 row ← layer_row df' ncols tv; Ok (<[i := row]> m))
              i l m').
Proof.
  intros H. induction l as [ | tv l IH]; intros i m m'; cbn; [reflexivity | ].
  pose proof (raised_layer_row df df' ncols tv H) as E.
  destruct (layer_row df ncols tv), (layer_row df' ncols tv);
    cbn in *; try discriminate; [apply IH | exact E].
Qed.

(** Whether the heat map can be built, and the exception if not, is
    decided by the [t] and [x] columns alone. *)
Lemma raised_build_heatmap (df df' : DataFrame) :
  map t df = map t df' -> map x df = map x df' ->
  raised (build_heatmap df) = raised (build_heatmap df').
Proof.
  intros Ht Hx. unfold build_heatmap, fill_matrix.
  rewrite !values_column, Ht, Hx.
  set (xs := sorted (unique (map x df'))).
  set (subset := slice_step _ _).
  pose proof (raised_fill_loop df df' (length xs) subset Ht 0
                (replicate (length subset) (replicate (length xs) F64.zero))
                (replicate (length subset) (replicate (length xs) F64.zero))) as E.
  destruct (for_enumerate _ 0 subset _), (for_enumerate _ 0 subset _);
    cbn in *; try discriminate; [reflexivity | exact E].
Qed.

(** On an existing file [plot_results] stops in two places only: at
    [times[-1]] when the file has no line, and in the heat map. *)
Lemma plot_results_existing (fs : FileSystem) (csv_file method : string)
    (file : CsvFile) :
  fs !! csv_file = Some file ->
  let df := load_frame file in
  exists curves,
    evolution_panel df (times_of df) = Ok curves /\
    plot_results fs csv_file method =
    match last_item (times_of df) with
    | Raise e =>
        MkRun [MsgLoading csv_file; MsgTimeLayers (length (times_of df))] (Raise e)
    | Ok ft =>
        match build_heatmap df with
        | Raise e =>
            MkRun [MsgLoading csv_file; MsgTimeLayers (length (times_of df))]
                  (Raise e)
        | Ok hm =>
            MkRun [MsgLoading csv_file; MsgTimeLayers (length (times_of df));
                   MsgFiguresSaved csv_file;
                   MsgErrorStatistics ft
                     (error_statistics (err_valid (final_data_at df ft)))]
                  (Ok (Some (report_of method df curves ft hm)))
        end
    end.
Proof.
  intros Hfs df. unfold plot_results. rewrite Hfs. fold df. fold (times_of df).
  destruct (evolution_panel_ok df (times_of df)) as [curves Hc].
  exists curves. split; [exact Hc | ].
  rewrite Hc.
  destruct (last_item (times_of df)) as [ft | e]; [ | reflexivity].
  destruct (build_heatmap df) as [hm | e]; reflexivity.
Qed.

Local Open Scope string_scope.

(** ** The logarithmic floor *)

(** [epsilon] is a valid binary64 number and lies within half a unit in
    the last place of [10^-20]. *)
Lemma epsilon_nearest_to_1e_20 :
  valid_binary F64.prec F64.emax epsilon = true
  /\ (2 * Z.abs (6646139978924579 * 10 ^ 20 - 2 ^ 119) <= 10 ^ 20)%Z.
Proof. split; [reflexivity | vm_compute; discriminate]. Qed.

Lemma log_floor_idempotent (v : float) : log_floor (log_floor v) = log_floor v.
Proof.
  unfold log_floor, F64.maximum.
  destruct (F64.leb epsilon v || F64.isnan v) eqn:E.
  - rewrite E. reflexivity.
  - reflexivity.
Qed.

(** C7. The log-axis floor [np.maximum(v, 1e-20)] returns every value
    [v >= epsilon] unchanged, and returns [epsilon] on zero. *)
Theorem log_floor_above_epsilon (v : float) :
  F64.leb epsilon v = true ->
  log_floor v = v
  /\ log_floor F64.zero = epsilon
  /\ log_floor (S754_zero true) = epsilon.
Proof.
  intros H. unfold log_floor, F64.maximum. rewrite H. auto.
Qed.

Lemma log_floor_above_epsilon_witness :
  F64.leb epsilon (F64.of_Z 1) = true
  /\ log_floor (F64.of_Z 1) = F64.of_Z 1.
Proof.
  split; [reflexivity | ].
  apply (log_floor_above_epsilon (F64.of_Z 1)). reflexivity.
Defined.

(** ** Missing sources *)

Lemma compare_loop_skip (fs : FileSystem) (i : nat) (csv_file method : string)
    (rest : list (string * string)) (done : list MethodEntry) :
  fs !! csv_file = None ->
  compare_loop fs i ((csv_file, method) :: rest) done
  = (print (MsgWarningSkipped csv_file);; compare_loop fs (S i) rest done).
Proof.
  intros H. cbn [compare_loop]. unfold compare_step. rewrite H.
  unfold mbind, run_mbind, run_bind, mret, run_mret, run_ret, print. cbn.
  reflexivity.
Qed.

Lemma compare_loop_take (fs : FileSystem) (i : nat) (csv_file method : string)
    (file : CsvFile) (color marker : string)
    (rest : list (string * string)) (done : list MethodEntry) :
  fs !! csv_file = Some file ->
  colors !! i = Some color -> markers !! i = Some marker ->
  compare_loop fs i ((csv_file, method) :: rest) done
  = compare_loop fs (S i) rest
      (done ++ [method_entry i method color marker file]).
Proof.
  intros H Hc Hm. cbn [compare_loop]. unfold compare_step, list_item.
  rewrite H, Hc, Hm.
  unfold mbind, run_mbind, run_bind, mret, run_mret, run_ret, lift. cbn.
  destruct (compare_loop fs (S i) rest _). reflexivity.
Qed.

Lemma compare_loop_out_of_colors (fs : FileSystem) (i : nat)
    (csv_file method : string) (file : CsvFile)
    (rest : list (string * string)) (done : list MethodEntry) :
  fs !! csv_file = Some file -> 4 <= i ->
  compare_loop fs i ((csv_file, method) :: rest) done = MkRun [] (Raise IndexError).
Proof.
  intros H Hi. cbn [compare_loop]. unfold compare_step, list_item.
  rewrite H.
  assert (colors !! i = None) as -> by (apply lookup_ge_None; cbn; lia).
  reflexivity.
Qed.

(** C9 (as the code has it). A source that does not exist makes
    [plot_results] print its error line and return without drawing; the
    script then ends normally, with exit status 0. In comparison mode the
    loop prints a warning and goes on with the remaining pairs. *)
Theorem missing_source_by_mode (fs : FileSystem) (csv_file method : string) :
  fs !! csv_file = None ->
  plot_results fs csv_file method = MkRun [MsgFileNotFound csv_file] (Ok None)
  /\ (forall prog rest,
        csv_file <> "compare" ->
        main fs (prog :: csv_file :: rest)
        = {| process_stdout := [MsgFileNotFound csv_file];
             exit_status := 0; uncaught := None; saved := None |})
  /\ (forall i label rest done,
        compare_loop fs i ((csv_file, label) :: rest) done
        = (print (MsgWarningSkipped csv_file);;
           compare_loop fs (S i) rest done)).
Proof.
  intros H.
  assert (Hp : forall m, plot_results fs csv_file m
                         = MkRun [MsgFileNotFound csv_file] (Ok None)).
  { intros m. unfold plot_results. rewrite H. reflexivity. }
  split; [apply Hp | split].
  - intros prog rest Hne. unfold main. cbn [length lookup list_lookup].
    assert (String.eqb csv_file "compare" = false) as ->
      by (apply String.eqb_neq, Hne).
    cbn. rewrite Hp. reflexivity.
  - intros. apply compare_loop_skip, H.
Qed.

Lemma missing_source_by_mode_witness :
  (∅ : FileSystem) !! "missing.csv" = None
  /\ main ∅ ["plot_results.py"; "missing.csv"; "FTCS"]
     = {| process_stdout := [MsgFileNotFound "missing.csv"];
          exit_status := 0; uncaught := None; saved := None |}.
Proof.
  split; [reflexivity | ].
  apply (missing_source_by_mode ∅ "missing.csv" "FTCS"); [reflexivity | discriminate].
Defined.

(** C9 as stated fails: with the source absent the script signals
    nothing to its caller. *)
Lemma missing_source_exit_status_zero :
  exit_status (main ∅ ["plot_results.py"; "missing.csv"]) = 0
  /\ uncaught (main ∅ ["plot_results.py"; "missing.csv"]) = None
  /\ outcome (plot_results ∅ "missing.csv" "Unknown") = Ok None.
Proof. repeat split. Qed.

(** ** Comparison mode *)

(** C5. In the comparison loop a source that does not exist costs one
    warning and the loop goes on with the pairs after it; with three
    sources of which only the second is missing, [compare_methods] ends
    normally and its report holds the entries of the first and the third
    source, in that order. *)
Theorem compare_skips_missing (fs : FileSystem)
    (a b c la lb lc : string) (fa fc : CsvFile) :
  fs !! a = Some fa -> fs !! b = None -> fs !! c = Some fc ->
  (forall i label rest done,
      compare_loop fs i ((b, label) :: rest) done
      = (print (MsgWarningSkipped b);; compare_loop fs (S i) rest done))
  /\ compare_methods fs [a; b; c] [la; lb; lc]
     = MkRun [MsgWarningSkipped b; MsgComparisonSaved]
         (Ok {| entries := [ method_entry 0 la "blue" "o" fa;
                             method_entry 2 lc "green" "^" fc ];
                analytical := Some (reference_curve fa);
                tick_labels := [la; lb; lc] |}).
Proof.
  intros Ha Hb Hc. split.
  - intros. apply compare_loop_skip, Hb.
  - unfold compare_methods. cbn [zip zip_with].
    rewrite (compare_loop_take fs 0 a la fa "blue" "o") by (assumption || reflexivity).
    rewrite compare_loop_skip by assumption.
    rewrite (compare_loop_take fs 2 c lc fc "green" "^") by (assumption || reflexivity).
    cbn [compare_loop app]. unfold analytical_curve, read_csv. rewrite Ha.
    reflexivity.
Qed.

Lemma compare_skips_missing_witness :
  fs_first_and_third !! "btcs.csv" = None
  /\ map entry_label
       (match outcome (compare_methods fs_first_and_third
                         ["ftcs.csv"; "btcs.csv"; "cn.csv"]
                         ["FTCS"; "BTCS"; "CN"]) with
        | Ok r => entries r
        | Raise _ => []
        end) = ["FTCS"; "CN"].
Proof.
  split; [reflexivity | ].
  destruct (compare_skips_missing fs_first_and_third
              "ftcs.csv" "btcs.csv" "cn.csv"
              "FTCS" "BTCS" "CN" exact_2x2 placeholder_2x2
              eq_refl eq_refl eq_refl) as [_ ->].
  reflexivity.
Defined.

(** More existing sources than colours: the loop ends in an IndexError. *)
Lemma compare_loop_overflow (fs : FileSystem) (sources : list (string * string)) :
  forall (i : nat) (done : list MethodEntry),
  4 - i < length (existing fs sources) ->
  outcome (compare_loop fs i sources done) = Raise IndexError.
Proof.
  induction sources as [ | [csv_file method] rest IH]; intros i done H.
  - cbn in H. lia.
  - unfold existing in H. cbn [List.filter fst] in H.
    destruct (fs !! csv_file) as [file | ] eqn:E.
    + rewrite bool_decide_true in H by eauto. cbn [length] in H.
      destruct (le_lt_dec 4 i) as [Hi | Hi].
      * rewrite (compare_loop_out_of_colors fs i csv_file method file) by assumption.
        reflexivity.
      * destruct (lookup_lt_is_Some_2 colors i ltac:(cbn; lia)) as [color Hc].
        destruct (lookup_lt_is_Some_2 markers i ltac:(cbn; lia)) as [marker Hm].
        rewrite (compare_loop_take fs i csv_file method file color marker)
          by assumption.
        apply IH. fold (existing fs rest) in H. lia.
    + rewrite bool_decide_false in H by (intros [? ?]; discriminate).
      rewrite compare_loop_skip by assumption.
      unfold mbind, run_mbind, run_bind. cbn.
      apply IH. fold (existing fs rest) in H. lia.
Qed.

(** C10. [colors] and [markers] have four entries and are indexed by the
    position of the pair; an existing source at position 4 or later stops
    the loop with an IndexError, so with more than four existing sources
    [compare_methods] raises IndexError and produces no report. *)
Theorem compare_more_than_four_sources (fs : FileSystem)
    (csv_files method_names : list string) :
  4 < length (existing fs (zip csv_files method_names)) ->
  length colors = 4 /\ length markers = 4
  /\ (forall i csv_file label file rest done,
        fs !! csv_file = Some file -> 4 <= i ->
        compare_loop fs i ((csv_file, label) :: rest) done
        = MkRun [] (Raise IndexError))
  /\ outcome (compare_methods fs csv_files method_names) = Raise IndexError.
Proof.
  intros H. repeat split.
  - intros. eapply compare_loop_out_of_colors; eassumption.
  - unfold compare_methods.
    pose proof (compare_loop_overflow fs (zip csv_files method_names) 0 []
                  ltac:(lia)) as E.
    unfold mbind, run_mbind, run_bind. rewrite E. reflexivity.
Qed.

Lemma compare_more_than_four_sources_witness :
  4 < length (existing fs_exact
                (zip ["ftcs.csv"; "ftcs.csv"; "ftcs.csv"; "ftcs.csv"; "ftcs.csv"]
                     ["A"; "B"; "C"; "D"; "E"]))
  /\ outcome (compare_methods fs_exact
                ["ftcs.csv"; "ftcs.csv"; "ftcs.csv"; "ftcs.csv"; "ftcs.csv"]
                ["A"; "B"; "C"; "D"; "E"]) = Raise IndexError.
Proof.
  assert (H : 4 < length (existing fs_exact
                (zip ["ftcs.csv"; "ftcs.csv"; "ftcs.csv"; "ftcs.csv"; "ftcs.csv"]
                     ["A"; "B"; "C"; "D"; "E"])))
    by (vm_compute; lia).
  split; [exact H | ].
  apply (compare_more_than_four_sources fs_exact _ _ H).
Defined.

(** The analytical curve is read from the first listed source, whether it
    exists or not: without it no comparison is ever completed. *)
Lemma compare_needs_first_source (fs : FileSystem) (first : string)
    (rest method_names : list string) :
  fs !! first = None ->
  exists e, outcome (compare_methods fs (first :: rest) method_names) = Raise e.
Proof.
  intros H. unfold compare_methods.
  unfold mbind at 1. unfold run_mbind, run_bind.
  destruct (outcome (compare_loop fs 0 (zip (first :: rest) method_names) []))
    as [done | e]; [ | eauto].
  cbn. unfold read_csv. rewrite H. cbn. eauto.
Qed.

(** C8 at a failing input: the first source is absent, the second exists.
    The loop skips the first and loads the second, then [pd.read_csv] on
    the first raises and no report is produced. *)
Theorem analytical_curve_reads_first_listed :
  compare_methods fs_second_only ["ftcs.csv"; "btcs.csv"] ["FTCS"; "BTCS"]
  = MkRun [MsgWarningSkipped "ftcs.csv"] (Raise (FileNotFoundError "ftcs.csv")).
Proof. vm_compute. reflexivity. Qed.

(** ** The recomputed error *)

Lemma replace_inf_not_inf (v : float) : F64.isinf (replace_inf v) = false.
Proof. destruct v as [ | | | ]; reflexivity. Qed.

Lemma replace_inf_finite (v : float) :
  F64.isfinite v = true -> replace_inf v = v.
Proof. destruct v; (discriminate || reflexivity). Qed.

(** In the current script the frame is a function of the four measured
    columns: the [error] column of the file, present or not, is not read. *)
Lemma load_frame_ignores_stored_error (f g : CsvFile) :
  same_measurements f g -> load_frame f = load_frame g.
Proof.
  unfold same_measurements, load_frame. intros H. f_equal.
  set (pick := fun r => (csv_t r, csv_x r, csv_u_numeric r, csv_u_exact r)) in *.
  set (build := fun (i : nat) (q : float * float * token * token) =>
         {| idx := i; t := q.1.1.1; x := q.1.1.2;
            u_numeric := to_numeric q.1.2; u_exact := to_numeric q.2;
            error := F64.abs (F64.sub (to_numeric q.1.2) (to_numeric q.2)) |}).
  assert (E : forall rows, imap recompute_error rows = imap build (map pick rows)).
  { intros rows. change (map pick rows) with (pick <$> rows).
    rewrite imap_fmap. apply imap_ext. reflexivity. }
  rewrite !E, H. reflexivity.
Qed.

Lemma error_is_recomputed (file : CsvFile) (i : nat) (r : CsvRow) :
  csv_rows file !! i = Some r ->
  exists row,
    load_frame file !! i = Some row
    /\ idx row = i
    /\ error row = replace_inf (F64.abs (F64.sub (to_numeric (csv_u_numeric r))
                                                 (to_numeric (csv_u_exact r))))
    /\ F64.isinf (error row) = false.
Proof.
  intros H. eexists. split; [apply load_frame_lookup, H | ].
  cbn. auto using replace_inf_not_inf.
Qed.

Lemma plot_results_ignores_stored_error (fs fs' : FileSystem)
    (csv_file method : string) (f g : CsvFile) :
  fs !! csv_file = Some f -> fs' !! csv_file = Some g ->
  same_measurements f g ->
  plot_results fs csv_file method = plot_results fs' csv_file method.
Proof.
  intros Hf Hg H. unfold plot_results. rewrite Hf, Hg.
  rewrite (load_frame_ignores_stored_error f g H). reflexivity.
Qed.

Lemma method_entry_ignores_stored_error (i : nat) (label color marker : string)
    (f g : CsvFile) :
  same_measurements f g ->
  method_entry i label color marker f = method_entry i label color marker g.
Proof.
  intros H. unfold method_entry.
  rewrite (load_frame_ignores_stored_error f g H). reflexivity.
Qed.

(** C3 at a failing input: a file whose [error] column says 7 on every
    line although [u_numeric] equals [u_exact] throughout. The older
    script reports the stored value; the current one reports the
    recomputed zero. *)
Theorem legacy_reports_stored_error :
  (exists rep,
      outcome (Legacy.plot_results fs_exact "ftcs.csv" "FTCS") = Ok (Some rep)
      /\ values (Legacy.error_distribution rep) = [F64.of_Z 7; F64.of_Z 7]
      /\ Legacy.summary rep = {| l2_error := F64.of_Z 7;
                                 linf_error := F64.of_Z 7;
                                 mean_error := F64.of_Z 7 |})
  /\ (exists rep,
        outcome (plot_results fs_exact "ftcs.csv" "FTCS") = Ok (Some rep)
        /\ summary rep = zero_summary).
Proof.
  split; eexists; (split; [vm_compute; reflexivity | ]).
  - split; reflexivity.
  - reflexivity.
Qed.

(** ** The heat map: shape and alignment *)

(** C4 as stated fails: 51 time layers give a stride of 1 and 51 rows. *)
Lemma heatmap_rows_exceed_cap :
  exists hm,
    build_heatmap (load_frame (ramp_file 51)) = Ok hm
    /\ length (unique (map t (load_frame (ramp_file 51)))) = 51
    /\ length (u_matrix hm) = 51
    /\ ~ length (u_matrix hm) <= 50.
Proof.
  eexists. split; [vm_compute; reflexivity | ].
  split; [vm_compute; reflexivity | ].
  split; [reflexivity | cbn; lia].
Qed.

Lemma finite_times_not_nan (file : CsvFile) :
  Forall (fun r => F64.isfinite (csv_t r) = true) (csv_rows file) ->
  Forall (fun v => F64.isnan v = false) (map t (load_frame file)).
Proof.
  intros H. rewrite load_frame_t. apply Forall_map.
  eapply Forall_impl; [exact H | ].
  intros r Hr. cbn in *. rewrite replace_inf_finite by exact Hr.
  destruct (csv_t r); (discriminate || reflexivity).
Qed.

(** The first of the sorted distinct times is below the time of every
    line, when no time is NaN. *)
Lemma first_time_least (df : DataFrame) (t0 : float) :
  Forall (fun v => F64.isnan v = false) (map t df) ->
  head (times_of df) = Some t0 ->
  t0 ∈ map t df /\ Forall (fun r => F64.leb t0 (t r) = true) df.
Proof.
  intros Hn Hh. unfold times_of in Hh. rewrite values_column in Hh.
  assert (Hu : Forall (fun v => F64.isnan v = false) (unique (map t df))).
  { rewrite Forall_forall in Hn |- *. intros v Hv. apply Hn, unique_subset, Hv. }
  destruct (sorted_head_least _ _ Hu Hh) as [Hin Hall].
  split; [apply unique_subset, Hin | ].
  pose proof (proj1 (Forall_forall _ _) Hall) as Hall'.
  pose proof (proj1 (Forall_forall _ _) Hn) as Hn'.
  apply Forall_forall. intros r Hr.
  assert (Htr : t r ∈ map t df) by (apply list_elem_of_fmap; eauto).
  destruct (unique_covers _ _ Htr) as (u & Hu' & Hk).
  pose proof (Hall' u Hu') as Hle0. cbn in Hle0.
  unfold same_key in Hk. apply orb_true_iff in Hk as [Hk | Hk].
  - apply eqb_rank in Hk as (_ & ? & E).
    apply leb_rank in Hle0 as (? & _ & Hle).
    apply leb_rank. rewrite <- E. auto.
  - apply andb_true_iff in Hk as [_ Hk].
    rewrite (Hn' _ Htr) in Hk. discriminate.
Qed.

(** C4 (as the code has it). When the heat map is built, its matrix has
    [ceil(n / stride)] rows for [n] distinct times and
    [stride = max(1, n // 50)]; that count is at most 99, and at most 50
    exactly when [n <= 50] or 50 divides [n]; every row has one entry per
    distinct position; and on a non-empty file whose times are finite, row
    0 holds the layer of the least time. *)
Theorem heatmap_shape (file : CsvFile) (hm : Heatmap) :
  build_heatmap (load_frame file) = Ok hm ->
  let df := load_frame file in
  let n := length (unique (map t df)) in
  let stride := Nat.max 1 (n / 50) in
  length (u_matrix hm) = ceil_div n stride
  /\ length (u_matrix hm) <= 99
  /\ (length (u_matrix hm) <= 50 <-> n <= 50 \/ n mod 50 = 0)
  /\ Forall (fun row => length row = length (unique (map x df))) (u_matrix hm)
  /\ (csv_rows file <> [] ->
      Forall (fun r => F64.isfinite (csv_t r) = true) (csv_rows file) ->
      exists t0 row0,
        t_vals_subset hm !! 0 = Some t0
        /\ u_matrix hm !! 0 = Some row0
        /\ layer_row df (length (unique (map x df))) t0 = Ok row0
        /\ t0 ∈ map t df
        /\ Forall (fun r => F64.leb t0 (t r) = true) df).
Proof.
  intros Hb df n stride.
  destruct (build_heatmap_spec df hm Hb) as (Hx & Ht & Hlen & Hrows & Hfill).
  assert (Hn : length (times_of df) = n).
  { unfold times_of. rewrite sorted_length, values_column. reflexivity. }
  assert (Hcols : length (x_vals hm) = length (unique (map x df))).
  { rewrite Hx, sorted_length, values_column. reflexivity. }
  assert (Hcount : length (u_matrix hm) = ceil_div n stride).
  { rewrite Hlen, Ht, slice_step_length by apply step_of_positive.
    unfold step_of. rewrite Hn. reflexivity. }
  pose proof (row_count_bounds n) as [Hub Hcap]. fold stride in Hub, Hcap.
  rewrite <- Hcount in Hub, Hcap.
  split; [exact Hcount | ].
  split; [exact Hub | ].
  split; [exact Hcap | ].
  split; [rewrite <- Hcols; exact Hrows | ].
  intros Hne Hfin.
  assert (Hdf : df <> []).
  { intros E. apply (f_equal length) in E. unfold df in E.
    rewrite load_frame_length in E. destruct (csv_rows file); [auto | discriminate]. }
  destruct (times_of df) as [ | t0 rest] eqn:Et.
  { exfalso. apply (times_of_nonempty df Hdf Et). }
  assert (H0 : t_vals_subset hm !! 0 = Some t0).
  { rewrite <- head_lookup, Ht, slice_step_head. reflexivity. }
  destruct (Hfill 0 t0 H0) as (row0 & Hr0 & Hm0).
  destruct (first_time_least df t0 (finite_times_not_nan file Hfin)) as [Hin Hleast].
  { rewrite Et. reflexivity. }
  exists t0, row0. rewrite <- Hcols. auto.
Qed.

Lemma heatmap_shape_witness :
  exists hm,
    build_heatmap (load_frame exact_2x2) = Ok hm
    /\ length (u_matrix hm) = 2
    /\ exists t0 row0,
         t_vals_subset hm !! 0 = Some t0
         /\ u_matrix hm !! 0 = Some row0
         /\ Forall (fun r => F64.leb t0 (t r) = true) (load_frame exact_2x2).
Proof.
  destruct (build_heatmap (load_frame exact_2x2)) as [hm | e] eqn:E;
    [ | vm_compute in E; discriminate].
  exists hm. split; [reflexivity | ].
  destruct (heatmap_shape exact_2x2 hm E) as (H1 & _ & _ & _ & H5).
  split; [rewrite H1; vm_compute; reflexivity | ].
  destruct H5 as (t0 & row0 & Ht0 & Hr0 & _ & _ & Hleast).
  - discriminate.
  - repeat constructor.
  - exists t0, row0. auto.
Defined.

(** ** Invalid and exact error values at the final time *)

Lemma load_frame_elem (file : CsvFile) (row : Row) :
  row ∈ load_frame file ->
  exists r, csv_rows file !! idx row = Some r
            /\ row = replace_inf_row (recompute_error (idx row) r).
Proof.
  intros H. apply list_elem_of_lookup in H as [j Hj].
  destruct (csv_rows file !! j) as [r | ] eqn:Er.
  - rewrite (load_frame_lookup file j r Er) in Hj. injection Hj as <-.
    cbn. eauto.
  - apply lookup_ge_None in Er. apply lookup_lt_Some in Hj.
    rewrite load_frame_length in Hj. lia.
Qed.

Lemma final_data_at_elem (df : DataFrame) (tv : float) (row : Row) :
  row ∈ final_data_at df tv <-> row ∈ df /\ F64.eqb (t row) tv = true.
Proof.
  unfold final_data_at. rewrite sort_values_x_perm. unfold rows_at.
  rewrite list_elem_of_In, filter_In, <- list_elem_of_In. reflexivity.
Qed.

Lemma final_data_at_length (df : DataFrame) (tv : float) :
  length (final_data_at df tv) = length (rows_at df tv).
Proof. apply sort_values_x_length. Qed.

Lemma sub_nan_l (v : float) : F64.sub F64.nan v = F64.nan.
Proof. reflexivity. Qed.

Lemma sub_nan_r (v : float) : F64.sub v F64.nan = F64.nan.
Proof. destruct v; reflexivity. Qed.

Lemma sub_diag (v : float) : F64.isfinite v = true -> F64.sub v v = F64.zero.
Proof.
  destruct v as [[|] | | | s m e]; try discriminate; try reflexivity.
  intros _. unfold F64.sub, SFsub. rewrite Z.sub_diag. reflexivity.
Qed.

(** A line with text in a value column has an invalid error. *)
Lemma text_error_is_nan (i : nat) (r : CsvRow) :
  is_text (csv_u_numeric r) = true \/ is_text (csv_u_exact r) = true ->
  error (replace_inf_row (recompute_error i r)) = F64.nan.
Proof.
  intros [H | H]; cbn.
  - destruct (csv_u_numeric r); [discriminate | ]. reflexivity.
  - destruct (csv_u_exact r); [discriminate | ]. cbn. rewrite sub_nan_r. reflexivity.
Qed.

Lemma err_valid_labels (fd : DataFrame) (i : nat) :
  i ∈ labels (err_valid fd) ->
  exists row, row ∈ fd /\ idx row = i /\ F64.isfinite (error row) = true.
Proof.
  rewrite err_valid_filter, labels_column. intros H.
  apply list_elem_of_fmap in H as (row & -> & Hrow).
  rewrite list_elem_of_In, filter_In, <- list_elem_of_In in Hrow.
  destruct Hrow. eauto.
Qed.

Lemma err_valid_none (fd : DataFrame) :
  Forall (fun row => F64.isfinite (error row) = false) fd -> err_valid fd = [].
Proof.
  intros H. rewrite err_valid_filter.
  induction H as [ | row fd Hr _ IH]; cbn; [reflexivity | ].
  rewrite Hr. exact IH.
Qed.

Lemma err_valid_all (fd : DataFrame) :
  Forall (fun row => F64.isfinite (error row) = true) fd ->
  err_valid fd = column error fd /\ x_valid fd = column x fd.
Proof.
  intros H. rewrite err_valid_filter, x_valid_filter.
  induction H as [ | row fd Hr _ [IH1 IH2]]; cbn; [auto | ].
  rewrite Hr. cbn. unfold column in *. rewrite IH1, IH2. auto.
Qed.

(** Reductions of a series of zeros. *)
Lemma fold_add_zeros (l : list float) :
  Forall (fun v => v = F64.zero) l -> fold_left F64.add l F64.zero = F64.zero.
Proof. induction 1 as [ | v l -> _ IH]; cbn; [reflexivity | exact IH]. Qed.

Lemma fold_maximum_zeros (l : list float) :
  Forall (fun v => v = F64.zero) l ->
  fold_left F64.maximum l F64.zero = F64.zero.
Proof. induction 1 as [ | v l -> _ IH]; cbn; [reflexivity | exact IH]. Qed.

Lemma dropna_zeros (l : list float) :
  Forall (fun v => v = F64.zero) l -> dropna l = l.
Proof.
  induction 1 as [ | v l -> _ IH]; cbn; [reflexivity | ].
  unfold dropna in IH. rewrite IH. reflexivity.
Qed.

Lemma div_zero_count (n : nat) :
  (0 < n)%nat -> F64.div F64.zero (F64.of_nat n) = F64.zero.
Proof.
  intros Hn. destruct (of_nat_positive n Hn) as [(m & e & ->) | ->]; reflexivity.
Qed.

Lemma series_mean_zeros (s : Series) :
  s <> [] -> Forall (fun v => v = F64.zero) (values s) ->
  series_mean s = F64.zero.
Proof.
  intros Hs Hz. unfold series_mean. rewrite dropna_zeros by exact Hz.
  destruct (values s) as [ | v l] eqn:E.
  - destruct s; [contradiction | discriminate].
  - rewrite fold_add_zeros by exact Hz. apply div_zero_count. cbn. lia.
Qed.

Lemma series_max_zeros (s : Series) :
  s <> [] -> Forall (fun v => v = F64.zero) (values s) ->
  series_max s = F64.zero.
Proof.
  intros Hs Hz. unfold series_max. rewrite dropna_zeros by exact Hz.
  destruct (values s) as [ | v l] eqn:E.
  - destruct s; [contradiction | discriminate].
  - inversion Hz; subst. apply fold_maximum_zeros. assumption.
Qed.

Lemma series_sq_zeros (s : Series) :
  Forall (fun v => v = F64.zero) (values s) ->
  Forall (fun v => v = F64.zero) (values (series_sq s)).
Proof.
  unfold values, series_sq. rewrite map_map. cbn.
  rewrite !Forall_map. intros H. eapply Forall_impl; [exact H | ].
  intros p Hp. cbn in *. rewrite Hp. reflexivity.
Qed.

Lemma error_statistics_zeros (s : Series) :
  s <> [] -> Forall (fun v => v = F64.zero) (values s) ->
  error_statistics s = zero_summary.
Proof.
  intros Hs Hz. unfold error_statistics.
  destruct s as [ | p s]; [contradiction | ]. cbn [length Nat.ltb Nat.leb].
  unfold zero_summary. f_equal.
  - rewrite series_mean_zeros; [reflexivity | | apply series_sq_zeros, Hz].
    discriminate.
  - apply series_max_zeros; [discriminate | exact Hz].
  - apply series_mean_zeros; [discriminate | exact Hz].
Qed.

(** C2. When the final time layer has no finite error, [l2], [linf] and
    the mean are NaN and panel 3 is the "No valid error data" text; the
    summary raises nothing, the only exception [plot_results] can still
    end with being the one of the heat map. *)
Theorem empty_data_degradation (fs : FileSystem) (csv_file method : string)
    (file : CsvFile) (ft : float) :
  fs !! csv_file = Some file ->
  last_item (times_of (load_frame file)) = Ok ft ->
  Forall (fun row => F64.isfinite (error row) = false)
         (final_data_at (load_frame file) ft) ->
  let df := load_frame file in
  error_statistics (err_valid (final_data_at df ft)) = nan_summary
  /\ error_panel (final_data_at df ft) = NoValidErrorData
  /\ match outcome (plot_results fs csv_file method) with
     | Ok (Some rep) =>
         summary rep = nan_summary
         /\ error_distribution rep = NoValidErrorData
     | Ok None => False
     | Raise e => build_heatmap df = Raise e
     end.
Proof.
  intros Hfs Hft Hinv df.
  pose proof (err_valid_none _ Hinv) as Hnone. fold df in Hnone.
  assert (Hs : error_statistics (err_valid (final_data_at df ft)) = nan_summary)
    by (rewrite Hnone; reflexivity).
  assert (Hp : error_panel (final_data_at df ft) = NoValidErrorData)
    by (unfold error_panel; rewrite Hnone; reflexivity).
  split; [exact Hs | split; [exact Hp | ]].
  destruct (plot_results_existing fs csv_file method file Hfs)
    as (curves & _ & ->). fold df. fold df in Hft. rewrite Hft.
  destruct (build_heatmap df) as [hm | e]; cbn; auto.
Qed.

Lemma empty_data_degradation_witness :
  exists rep,
    outcome (plot_results fs_invalid "cn.csv" "CN") = Ok (Some rep)
    /\ summary rep = nan_summary
    /\ error_distribution rep = NoValidErrorData.
Proof.
  destruct (empty_data_degradation fs_invalid "cn.csv" "CN" invalid_final_2x2
              (F64.of_Z 1))
    as (_ & _ & Hout).
  - reflexivity.
  - vm_compute. reflexivity.
  - vm_compute. repeat constructor.
  - destruct (outcome (plot_results fs_invalid "cn.csv" "CN"))
      as [[rep | ] | e] eqn:E.
    + exists rep. split; [reflexivity | exact Hout].
    + contradiction.
    + vm_compute in E. discriminate.
Defined.

(** A line whose two values are the same finite number has error [+0]
    and keeps its time. *)
Lemma exact_row_error (i : nat) (r : CsvRow) (f : float) :
  F64.isfinite (csv_t r) = true -> F64.isfinite f = true ->
  csv_u_numeric r = Num f -> csv_u_exact r = Num f ->
  error (replace_inf_row (recompute_error i r)) = F64.zero
  /\ t (replace_inf_row (recompute_error i r)) = csv_t r.
Proof.
  intros Ht Hf Hn He. cbn. rewrite Hn, He. cbn.
  rewrite sub_diag by exact Hf. split; [reflexivity | ].
  apply replace_inf_finite, Ht.
Qed.

Lemma eqb_refl_finite (v : float) : F64.isfinite v = true -> F64.eqb v v = true.
Proof.
  intros H. apply eqb_rank. destruct v; try discriminate; auto.
Qed.

(** C6. On a non-empty file with finite times whose [u_numeric] and
    [u_exact] are the same finite number on every line, the summary of
    the final time is [l2 = linf = mean = +0]; the floor shows only in the
    plotted values of panel 3, all equal to [epsilon]. [plot_results]
    reports that summary unless the heat map stops it. *)
Theorem exact_solution_zero_summary (fs : FileSystem)
    (csv_file method : string) (file : CsvFile) :
  fs !! csv_file = Some file ->
  csv_rows file <> [] ->
  Forall (fun r => F64.isfinite (csv_t r) = true
                   /\ exists f, F64.isfinite f = true
                                /\ csv_u_numeric r = Num f
                                /\ csv_u_exact r = Num f)
         (csv_rows file) ->
  let df := load_frame file in
  exists ft,
    last_item (times_of df) = Ok ft
    /\ error_statistics (err_valid (final_data_at df ft)) = zero_summary
    /\ (exists xs ys lim,
          error_panel (final_data_at df ft) = ErrorCurve xs ys lim
          /\ ys <> []
          /\ Forall (fun v => v = epsilon) (values ys))
    /\ match outcome (plot_results fs csv_file method) with
       | Ok (Some rep) =>
           summary rep = zero_summary
           /\ In (MsgErrorStatistics ft zero_summary)
                 (stdout (plot_results fs csv_file method))
       | Ok None => False
       | Raise e => build_heatmap df = Raise e
       end.
Proof.
  intros Hfs Hne Hex df.
  assert (Hdf : df <> []).
  { intros E. apply (f_equal length) in E. unfold df in E.
    rewrite load_frame_length in E. destruct (csv_rows file); [auto | discriminate]. }
  destruct (last_item_nonempty _ (times_of_nonempty df Hdf)) as [ft Hft].
  exists ft. split; [exact Hft | ].
  (* every line of the frame *)
  assert (Hrows : forall row, row ∈ df ->
            error row = F64.zero /\ F64.isfinite (t row) = true).
  { intros row Hrow. apply load_frame_elem in Hrow as (r & Hr & ->).
    apply list_elem_of_lookup_2 in Hr.
    rewrite Forall_forall in Hex. destruct (Hex r Hr) as (Ht & f & Hf & Hn & He).
    destruct (exact_row_error (idx row) r f Ht Hf Hn He) as [-> ->]. auto. }
  (* the final layer is not empty and all its errors are zero *)
  set (fd := final_data_at df ft).
  assert (Hfd : fd <> []).
  { apply last_item_elem in Hft. apply times_of_elem in Hft as (row & Hrow & Et).
    assert (Hin : row ∈ fd).
    { apply final_data_at_elem. split; [exact Hrow | ].
      rewrite <- Et. apply eqb_refl_finite, Hrows, Hrow. }
    intros E. rewrite E in Hin. inversion Hin. }
  assert (Hzero : Forall (fun row => error row = F64.zero) fd).
  { apply Forall_forall. intros row Hrow.
    apply final_data_at_elem in Hrow as [Hrow _]. apply Hrows, Hrow. }
  assert (Hall : Forall (fun row => F64.isfinite (error row) = true) fd).
  { eapply Forall_impl; [exact Hzero | ]. intros row Hr. cbn in Hr. rewrite Hr. reflexivity. }
  destruct (err_valid_all fd Hall) as [Herr Hx].
  assert (Hvals : Forall (fun v => v = F64.zero) (values (err_valid fd))).
  { rewrite Herr, values_column. apply Forall_map. exact Hzero. }
  assert (Hnonempty : err_valid fd <> []).
  { rewrite Herr. destruct fd; [contradiction | discriminate]. }
  assert (Hstats : error_statistics (err_valid fd) = zero_summary)
    by (apply error_statistics_zeros; assumption).
  split; [exact Hstats | split].
  - unfold error_panel.
    destruct (err_valid fd) as [ | p errs] eqn:E; [contradiction | ].
    cbn [length Nat.ltb Nat.leb].
    do 3 eexists. split; [reflexivity | ]. split; [discriminate | ].
    unfold values, err_plot. rewrite map_map. cbn [snd].
    apply Forall_map. unfold values in Hvals. rewrite Forall_map in Hvals.
    eapply Forall_impl; [exact Hvals | ].
    intros q Hq. cbn in *. rewrite Hq. reflexivity.
  - destruct (plot_results_existing fs csv_file method file Hfs)
      as (curves & _ & ->). fold df. rewrite Hft.
    destruct (build_heatmap df) as [hm | e]; cbn; [ | reflexivity].
    fold fd. rewrite Hstats. split; [reflexivity | ]. auto.
Qed.

Lemma exact_solution_zero_summary_witness :
  exists rep,
    outcome (plot_results fs_exact "ftcs.csv" "FTCS") = Ok (Some rep)
    /\ summary rep = zero_summary.
Proof.
  destruct (exact_solution_zero_summary fs_exact "ftcs.csv" "FTCS" exact_2x2)
    as (ft & _ & _ & _ & Hout).
  - reflexivity.
  - discriminate.
  - repeat constructor; cbn; eexists; (split; [ | split; reflexivity]); reflexivity.
  - destruct (outcome (plot_results fs_exact "ftcs.csv" "FTCS"))
      as [[rep | ] | e] eqn:E.
    + exists rep. split; [reflexivity | apply Hout].
    + contradiction.
    + vm_compute in E. discriminate.
Defined.
(** * Further properties of the two scripts *)

(** ** Signs and validity of the recomputed error *)

Lemma shr_fexp_nonneg (m e : Z) (l : location) :
  (0 <= m)%Z -> (0 <= shr_m (fst (shr_fexp F64.prec F64.emax m e l)))%Z.
Proof.
  intros Hm. unfold shr_fexp, shr.
  destruct (fexp F64.prec F64.emax (Zdigits2 m + e) - e)%Z as [ | n | n ];
    cbn [fst]; rewrite ?iter_pos_shr_1_m, shr_m_record_of_loc;
    rewrite ?shr_m_record_of_loc; try lia.
  apply Z.div_pos; [lia | apply Z.pow_pos_nonneg; lia].
Qed.

(** Rounding a non-negative mantissa never gives NaN and keeps the sign. *)
Lemma binary_round_aux_sign (s : bool) (m e : Z) (l : location) :
  (0 <= m)%Z ->
  match binary_round_aux F64.prec F64.emax s m e l with
  | S754_zero s' | S754_infinity s' | S754_finite s' _ _ => s' = s
  | S754_nan => False
  end.
Proof.
  intros Hm. unfold binary_round_aux.
  pose proof (shr_fexp_nonneg m e l Hm) as H1.
  destruct (shr_fexp F64.prec F64.emax m e l) as [mrs' e']. cbn [fst] in H1.
  pose proof (round_nearest_even_ge (shr_m mrs') (loc_of_shr_record mrs')) as Hr.
  set (m2 := round_nearest_even (shr_m mrs') (loc_of_shr_record mrs')) in *.
  pose proof (shr_fexp_nonneg m2 e' loc_Exact ltac:(lia)) as H3.
  destruct (shr_fexp F64.prec F64.emax m2 e' loc_Exact) as [mrs'' e''].
  cbn [fst] in H3.
  destruct (shr_m mrs'') as [ | q | q ]; try lia; [reflexivity | ].
  destruct (Z.leb e'' (F64.emax - F64.prec)); reflexivity.
Qed.

Lemma nonneg_finite_spec (v : float) :
  nonneg_finite v -> F64.isfinite v = true /\ F64.leb F64.zero v = true.
Proof. destruct v as [[|]|[|]| |[|] m e]; cbn; intros []; auto. Qed.

Lemma abs_replace_inf_nonneg (v : float) :
  F64.isfinite (replace_inf (F64.abs v)) = true ->
  nonneg_finite (replace_inf (F64.abs v)) /\ F64.isfinite v = true.
Proof. destruct v as [[|]|[|]| |[|] m e]; cbn; intros H; try discriminate; auto. Qed.

Lemma sub_finite_inputs (a b : float) :
  F64.isfinite (F64.sub a b) = true ->
  F64.isfinite a = true /\ F64.isfinite b = true.
Proof.
  destruct a as [[|]|[|]| |[|] ma ea], b as [[|]|[|]| |[|] mb eb];
    cbn; intros H; try discriminate; auto.
Qed.

Lemma leb_total (a b : float) :
  F64.isnan a = false -> F64.isnan b = false ->
  F64.leb a b = true \/ F64.leb b a = true.
Proof.
  intros Ha Hb. destruct (lex_le_total (rank a) (rank b)); [left | right];
    apply leb_rank; auto.
Qed.

Lemma fold_left_choice {A} (f : A -> A -> A) (l : list A) :
  (forall a b, f a b = a \/ f a b = b) ->
  forall a, fold_left f l a ∈ a :: l.
Proof.
  intros Hf. induction l as [ | b l IH]; intros a; cbn; [left | ].
  specialize (IH (f a b)). apply elem_of_cons in IH as [-> | IH].
  - destruct (Hf a b) as [-> | ->]; [left | right; left].
  - right. right. exact IH.
Qed.

Lemma maximum_choice (a b : float) : F64.maximum a b = a \/ F64.maximum a b = b.
Proof. unfold F64.maximum. destruct (_ || _); auto. Qed.

Lemma minimum_choice (a b : float) : minimum a b = a \/ minimum a b = b.
Proof. unfold minimum. destruct (_ || _); auto. Qed.

Lemma maximum_upper (a b : float) :
  F64.isnan a = false -> F64.isnan b = false ->
  F64.leb a (F64.maximum a b) = true /\ F64.leb b (F64.maximum a b) = true.
Proof.
  intros Ha Hb. unfold F64.maximum. rewrite Ha, orb_false_r.
  destruct (F64.leb b a) eqn:E.
  - split; [apply leb_refl, Ha | exact E].
  - split; [ | apply leb_refl, Hb].
    destruct (leb_total a b Ha Hb); congruence.
Qed.

(** The running maximum of NaN-free values is above every one of them. *)
Lemma fold_maximum_upper (l : list float) : forall a,
  Forall (fun v => F64.isnan v = false) (a :: l) ->
  Forall (fun v => F64.leb v (fold_left F64.maximum l a) = true) (a :: l).
Proof.
  induction l as [ | b l IH]; intros a Hn; cbn.
  - inversion Hn; subst. constructor; [apply leb_refl; assumption | constructor].
  - inversion Hn as [ | ? ? Ha Hbl]; subst. inversion Hbl as [ | ? ? Hb Hl]; subst.
    destruct (maximum_upper a b Ha Hb) as [H1 H2].
    assert (Hc : F64.isnan (F64.maximum a b) = false)
      by (destruct (maximum_choice a b) as [-> | ->]; assumption).
    specialize (IH (F64.maximum a b) (Forall_cons_2 _ _ _ Hc Hl)).
    inversion IH as [ | ? ? Hm Hrest]; subst.
    constructor; [eapply leb_trans; eassumption | ].
    constructor; [eapply leb_trans; eassumption | exact Hrest].
Qed.

Lemma finite_not_nan (v : float) : F64.isfinite v = true -> F64.isnan v = false.
Proof. destruct v; (discriminate || reflexivity). Qed.

Lemma dropna_finite (l : list float) :
  Forall (fun v => F64.isfinite v = true) l -> dropna l = l.
Proof.
  induction 1 as [ | v l Hv _ IH]; cbn; [reflexivity | ].
  rewrite (finite_not_nan v Hv). cbn. unfold dropna in IH. rewrite IH. reflexivity.
Qed.

Lemma err_valid_values_finite (fd : DataFrame) :
  Forall (fun v => F64.isfinite v = true) (values (err_valid fd)).
Proof.
  rewrite err_valid_filter, values_column.
  apply Forall_map, Forall_forall. intros row Hrow.
  rewrite list_elem_of_In, filter_In in Hrow. apply Hrow.
Qed.

(** X7. On a frame loaded by the current script from a file whose two
    value columns are read as floating point, a line whose error is valid
    has a finite number in both value cells, its error is the absolute
    difference of the two and is not negative; and no column of the frame
    holds an infinity. *)
Theorem valid_error_has_numeric_inputs (file : CsvFile) (i : nat) (r : CsvRow) :
  float64_column csv_u_numeric file = true ->
  float64_column csv_u_exact file = true ->
  csv_rows file !! i = Some r ->
  exists row,
    load_frame file !! i = Some row
    /\ (F64.isinf (t row) = false /\ F64.isinf (x row) = false
        /\ F64.isinf (u_numeric row) = false /\ F64.isinf (u_exact row) = false
        /\ F64.isinf (error row) = false)
    /\ (F64.isfinite (error row) = true ->
        exists a b,
          csv_u_numeric r = Num a /\ csv_u_exact r = Num b
          /\ F64.isfinite a = true /\ F64.isfinite b = true
          /\ u_numeric row = a /\ u_exact row = b
          /\ error row = F64.abs (F64.sub a b)
          /\ nonneg_finite (error row)).
Proof.
  intros _ _ Hr. eexists. split; [apply load_frame_lookup, Hr | ].
  split; [cbn; auto 10 using replace_inf_not_inf | ].
  cbn. intros Hfin.
  destruct (abs_replace_inf_nonneg _ Hfin) as [Hnn Hsub].
  destruct (sub_finite_inputs _ _ Hsub) as [Ha Hb].
  destruct (csv_u_numeric r) as [a | s], (csv_u_exact r) as [b | s'];
    cbn in Ha, Hb; try discriminate.
  exists a, b. cbn in *.
  rewrite !replace_inf_finite by assumption.
  repeat split; auto.
  rewrite replace_inf_finite; [reflexivity | ].
  destruct (F64.sub a b); cbn in *; (discriminate || reflexivity).
Qed.

Lemma valid_error_has_numeric_inputs_witness :
  exists row,
    load_frame fractional_2x2 !! 2 = Some row
    /\ error row = F64.div (F64.of_Z 3) (F64.of_Z 2)
    /\ nonneg_finite (error row).
Proof.
  destruct (valid_error_has_numeric_inputs fractional_2x2 2
              (sample_row 1 0 (frac 7 2) (num 5) (frac 3 2))
              eq_refl eq_refl eq_refl)
    as (row & Hrow & _ & Hval).
  exists row. split; [exact Hrow | ].
  assert (E : error row = F64.div (F64.of_Z 3) (F64.of_Z 2)).
  { vm_compute in Hrow. injection Hrow as <-. reflexivity. }
  split; [exact E | ].
  destruct Hval as (a & b & _ & _ & _ & _ & _ & _ & _ & Hnn).
  - rewrite E. reflexivity.
  - exact Hnn.
Defined.

Lemma load_frame_errors_nonneg (file : CsvFile) (tv : float) :
  Forall nonneg_finite (values (err_valid (final_data_at (load_frame file) tv))).
Proof.
  rewrite err_valid_filter, values_column.
  apply Forall_map, Forall_forall. intros row Hrow.
  rewrite list_elem_of_In, filter_In, <- list_elem_of_In in Hrow.
  destruct Hrow as [Hfd Hfin]. apply final_data_at_elem in Hfd as [Hdf _].
  apply load_frame_elem in Hdf as (r & _ & Erow).
  rewrite Erow in Hfin |- *. cbn in *.
  apply abs_replace_inf_nonneg, Hfin.
Qed.

(** X8. On a file whose two value columns are read as floating point:
    when the final layer has valid errors, the reported [linf] is one of
    them, is a finite non-negative number, and no valid error exceeds
    it. *)
Theorem linf_is_largest_valid_error (file : CsvFile) (tv : float) :
  float64_column csv_u_numeric file = true ->
  float64_column csv_u_exact file = true ->
  let errs := err_valid (final_data_at (load_frame file) tv) in
  errs <> [] ->
  linf_error (error_statistics errs) ∈ values errs
  /\ nonneg_finite (linf_error (error_statistics errs))
  /\ Forall (fun v => F64.leb v (linf_error (error_statistics errs)) = true)
            (values errs).
Proof.
  intros _ _ errs Hne.
  pose proof (load_frame_errors_nonneg file tv) as Hnn. fold errs in Hnn.
  pose proof (err_valid_values_finite (final_data_at (load_frame file) tv)) as Hfin.
  fold errs in Hfin.
  unfold error_statistics.
  destruct errs as [ | p errs'] eqn:E; [contradiction | ].
  cbn [length Nat.ltb Nat.leb linf_error]. unfold series_max.
  rewrite dropna_finite by exact Hfin.
  set (vs := values (p :: errs')) in *.
  change vs with (p.2 :: values errs') in *.
  cbn [values map] in *.
  assert (Hin : fold_left F64.maximum (map snd errs') p.2 ∈ p.2 :: map snd errs')
    by (apply fold_left_choice, maximum_choice).
  split; [exact Hin | split].
  - rewrite Forall_forall in Hnn. apply Hnn, Hin.
  - apply fold_maximum_upper.
    eapply Forall_impl; [exact Hfin | ]. intros v. apply finite_not_nan.
Qed.

Lemma linf_is_largest_valid_error_witness :
  linf_error (error_statistics
                (err_valid (final_data_at (load_frame fractional_2x2) (F64.of_Z 1))))
  ∈ [F64.div (F64.of_Z 3) (F64.of_Z 2); F64.zero].
Proof.
  pose proof (linf_is_largest_valid_error fractional_2x2 (F64.of_Z 1)
                eq_refl eq_refl) as H.
  cbv zeta in H. destruct H as [H _]; [vm_compute; discriminate | ].
  assert (E : values (err_valid (final_data_at (load_frame fractional_2x2)
                                               (F64.of_Z 1)))
              = [F64.div (F64.of_Z 3) (F64.of_Z 2); F64.zero])
    by (vm_compute; reflexivity).
  rewrite E in H. exact H.
Defined.

(** ** Panel 3 on a logarithmic axis *)

Lemma log_floor_finite (v : float) :
  F64.isfinite v = true ->
  F64.isfinite (log_floor v) = true /\ F64.leb epsilon (log_floor v) = true.
Proof.
  intros Hv. unfold log_floor, F64.maximum.
  rewrite (finite_not_nan v Hv), orb_false_r.
  destruct (F64.leb epsilon v) eqn:E; [auto | ].
  split; reflexivity.
Qed.

Lemma above_epsilon_positive (v : float) :
  F64.isfinite v = true -> F64.leb epsilon v = true ->
  exists m e, v = S754_finite false m e.
Proof.
  destruct v as [[|]|[|]| |[|] m e]; cbn; intros Hf Hl; try discriminate; eauto.
Qed.

Lemma mul_positive_not_nan (m1 m2 : positive) (e1 e2 : Z) :
  F64.isnan (F64.mul (S754_finite false m1 e1) (S754_finite false m2 e2)) = false.
Proof.
  unfold F64.mul, SFmul. cbn [xorb].
  pose proof (binary_round_aux_sign false (Zpos (m1 * m2)) (e1 + e2) loc_Exact
                ltac:(lia)) as H.
  destruct (binary_round_aux _ _ _ _ _ _); (contradiction || reflexivity).
Qed.

Lemma half_value : half = S754_finite false 4503599627370496 (-53).
Proof. reflexivity. Qed.

(** X9. Whatever the frame, the curve panel 3 draws on its logarithmic
    axis has one point per valid error, under the same labels as its
    positions; every plotted value is finite and at least [epsilon], and
    so is the lower axis limit. *)
Theorem error_panel_log_safe (final_data : DataFrame)
    (xs ys : Series) (lim : float * float) :
  error_panel final_data = ErrorCurve xs ys lim ->
  labels xs = labels ys
  /\ labels ys = labels (err_valid final_data)
  /\ Forall (fun v => F64.isfinite v = true /\ F64.leb epsilon v = true)
            (values ys)
  /\ F64.leb epsilon lim.1 = true.
Proof.
  unfold error_panel.
  destruct (0 <? length (err_valid final_data))%nat eqn:Elen; [ | discriminate].
  intros [= <- <- <-]. cbn [fst].
  assert (Hys : Forall (fun v => F64.isfinite v = true /\ F64.leb epsilon v = true)
                       (values (err_plot (err_valid final_data)))).
  { unfold values, err_plot. rewrite map_map. cbn [snd].
    pose proof (err_valid_values_finite final_data) as Hf.
    unfold values in Hf. rewrite Forall_map in Hf. apply Forall_map.
    eapply Forall_impl; [exact Hf | ]. intros p Hp. apply log_floor_finite, Hp. }
  split; [ | split; [ | split; [exact Hys | ]]].
  - rewrite x_valid_filter, err_valid_filter. unfold labels, err_plot, column.
    rewrite !map_map. reflexivity.
  - unfold labels, err_plot. rewrite map_map. reflexivity.
  - set (ys := err_plot (err_valid final_data)) in *.
    unfold F64.py_max2.
    destruct (F64.ltb (F64.mul (series_min ys) half) epsilon) eqn:Elt;
      [reflexivity | ].
    apply not_ltb_leb; [reflexivity | | exact Elt].
    (* the minimum is one of the plotted values *)
    unfold series_min. rewrite dropna_finite
      by (eapply Forall_impl; [exact Hys | ]; intros v Hv; apply Hv).
    destruct (values ys) as [ | a vs] eqn:Ev.
    { exfalso. apply Nat.ltb_lt in Elen. unfold ys, values, err_plot in Ev.
      rewrite map_map in Ev. destruct (err_valid final_data); [cbn in Elen; lia | discriminate]. }
    pose proof (fold_left_choice minimum vs minimum_choice a) as Hin.
    rewrite Forall_forall in Hys. destruct (Hys _ Hin) as [Hf Hl].
    destruct (above_epsilon_positive _ Hf Hl) as (m & e & ->).
    rewrite half_value. apply mul_positive_not_nan.
Qed.

Lemma error_panel_log_safe_witness :
  exists xs ys lim,
    error_panel (final_data_at (load_frame exact_2x2) (F64.of_Z 1))
    = ErrorCurve xs ys lim
    /\ values ys = [epsilon; epsilon]
    /\ F64.leb epsilon lim.1 = true.
Proof.
  destruct (error_panel (final_data_at (load_frame exact_2x2) (F64.of_Z 1)))
    as [xs ys lim | ] eqn:E; [ | vm_compute in E; discriminate].
  exists xs, ys, lim. split; [reflexivity | ].
  pose proof (error_panel_log_safe _ xs ys lim E) as (_ & _ & _ & Hlim).
  split; [ | exact Hlim].
  vm_compute in E. injection E as <- <- <-. reflexivity.
Defined.

(** ** The heat map: when it is built, and what it holds *)

Lemma stride_from_lookup {A} (step : nat) (l : list A) : forall skip i,
  0 < step ->
  stride_from step skip l !! i = l !! (skip + i * step).
Proof.
  induction l as [ | a l IH]; intros skip i Hs; cbn [stride_from].
  - rewrite !lookup_nil. reflexivity.
  - destruct skip as [ | k].
    + destruct i as [ | i]; cbn; [reflexivity | ].
      rewrite IH by lia.
      replace (step - 1 + i * step) with (step + i * step - 1) by lia.
      destruct (step + i * step) as [ | n] eqn:E; [lia | ].
      cbn. rewrite Nat.sub_0_r. reflexivity.
    + rewrite IH by lia. reflexivity.
Qed.

Lemma slice_step_lookup {A} (step : nat) (l : list A) (i : nat) :
  0 < step -> slice_step step l !! i = l !! (i * step).
Proof. intros Hs. unfold slice_step. rewrite stride_from_lookup by lia. reflexivity. Qed.

Lemma raised_assign_row_irregular (ncols : nat) (vals : list float) :
  raised (assign_row ncols vals)
  = if negb (length vals =? ncols)%nat && negb (length vals =? 1)%nat
    then Some (BroadcastError (length vals) ncols) else None.
Proof.
  unfold assign_row. destruct (length vals =? ncols)%nat; [reflexivity | ].
  destruct vals as [ | v [ | w vals]]; reflexivity.
Qed.

Lemma raised_layer_row_irregular (df : DataFrame) (ncols : nat) (tv : float) :
  raised (layer_row df ncols tv)
  = if irregular_layer df ncols tv
    then Some (BroadcastError (length (rows_at df tv)) ncols) else None.
Proof.
  unfold layer_row, irregular_layer. rewrite raised_assign_row_irregular.
  rewrite length_map, sort_values_x_length. reflexivity.
Qed.

Lemma raised_fill_loop_find (df : DataFrame) (ncols : nat) (l : list float) :
  forall (i : nat) (m : list (list float)),
  raised (for_enumerate
            (fun (m : list (list float)) i tv =>
               row ← layer_row df ncols tv; Ok (<[i := row]> m))
            i l m)
  = (fun tv => BroadcastError (length (rows_at df tv)) ncols)
      <$> List.find (irregular_layer df ncols) l.
Proof.
  induction l as [ | tv l IH]; intros i m; cbn; [reflexivity | ].
  pose proof (raised_layer_row_irregular df ncols tv) as E.
  destruct (layer_row df ncols tv) as [row | e]; cbn in *;
    destruct (irregular_layer df ncols tv); try discriminate.
  - apply IH.
  - injection E as ->. reflexivity.
Qed.

(** What [build_heatmap] raises, read off the walk over the selected
    layers. *)
Lemma build_heatmap_first_irregular (df : DataFrame) :
  let ncols := length (unique (map x df)) in
  let subset := slice_step (step_of (times_of df)) (times_of df) in
  raised (build_heatmap df)
  = (fun tv => BroadcastError (length (rows_at df tv)) ncols)
      <$> List.find (irregular_layer df ncols) subset.
Proof.
  intros ncols subset. unfold build_heatmap, fill_matrix.
  fold (times_of df). fold subset.
  assert (Hn : length (sorted (unique (values (column x df)))) = ncols)
    by (rewrite sorted_length, values_column; reflexivity).
  rewrite Hn.
  pose proof (raised_fill_loop_find df ncols subset 0
                (replicate (length subset) (replicate ncols F64.zero))) as E.
  destruct (for_enumerate _ 0 subset _) as [m | e]; cbn in *; exact E.
Qed.

(** X3. For any frame, [build_heatmap] raises exactly when one of the
    selected time layers has a number of lines that is neither the number
    of distinct positions nor 1; the exception is the broadcast error of
    the first such layer. *)
Theorem heatmap_raises_at_first_irregular_layer (df : DataFrame) :
  let ncols := length (unique (map x df)) in
  let subset := slice_step (step_of (times_of df)) (times_of df) in
  raised (build_heatmap df)
  = (fun tv => BroadcastError (length (rows_at df tv)) ncols)
      <$> List.find (irregular_layer df ncols) subset.
Proof.
  exact (build_heatmap_first_irregular df).
Qed.

Lemma assign_row_elem (ncols : nat) (vals row : list float) (v : float) :
  assign_row ncols vals = Ok row -> v ∈ row -> v ∈ vals.
Proof.
  unfold assign_row. destruct (length vals =? ncols)%nat.
  - intros [= <-]. trivial.
  - destruct vals as [ | w [ | ? ?]]; try discriminate.
    intros [= <-] Hv. apply elem_of_replicate in Hv as [-> _]. left.
Qed.

Lemma fillna0_loaded_finite (file : CsvFile) (row : Row) :
  row ∈ load_frame file -> F64.isfinite (fillna0 (u_numeric row)) = true.
Proof.
  intros H. apply load_frame_elem in H as (r & _ & ->). cbn.
  destruct (to_numeric (csv_u_numeric r)) as [[|]|[|]| |[|] m e]; reflexivity.
Qed.

(** X4. The matrix handed to [imshow] is dense: on a frame loaded by the
    current script every entry is a finite number (text, NaN and
    infinities in [u_numeric] have become 0.0). *)
Theorem heatmap_entries_finite (file : CsvFile) (hm : Heatmap) :
  build_heatmap (load_frame file) = Ok hm ->
  Forall (Forall (fun v => F64.isfinite v = true)) (u_matrix hm).
Proof.
  intros Hb.
  destruct (build_heatmap_spec _ hm Hb) as (_ & _ & Hlen & _ & Hfill).
  apply Forall_forall. intros row Hrow.
  apply list_elem_of_lookup in Hrow as [k Hk].
  pose proof (lookup_lt_Some _ _ _ Hk) as Hlt. rewrite Hlen in Hlt.
  destruct (lookup_lt_is_Some_2 _ _ Hlt) as [tv Htv].
  destruct (Hfill k tv Htv) as (row' & Hr & Hk').
  rewrite Hk in Hk'. injection Hk' as <-.
  apply Forall_forall. intros v Hv.
  unfold layer_row in Hr.
  pose proof (assign_row_elem _ _ _ v Hr Hv) as Hin.
  apply list_elem_of_fmap in Hin as (r & -> & Hrin).
  apply final_data_at_elem in Hrin as [Hdf _].
  apply (fillna0_loaded_finite file r Hdf).
Qed.

Lemma heatmap_entries_finite_witness :
  exists hm,
    build_heatmap (load_frame invalid_final_2x2) = Ok hm
    /\ u_matrix hm !! 1 = Some [F64.zero; F64.of_Z 5]
    /\ Forall (Forall (fun v => F64.isfinite v = true)) (u_matrix hm).
Proof.
  destruct (build_heatmap (load_frame invalid_final_2x2)) as [hm | e] eqn:E;
    [ | vm_compute in E; discriminate].
  exists hm. split; [reflexivity | ].
  pose proof (heatmap_entries_finite invalid_final_2x2 hm E) as H.
  split; [ | exact H].
  vm_compute in E. injection E as <-. reflexivity.
Defined.

(** X5. Row [i] of the heat map is the layer of the time at index
    [i * step] of the sorted distinct times; when that layer has one line
    per distinct position, the row is its [u_numeric] in position order
    with NaN replaced by 0.0. *)
Theorem heatmap_row_alignment (df : DataFrame) (hm : Heatmap)
    (i : nat) (row : list float) :
  build_heatmap df = Ok hm ->
  u_matrix hm !! i = Some row ->
  exists tv,
    times_of df !! (i * step_of (times_of df)) = Some tv
    /\ t_vals_subset hm !! i = Some tv
    /\ layer_row df (length (x_vals hm)) tv = Ok row
    /\ (length (rows_at df tv) = length (x_vals hm) ->
        row = map (fun r => fillna0 (u_numeric r)) (final_data_at df tv)).
Proof.
  intros Hb Hi.
  destruct (build_heatmap_spec _ hm Hb) as (_ & Ht & Hlen & _ & Hfill).
  pose proof (lookup_lt_Some _ _ _ Hi) as Hlt. rewrite Hlen in Hlt.
  destruct (lookup_lt_is_Some_2 _ _ Hlt) as [tv Htv].
  destruct (Hfill i tv Htv) as (row' & Hr & Hi').
  rewrite Hi in Hi'. injection Hi' as <-.
  exists tv. split; [ | split; [exact Htv | split; [exact Hr | ]]].
  - rewrite Ht, slice_step_lookup in Htv by apply step_of_positive. exact Htv.
  - intros Hfull. unfold layer_row, assign_row in Hr.
    rewrite length_map, sort_values_x_length, Hfull, Nat.eqb_refl in Hr.
    injection Hr as <-. reflexivity.
Qed.

Lemma heatmap_row_alignment_witness :
  exists hm tv,
    build_heatmap (load_frame exact_2x2) = Ok hm
    /\ times_of (load_frame exact_2x2) !! 1 = Some tv
    /\ u_matrix hm !! 1 = Some [F64.of_Z 3; F64.of_Z 4].
Proof.
  destruct (build_heatmap (load_frame exact_2x2)) as [hm | e] eqn:E;
    [ | vm_compute in E; discriminate].
  assert (H1 : u_matrix hm !! 1 = Some [F64.of_Z 3; F64.of_Z 4]).
  { vm_compute in E. injection E as <-. reflexivity. }
  destruct (heatmap_row_alignment (load_frame exact_2x2) hm 1 _ E H1)
    as (tv & Htv & _).
  exists hm, tv. split; [reflexivity | ]. split; [ | exact H1].
  exact Htv.
Defined.

(** ** Outcomes of [plot_results] *)

(** X1. On a file that exists but has no line, [plot_results] prints its
    two loading lines and then fails on [times[-1]]: IndexError, nothing
    drawn, and the script ends with status 1. *)
Theorem plot_results_empty_file (fs : FileSystem) (csv_file method : string)
    (file : CsvFile) :
  fs !! csv_file = Some file -> csv_rows file = [] ->
  plot_results fs csv_file method
  = MkRun [MsgLoading csv_file; MsgTimeLayers 0] (Raise IndexError)
  /\ (forall prog, csv_file <> "compare" ->
        main fs [prog; csv_file]
        = {| process_stdout := [MsgLoading csv_file; MsgTimeLayers 0];
             exit_status := 1; uncaught := Some IndexError; saved := None |}).
Proof.
  intros Hfs Hrows.
  assert (Hp : forall m, plot_results fs csv_file m
               = MkRun [MsgLoading csv_file; MsgTimeLayers 0] (Raise IndexError)).
  { intros m. unfold plot_results, load_frame. rewrite Hfs, Hrows. reflexivity. }
  split; [apply Hp | ].
  intros prog Hne. unfold main. cbn [length lookup list_lookup].
  assert (String.eqb csv_file "compare" = false) as ->
    by (apply String.eqb_neq, Hne).
  cbn. rewrite Hp. reflexivity.
Qed.

Lemma plot_results_empty_file_witness :
  exit_status (main fs_edge ["plot_results.py"; "empty.csv"]) = 1.
Proof.
  destruct (plot_results_empty_file fs_edge "empty.csv" "Unknown" empty_file
              eq_refl eq_refl) as [_ H].
  rewrite (H "plot_results.py") by discriminate. reflexivity.
Defined.

(** ** matplotlib raising or not *)

Lemma draw_cases (mpl : list Rendered.DrawCall -> option string)
    (h : list Rendered.DrawCall) (c : Rendered.DrawCall) :
  Rendered.draw mpl h c = Ok (h ++ [c])%list
  \/ exists what, mpl (h ++ [c])%list = Some what
                  /\ Rendered.draw mpl h c = Raise (MatplotlibError what).
Proof. unfold Rendered.draw. destruct (mpl _); eauto. Qed.

Ltac run_simpl :=
  cbn [mbind run_mbind run_bind lift outcome stdout mret run_mret run_ret
       print app fst snd].

Ltac draw_step mpl :=
  match goal with
  | |- context [Rendered.draw mpl ?h ?c] =>
      let what := fresh "what" in
      let Hm := fresh "Hm" in
      destruct (draw_cases mpl h c) as [-> | (what & Hm & ->)]; run_simpl
  end.

(** The loop of panel 1 with its drawing calls next to the loop without. *)
Lemma rendered_evolution_loop (mpl : list Rendered.DrawCall -> option string)
    (df : DataFrame) (times : list float) (num : nat) (l : list nat) :
  forall (i : nat) (curves : list Curve) (h : list Rendered.DrawCall),
  match for_enumerate
          (fun (s : list Curve * list Rendered.DrawCall) i t_idx =>
             tv ← list_item times t_idx;
             let data := sort_values_x (rows_at df tv) in
             let c := {| curve_t := tv;
                         curve_color := (i, Nat.max 1 (num - 1));
                         curve_x := column x data;
                         curve_u := column u_numeric data |} in
             h' ← Rendered.draw mpl s.2 (Rendered.PlotSnapshot c);
             Ok (s.1 ++ [c], h')%list)
          i l (curves, h) with
  | Ok s =>
      for_enumerate
        (fun curves i t_idx =>
           tv ← list_item times t_idx;
           let data := sort_values_x (rows_at df tv) in
           Ok (curves ++ [ {| curve_t := tv;
                              curve_color := (i, Nat.max 1 (num - 1));
                              curve_x := column x data;
                              curve_u := column u_numeric data |} ])%list)
        i l curves = Ok s.1
  | Raise e =>
      (exists what h0, mpl h0 = Some what /\ e = MatplotlibError what)
      \/ for_enumerate
           (fun curves i t_idx =>
              tv ← list_item times t_idx;
              let data := sort_values_x (rows_at df tv) in
              Ok (curves ++ [ {| curve_t := tv;
                                 curve_color := (i, Nat.max 1 (num - 1));
                                 curve_x := column x data;
                                 curve_u := column u_numeric data |} ])%list)
           i l curves = Raise e
  end.
Proof.
  induction l as [ | t_idx l IH]; intros i curves h; cbn [for_enumerate].
  - reflexivity.
  - destruct (list_item times t_idx) as [tv | e]; cbn; [ | right; reflexivity].
    destruct (draw_cases mpl h
                (Rendered.PlotSnapshot
                   {| curve_t := tv; curve_color := (i, Nat.max 1 (num - 1));
                      curve_x := column x (sort_values_x (rows_at df tv));
                      curve_u := column u_numeric (sort_values_x (rows_at df tv)) |}))
      as [-> | (what & Hm & ->)]; cbn.
    + apply IH.
    + left. eauto.
Qed.

Lemma rendered_evolution_panel (mpl : list Rendered.DrawCall -> option string)
    (df : DataFrame) (times : list float) (h : list Rendered.DrawCall) :
  (exists curves h',
      Rendered.evolution_panel mpl df times h = Ok (curves, h')
      /\ evolution_panel df times = Ok curves)
  \/ exists what h0,
      mpl h0 = Some what
      /\ Rendered.evolution_panel mpl df times h = Raise (MatplotlibError what).
Proof.
  pose proof (rendered_evolution_loop mpl df times (Nat.min 6 (length times))
                (linspace_int (length times - 1) (Nat.min 6 (length times)))
                0 [] h) as H.
  change (match Rendered.evolution_panel mpl df times h with
          | Ok s => evolution_panel df times = Ok s.1
          | Raise e => (exists what h0, mpl h0 = Some what /\ e = MatplotlibError what)
                       \/ evolution_panel df times = Raise e
          end) in H.
  destruct (evolution_panel_ok df times) as [curves Hc].
  destruct (Rendered.evolution_panel mpl df times h) as [[cs h'] | e].
  - left. exists cs, h'. split; [reflexivity | exact H].
  - right. destruct H as [(what & h0 & Hm & ->) | H]; [eauto | ].
    rewrite Hc in H. discriminate.
Qed.

(** [plot_results] with its drawing calls either runs as [plot_results]
    without them does, or ends in matplotlib: before anything is saved,
    or in [plt.show()] after the figures have been saved. *)
Lemma rendered_plot_results_existing
    (mpl : list Rendered.DrawCall -> option string)
    (fs : FileSystem) (csv_file method : string) (file : CsvFile) :
  fs !! csv_file = Some file ->
  let df := load_frame file in
  let loading := [MsgLoading csv_file; MsgTimeLayers (length (times_of df))] in
  Rendered.plot_results mpl fs csv_file method = plot_results fs csv_file method
  \/ (exists what h0,
        mpl h0 = Some what
        /\ Rendered.plot_results mpl fs csv_file method
           = MkRun loading (Raise (MatplotlibError what)))
  \/ (exists what h0 rep,
        mpl h0 = Some what
        /\ outcome (plot_results fs csv_file method) = Ok (Some rep)
        /\ Rendered.plot_results mpl fs csv_file method
           = MkRun (loading ++ [MsgFiguresSaved csv_file])%list
                   (Raise (MatplotlibError what))).
Proof.
  intros Hfs df loading.
  unfold Rendered.plot_results, plot_results. rewrite Hfs.
  fold df. fold (times_of df). run_simpl.
  draw_step mpl; [ | right; left; eauto].
  match goal with
  | |- context [Rendered.evolution_panel mpl df ?ts ?h] =>
      destruct (rendered_evolution_panel mpl df ts h)
        as [(curves & h' & -> & ->) | (what & h0 & Hm & ->)]; run_simpl;
        [ | right; left; eauto]
  end.
  draw_step mpl; [ | right; left; eauto].
  destruct (last_item (times_of df)) as [ft | e]; run_simpl; [ | left; reflexivity].
  draw_step mpl; [ | right; left; eauto].
  destruct (build_heatmap df) as [hm | e]; run_simpl; [ | left; reflexivity].
  draw_step mpl; [ | right; left; eauto].
  draw_step mpl.
  - left. reflexivity.
  - right. right. do 3 eexists. split; [exact Hm | ]. split; reflexivity.
Qed.

Lemma rendered_plot_results_silent
    (mpl : list Rendered.DrawCall -> option string)
    (fs : FileSystem) (csv_file method : string) :
  (forall h, mpl h = None) ->
  Rendered.plot_results mpl fs csv_file method = plot_results fs csv_file method.
Proof.
  intros Hs. destruct (fs !! csv_file) as [file | ] eqn:Hfs.
  - destruct (rendered_plot_results_existing mpl fs csv_file method file Hfs)
      as [H | [(what & h0 & Hm & _) | (what & h0 & rep & Hm & _)]];
      [exact H | | ]; rewrite Hs in Hm; discriminate.
  - unfold Rendered.plot_results, plot_results. rewrite Hfs. reflexivity.
Qed.

(** ** Outcomes of [plot_results] with matplotlib in the picture *)

(** On a file with at least one line, [plot_results] without its drawing
    calls stops in the heat map or not at all. *)
Lemma plot_results_on_lines (fs : FileSystem) (csv_file method : string)
    (file : CsvFile) :
  fs !! csv_file = Some file -> csv_rows file <> [] ->
  let df := load_frame file in
  let ncols := length (unique (map x df)) in
  let subset := slice_step (step_of (times_of df)) (times_of df) in
  let loading := [MsgLoading csv_file; MsgTimeLayers (length (times_of df))] in
  exists curves ft,
    evolution_panel df (times_of df) = Ok curves
    /\ last_item (times_of df) = Ok ft
    /\ match List.find (irregular_layer df ncols) subset with
       | None =>
           exists hm,
             build_heatmap df = Ok hm
             /\ plot_results fs csv_file method
                = MkRun (loading
                           ++ [MsgFiguresSaved csv_file;
                               MsgErrorStatistics ft
                                 (error_statistics
                                    (err_valid (final_data_at df ft)))])%list
                        (Ok (Some (report_of method df curves ft hm)))
       | Some tv =>
           plot_results fs csv_file method
           = MkRun loading
                   (Raise (BroadcastError (length (rows_at df tv)) ncols))
       end.
Proof.
  intros Hfs Hne df ncols subset loading.
  assert (Hdf : df <> []).
  { intros E. apply (f_equal length) in E. unfold df in E.
    rewrite load_frame_length in E. destruct (csv_rows file); [auto | discriminate]. }
  destruct (plot_results_existing fs csv_file method file Hfs)
    as (curves & Hc & ->). fold df.
  destruct (last_item_nonempty _ (times_of_nonempty df Hdf)) as [ft Hft].
  exists curves, ft. split; [exact Hc | split; [exact Hft | ]].
  rewrite Hft.
  pose proof (build_heatmap_first_irregular df) as E.
  cbv zeta in E. fold ncols subset in E.
  destruct (build_heatmap df) as [hm | e]; cbn in E;
    destruct (List.find (irregular_layer df ncols) subset) as [tv | ];
    cbn in E; try discriminate.
  - exists hm. split; reflexivity.
  - injection E as ->. reflexivity.
Qed.

Lemma non_numeric_is_text (c : token) : non_numeric c = true -> is_text c = true.
Proof. destruct c; [discriminate | reflexivity]. Qed.

(** C1 as stated fails: a file with a non-numeric token in [u_numeric]
    whose second time layer has two lines for three positions. The
    pipeline raises the broadcast error of the heat map, and the script
    ends with status 1; with matplotlib in the picture no behaviour of it
    lets the run return. *)
Lemma coercion_safety_raises_on_ragged_grid :
  csv_rows ragged_text_file !! 3
  = Some (sample_row 1 0 (Text "diverged") (num 3) (num 0))
  /\ non_numeric (Text "diverged") = true
  /\ plot_results fs_ragged_text "cn.csv" "CN"
     = MkRun [MsgLoading "cn.csv"; MsgTimeLayers 2]
             (Raise (BroadcastError 2 3))
  /\ exit_status (main fs_ragged_text ["plot_results.py"; "cn.csv"; "CN"]) = 1
  /\ (forall mpl, exists e,
        outcome (Rendered.plot_results mpl fs_ragged_text "cn.csv" "CN")
        = Raise e).
Proof.
  assert (Hp : plot_results fs_ragged_text "cn.csv" "CN"
               = MkRun [MsgLoading "cn.csv"; MsgTimeLayers 2]
                       (Raise (BroadcastError 2 3)))
    by (vm_compute; reflexivity).
  split; [reflexivity | split; [reflexivity | split; [exact Hp | split]]].
  - vm_compute. reflexivity.
  - intros mpl.
    destruct (rendered_plot_results_existing mpl fs_ragged_text "cn.csv" "CN"
                ragged_text_file eq_refl)
      as [-> | [(what & h0 & _ & ->) | (what & h0 & rep & _ & _ & ->)]].
    + rewrite Hp. eauto.
    + eauto.
    + eauto.
Qed.

(** C1 (as the code has it). A line whose [u_numeric] or [u_exact] is a
    non-numeric token gets an invalid (NaN) error, and its label is
    absent from the valid errors of every time layer, so from what [l2],
    [linf] and the mean are computed over. The coercion raises nothing,
    but the pipeline can: with the heat map's broadcast error, when a
    selected time layer has a number of lines that is neither the number
    of distinct positions nor 1, or inside matplotlib. When no selected
    layer is irregular and matplotlib raises nothing, the report is
    produced. *)
Theorem coercion_safety (mpl : list Rendered.DrawCall -> option string)
    (fs : FileSystem) (csv_file method : string)
    (file : CsvFile) (i : nat) (r : CsvRow) :
  fs !! csv_file = Some file ->
  csv_rows file !! i = Some r ->
  non_numeric (csv_u_numeric r) = true \/ non_numeric (csv_u_exact r) = true ->
  let df := load_frame file in
  let ncols := length (unique (map x df)) in
  let subset := slice_step (step_of (times_of df)) (times_of df) in
  (exists row, df !! i = Some row /\ idx row = i /\ error row = F64.nan)
  /\ (forall tv, i ∉ labels (err_valid (final_data_at df tv)))
  /\ match outcome (Rendered.plot_results mpl fs csv_file method) with
     | Ok (Some rep) =>
         summary rep
         = error_statistics (err_valid (final_data_at df (final_t rep)))
         /\ List.find (irregular_layer df ncols) subset = None
     | Ok None => False
     | Raise e =>
         (exists what, e = MatplotlibError what)
         \/ (exists tv,
               List.find (irregular_layer df ncols) subset = Some tv
               /\ e = BroadcastError (length (rows_at df tv)) ncols)
     end
  /\ (List.find (irregular_layer df ncols) subset = None ->
      (forall h, mpl h = None) ->
      exists rep,
        outcome (Rendered.plot_results mpl fs csv_file method) = Ok (Some rep)).
Proof.
  intros Hfs Hi Hnon df ncols subset.
  assert (Htext : is_text (csv_u_numeric r) = true \/ is_text (csv_u_exact r) = true)
    by (destruct Hnon as [H | H]; [left | right]; apply non_numeric_is_text, H).
  assert (Hrow : df !! i = Some (replace_inf_row (recompute_error i r)))
    by (apply load_frame_lookup, Hi).
  assert (Hne : csv_rows file <> []).
  { intros E. rewrite E in Hi. discriminate. }
  destruct (plot_results_on_lines fs csv_file method file Hfs Hne)
    as (curves & ft & _ & _ & Hpure).
  fold df ncols subset in Hpure.
  split; [ | split; [ | split]].
  - eexists. split; [exact Hrow | ]. split; [reflexivity | ].
    apply text_error_is_nan, Htext.
  - intros tv Hin.
    apply err_valid_labels in Hin as (row & Hfd & Hidx & Hfin).
    apply final_data_at_elem in Hfd as [Hdf _].
    apply load_frame_elem in Hdf as (r' & Hr' & Erow).
    rewrite Hidx in Hr', Erow. rewrite Hi in Hr'. injection Hr' as <-.
    rewrite Erow, text_error_is_nan in Hfin by exact Htext. discriminate.
  - destruct (rendered_plot_results_existing mpl fs csv_file method file Hfs)
      as [-> | [(what & h0 & _ & ->) | (what & h0 & rep & _ & _ & ->)]];
      [ | left; eauto | left; eauto].
    destruct (List.find (irregular_layer df ncols) subset) as [tv | ].
    + rewrite Hpure. right. eauto.
    + destruct Hpure as (hm & _ & ->). split; reflexivity.
  - intros Hreg Hs. rewrite (rendered_plot_results_silent mpl fs csv_file method Hs).
    rewrite Hreg in Hpure. destruct Hpure as (hm & _ & ->). eauto.
Qed.

Lemma coercion_safety_witness :
  fs_placeholder !! "cn.csv" = Some placeholder_2x2
  /\ (2 ∉ labels (err_valid (final_data_at (load_frame placeholder_2x2)
                                            (F64.of_Z 1))))
  /\ exists rep,
       outcome (Rendered.plot_results silent fs_placeholder "cn.csv" "CN")
       = Ok (Some rep)
       /\ linf_error (summary rep) = F64.of_Z 1.
Proof.
  destruct (coercion_safety silent fs_placeholder "cn.csv" "CN" placeholder_2x2 2
              (sample_row 1 0 (Text "diverged") (num 3) (num 0))
              eq_refl eq_refl (or_introl eq_refl)) as (_ & Hex & Hout & _).
  split; [reflexivity | ]. split; [apply Hex | ].
  destruct (outcome (Rendered.plot_results silent fs_placeholder "cn.csv" "CN"))
    as [[rep | ] | e] eqn:E.
  - exists rep. split; [reflexivity | ].
    vm_compute in E. injection E as <-. reflexivity.
  - contradiction.
  - vm_compute in E. discriminate.
Defined.



(** ** The time layers *)

Lemma rank_eq_of_le (a b : float) :
  lex_le (rank a) (rank b) -> lex_le (rank b) (rank a) -> rank a = rank b.
Proof.
  destruct (rank a) as [[a1 a2] a3], (rank b) as [[b1 b2] b3].
  unfold lex_le. cbn. intros H1 H2.
  assert (a1 = b1 /\ a2 = b2 /\ a3 = b3) as (-> & -> & ->) by lia. reflexivity.
Qed.

Lemma ltb_trans (a b c : float) :
  F64.ltb a b = true -> F64.ltb b c = true -> F64.ltb a c = true.
Proof.
  rewrite !ltb_rank. intros (Ha & Hb & H1) (_ & Hc & H2). repeat split; auto.
  intros Hca. apply H1.
  destruct (lex_le_total (rank b) (rank a)) as [ | Hab]; [assumption | ].
  exfalso. apply H2. eapply lex_le_trans; eassumption.
Qed.

Lemma ltb_of_distinct (a b : float) :
  F64.isnan a = false -> F64.isnan b = false ->
  same_key a b = false -> F64.ltb b a = false -> F64.ltb a b = true.
Proof.
  intros Ha Hb Hk Hlt. apply ltb_rank. repeat split; auto.
  intros Hba.
  assert (Hab : lex_le (rank a) (rank b)).
  { pose proof (not_ltb_leb a b Ha Hb Hlt) as H. apply leb_rank in H. tauto. }
  unfold same_key in Hk. apply orb_false_iff in Hk as [Hk _].
  assert (F64.eqb a b = true); [ | congruence].
  apply eqb_rank. auto using rank_eq_of_le.
Qed.

Lemma insert_by_strict (a : float) (l : list float) :
  F64.isnan a = false ->
  Forall (fun v => F64.isnan v = false) l ->
  Forall (fun b => same_key a b = false) l ->
  StronglySorted (fun u v => F64.ltb u v = true) l ->
  StronglySorted (fun u v => F64.ltb u v = true) (insert_by id a l).
Proof.
  intros Ha Hn Hd Hs. induction Hs as [ | b l Hs IH Hb]; cbn.
  - repeat constructor.
  - inversion Hn as [ | ? ? Hbn Hln]; subst.
    inversion Hd as [ | ? ? Hab Hdl]; subst.
    unfold id. destruct (F64.ltb b a) eqn:E.
    + constructor; [apply IH; assumption | ].
      rewrite insert_by_perm. constructor; assumption.
    + assert (Hlt : F64.ltb a b = true) by (apply ltb_of_distinct; assumption).
      constructor; [constructor; assumption | ].
      constructor; [exact Hlt | ].
      eapply Forall_impl; [exact Hb | ].
      intros c Hc. cbn in Hc. eapply ltb_trans; eassumption.
Qed.

Lemma sorted_strict (l : list float) :
  Forall (fun v => F64.isnan v = false) l ->
  all_distinct l ->
  StronglySorted (fun u v => F64.ltb u v = true) (sorted l).
Proof.
  unfold sorted. induction l as [ | a l IH]; intros Hn Hd.
  - constructor.
  - inversion Hn; subst. destruct Hd as [Hda Hdl].
    change (sort_by id (a :: l)) with (insert_by id a (sort_by id l)).
    apply insert_by_strict.
    + assumption.
    + rewrite sort_by_perm. assumption.
    + rewrite sort_by_perm. assumption.
    + apply IH; assumption.
Qed.

Lemma all_distinct_filter (p : float -> bool) (l : list float) :
  all_distinct l -> all_distinct (List.filter p l).
Proof.
  induction l as [ | a l IH]; cbn; [trivial | ].
  intros [Ha Hl]. destruct (p a); cbn; [ | auto].
  split; [ | auto].
  apply Forall_forall. intros b Hb.
  rewrite list_elem_of_In, filter_In, <- list_elem_of_In in Hb.
  rewrite Forall_forall in Ha. apply Ha, Hb.
Qed.

Lemma unique_all_distinct (l : list float) : all_distinct (unique l).
Proof.
  induction l as [ | a l IH]; cbn; [trivial | ].
  split; [ | apply all_distinct_filter, IH].
  apply Forall_forall. intros b Hb.
  rewrite list_elem_of_In, filter_In in Hb. destruct Hb as [_ Hb].
  apply negb_true_iff, Hb.
Qed.

Lemma strongly_sorted_last (l : list float) (m : float) :
  Forall (fun v => F64.isnan v = false) l ->
  StronglySorted (fun u v => F64.ltb u v = true) l ->
  last l = Some m ->
  Forall (fun v => F64.leb v m = true) l.
Proof.
  intros Hn Hs. revert Hn.
  induction Hs as [ | a l Hs IH Ha]; intros Hn Hl; [constructor | ].
  inversion Hn as [ | ? ? Han Hln]; subst.
  destruct l as [ | b l'].
  - injection Hl as <-. constructor; [apply leb_refl, Han | constructor].
  - change (last (a :: b :: l')) with (last (b :: l')) in Hl.
    constructor; [ | apply IH; assumption].
    apply ltb_leb. rewrite Forall_forall in Ha. apply Ha.
    apply last_Some in Hl as [l'' ->]. apply elem_of_app. right. left.
Qed.

(** The sorted distinct times of a NaN-free column. *)
Lemma times_of_sorted_cover (df : DataFrame) :
  Forall (fun v => F64.isnan v = false) (map t df) ->
  StronglySorted (fun u v => F64.ltb u v = true) (times_of df)
  /\ (forall tv, tv ∈ times_of df -> exists row, row ∈ df /\ t row = tv)
  /\ (forall row, row ∈ df ->
        exists tv, tv ∈ times_of df /\ F64.eqb tv (t row) = true).
Proof.
  intros Hn. unfold times_of. rewrite values_column.
  assert (Hu : Forall (fun v => F64.isnan v = false) (unique (map t df))).
  { rewrite Forall_forall in Hn |- *. intros v Hv. apply Hn, unique_subset, Hv. }
  split; [apply sorted_strict; [exact Hu | apply unique_all_distinct] | split].
  - intros tv Htv. rewrite sorted_perm in Htv. apply unique_subset in Htv.
    apply list_elem_of_fmap in Htv as (row & -> & Hrow). eauto.
  - intros row Hrow.
    assert (Htr : t row ∈ map t df) by (apply list_elem_of_fmap; eauto).
    destruct (unique_covers _ _ Htr) as (u & Hu' & Hk).
    exists u. split; [rewrite sorted_perm; exact Hu' | ].
    unfold same_key in Hk. apply orb_true_iff in Hk as [Hk | Hk]; [exact Hk | ].
    apply andb_true_iff in Hk as [_ Hk].
    rewrite Forall_forall in Hn. rewrite (Hn _ Htr) in Hk. discriminate.
Qed.

(** X11. With no NaN among the times of a frame, the list [times] that
    [plot_results] walks is strictly ascending (so free of duplicates),
    each of its entries is the time of some line, and the time of every
    line compares equal to one of its entries. *)
Theorem times_strictly_ascending (df : DataFrame) :
  Forall (fun v => F64.isnan v = false) (map t df) ->
  StronglySorted (fun u v => F64.ltb u v = true) (times_of df)
  /\ (forall tv, tv ∈ times_of df -> exists row, row ∈ df /\ t row = tv)
  /\ (forall row, row ∈ df ->
        exists tv, tv ∈ times_of df /\ F64.eqb tv (t row) = true).
Proof.
  exact (times_of_sorted_cover df).
Qed.

Lemma times_strictly_ascending_witness :
  StronglySorted (fun u v => F64.ltb u v = true)
                 (times_of (load_frame ragged_file))
  /\ length (times_of (load_frame ragged_file)) = 3.
Proof.
  split; [ | reflexivity].
  apply (times_strictly_ascending (load_frame ragged_file)).
  repeat constructor.
Defined.

(** The largest time of a NaN-free column, as [df["t"].max()] finds it. *)
Lemma max_time_spec (df : DataFrame) :
  df <> [] ->
  Forall (fun v => F64.isnan v = false) (map t df) ->
  max_time df ∈ map t df
  /\ Forall (fun v => F64.leb v (max_time df) = true) (map t df).
Proof.
  intros Hdf Hn. unfold max_time, series_max. rewrite values_column.
  assert (Hd : dropna (map t df) = map t df).
  { clear Hdf. induction Hn as [ | v l Hv _ IH]; cbn; [reflexivity | ].
    rewrite Hv. cbn. unfold dropna in IH. rewrite IH. reflexivity. }
  rewrite Hd. destruct (map t df) as [ | a l] eqn:E.
  - destruct df; [contradiction | discriminate].
  - split; [apply fold_left_choice, maximum_choice | apply fold_maximum_upper, Hn].
Qed.

(** Both modes look at the same final layer. *)
Lemma final_layer_agrees (df : DataFrame) (ft : float) :
  Forall (fun v => F64.isnan v = false) (map t df) ->
  last_item (times_of df) = Ok ft ->
  rows_at df ft = rows_at df (max_time df).
Proof.
  intros Hn Hft.
  destruct (times_of_sorted_cover df Hn) as (Hs & Hfrom & Hcover).
  assert (Hdf : df <> []).
  { intros ->. discriminate. }
  destruct (max_time_spec df Hdf Hn) as [Hmin Hmax].
  pose proof (last_item_elem _ _ Hft) as Hin.
  assert (Hlast : last (times_of df) = Some ft).
  { unfold last_item in Hft. destruct (last (times_of df)); [congruence | discriminate]. }
  assert (Htn : Forall (fun v => F64.isnan v = false) (times_of df)).
  { apply Forall_forall. intros v Hv. destruct (Hfrom v Hv) as (row & Hrow & <-).
    rewrite Forall_forall in Hn. apply Hn, list_elem_of_fmap. eauto. }
  pose proof (strongly_sorted_last _ _ Htn Hs Hlast) as Hup.
  (* ft <= max *)
  destruct (Hfrom ft Hin) as (r1 & Hr1 & E1).
  assert (H1 : F64.leb ft (max_time df) = true).
  { rewrite Forall_forall in Hmax. apply Hmax. rewrite <- E1.
    apply list_elem_of_fmap. eauto. }
  (* max <= ft *)
  apply list_elem_of_fmap in Hmin as (r2 & E2 & Hr2).
  destruct (Hcover r2 Hr2) as (u & Hu & Hk).
  assert (H2 : F64.leb u ft = true).
  { rewrite Forall_forall in Hup. apply Hup, Hu. }
  apply eqb_rank in Hk as (_ & _ & Ek). rewrite <- E2 in Ek.
  apply leb_rank in H1 as (Hfn & Hmn & L1). apply leb_rank in H2 as (_ & _ & L2).
  rewrite Ek in L2.
  pose proof (rank_eq_of_le _ _ L1 L2) as Er.
  unfold rows_at. apply filter_ext. intros row.
  destruct (F64.eqb (t row) ft) eqn:Ea; symmetry.
  - apply eqb_rank in Ea as (? & ? & Ea). apply eqb_rank. repeat split; congruence.
  - destruct (F64.eqb (t row) (max_time df)) eqn:Eb; [ | reflexivity].
    apply eqb_rank in Eb as (? & ? & Eb).
    assert (F64.eqb (t row) ft = true); [ | congruence].
    apply eqb_rank. repeat split; congruence.
Qed.

(** X13. On a file with finite times, the entry [compare_methods] draws
    for a source holds the valid errors of the same final layer as the
    report of [plot_results], and its [l2] and [linf] bars are the [l2]
    and [linf] of that report. *)
Theorem modes_agree_on_final_errors (fs : FileSystem)
    (csv_file method color marker : string) (i : nat)
    (file : CsvFile) (rep : SingleReport) :
  fs !! csv_file = Some file ->
  Forall (fun r => F64.isfinite (csv_t r) = true) (csv_rows file) ->
  outcome (plot_results fs csv_file method) = Ok (Some rep) ->
  let e := method_entry i method color marker file in
  entry_err e = err_valid (final_data_at (load_frame file) (final_t rep))
  /\ entry_x e = x_valid (final_data_at (load_frame file) (final_t rep))
  /\ entry_l2 e = l2_error (summary rep)
  /\ entry_linf e = linf_error (summary rep).
Proof.
  intros Hfs Hfin Hout e.
  destruct (plot_results_existing fs csv_file method file Hfs)
    as (curves & _ & Hrun).
  rewrite Hrun in Hout. clear Hrun.
  destruct (last_item (times_of (load_frame file))) as [ft | ?] eqn:Hft;
    [ | discriminate].
  destruct (build_heatmap (load_frame file)) as [hm | ?]; [ | discriminate].
  cbn in Hout. injection Hout as <-. cbn [final_t summary report_of].
  pose proof (final_layer_agrees _ ft (finite_times_not_nan file Hfin) Hft) as Er.
  unfold e, method_entry, final_data_at. rewrite <- Er.
  cbn [entry_err entry_x entry_l2 entry_linf].
  repeat split.
  - unfold error_statistics.
    destruct (err_valid (sort_values_x (rows_at (load_frame file) ft)));
      reflexivity.
  - unfold error_statistics.
    destruct (err_valid (sort_values_x (rows_at (load_frame file) ft)));
      reflexivity.
Qed.

Lemma modes_agree_on_final_errors_witness :
  exists rep,
    outcome (plot_results fs_placeholder "cn.csv" "CN") = Ok (Some rep)
    /\ entry_linf (method_entry 0 "CN" "blue" "o" placeholder_2x2)
       = linf_error (summary rep).
Proof.
  destruct (outcome (plot_results fs_placeholder "cn.csv" "CN"))
    as [[rep | ] | e] eqn:E; [ | vm_compute in E; discriminate
                               | vm_compute in E; discriminate].
  exists rep. split; [reflexivity | ].
  apply (modes_agree_on_final_errors fs_placeholder "cn.csv" "CN" "blue" "o" 0
           placeholder_2x2 rep eq_refl); [repeat constructor | exact E].
Defined.

(** ** Panel 1 *)

Lemma linspace_int_length (stop num : nat) : length (linspace_int stop num) = num.
Proof. unfold linspace_int. rewrite length_map, length_seq. reflexivity. Qed.

Lemma linspace_int_head (stop num : nat) :
  0 < num -> head (linspace_int stop num) = Some 0.
Proof.
  intros H. unfold linspace_int. destruct num as [ | k]; [lia | ].
  cbn [seq map head]. destruct (1 <? S k)%nat eqn:E1; [ | reflexivity].
  apply Nat.ltb_lt in E1.
  destruct (0 =? S k - 1)%nat eqn:E2; [apply Nat.eqb_eq in E2; lia | ].
  rewrite Nat.mul_0_l, Nat.Div0.div_0_l. reflexivity.
Qed.

Lemma linspace_int_last (stop num : nat) :
  0 < num ->
  last (linspace_int stop num) = Some (if (1 <? num)%nat then stop else 0).
Proof.
  intros H. unfold linspace_int. destruct num as [ | k]; [lia | ].
  rewrite seq_S, map_app. cbn [map]. rewrite last_snoc. cbn [Nat.add].
  destruct (1 <? S k)%nat; [ | reflexivity].
  replace (S k - 1) with k by lia. rewrite Nat.eqb_refl. reflexivity.
Qed.

(** The loop of lines 38-47: one curve per index, in order, each read off
    the layer of the time at that index. *)
Lemma evolution_loop_spec (df : DataFrame) (times : list float) (num : nat)
    (idxs : list nat) :
  forall (i : nat) (acc curves : list Curve),
  for_enumerate
    (fun (curves : list Curve) i t_idx =>
       tv ← list_item times t_idx;
       let data := sort_values_x (rows_at df tv) in
       Ok (curves ++ [ {| curve_t := tv;
                          curve_color := (i, Nat.max 1 (num - 1));
                          curve_x := column x data;
                          curve_u := column u_numeric data |} ])%list)
    i idxs acc = Ok curves ->
  exists tvs,
    Forall2 (fun k tv => times !! k = Some tv) idxs tvs
    /\ map curve_t curves = (map curve_t acc ++ tvs)%list
    /\ (forall P : Curve -> Prop,
          (forall j tv, P {| curve_t := tv;
                             curve_color := (j, Nat.max 1 (num - 1));
                             curve_x := column x (final_data_at df tv);
                             curve_u := column u_numeric (final_data_at df tv) |}) ->
          Forall P acc -> Forall P curves).
Proof.
  induction idxs as [ | k idxs IH]; intros i acc curves H; cbn in H.
  - injection H as <-. exists []. rewrite app_nil_r. repeat split; auto.
  - unfold list_item in H. destruct (times !! k) as [tv | ] eqn:Ek; cbn in H;
      [ | discriminate].
    apply IH in H as (tvs & H2 & Hmap & HP).
    exists (tv :: tvs). split; [constructor; assumption | split].
    + rewrite Hmap, map_app. cbn. rewrite <- app_assoc. reflexivity.
    + intros P Hmk Hacc. apply (HP P Hmk).
      apply Forall_app. split; [exact Hacc | ].
      constructor; [apply Hmk | constructor].
Qed.

Lemma Forall2_head {A B} (R : A -> B -> Prop) (l : list A) (k : list B) (a : A) :
  Forall2 R l k -> head l = Some a -> exists b, head k = Some b /\ R a b.
Proof. intros H. destruct H; cbn; [discriminate | ]. intros [= ->]. eauto. Qed.

Lemma Forall2_last_some {A B} (R : A -> B -> Prop) (l : list A) (k : list B) (a : A) :
  Forall2 R l k -> last l = Some a -> exists b, last k = Some b /\ R a b.
Proof.
  intros H Hl. apply last_Some in Hl as [l' ->].
  apply Forall2_app_inv_l in H as (k1 & k2 & H1 & H2 & ->).
  inversion H2 as [ | ? b ? ? Hab Hnil]; subst. inversion Hnil; subst.
  exists b. rewrite last_snoc. auto.
Qed.

(** X10. Panel 1 draws [min(6, n)] curves for [n] distinct times and never
    fails on its indices; the first curve is the first time, the last
    curve the last time, and every curve is the layer of one of the
    times, sorted by position. *)
Theorem evolution_panel_curves (df : DataFrame) (times : list float) :
  exists curves,
    evolution_panel df times = Ok curves
    /\ length curves = Nat.min 6 (length times)
    /\ curve_t <$> head curves = head times
    /\ curve_t <$> last curves = last times
    /\ Forall (fun c =>
                 curve_t c ∈ times
                 /\ curve_x c = column x (final_data_at df (curve_t c))
                 /\ curve_u c = column u_numeric (final_data_at df (curve_t c)))
              curves.
Proof.
  destruct (evolution_panel_ok df times) as [curves Hc].
  exists curves. split; [exact Hc | ].
  unfold evolution_panel in Hc.
  set (num := Nat.min 6 (length times)) in *.
  apply evolution_loop_spec in Hc as (tvs & H2 & Hmap & HP).
  cbn [map app] in Hmap.
  assert (Hlen : length curves = num).
  { rewrite <- (length_map curve_t), Hmap.
    rewrite <- (Forall2_length _ _ _ H2). apply linspace_int_length. }
  split; [exact Hlen | ].
  destruct (Nat.eq_dec (length times) 0) as [Hz | Hnz].
  - assert (curves = []) as ->.
    { destruct curves; [reflexivity | ].
      subst num. rewrite Hz in Hlen. discriminate. }
    destruct times; [ | discriminate]. repeat split. constructor.
  - assert (Hnum : 0 < num) by (unfold num; lia).
    split; [ | split].
    + assert (Hh : head (map curve_t curves) = curve_t <$> head curves)
        by (destruct curves; reflexivity).
      rewrite <- Hh, Hmap.
      destruct (Forall2_head _ _ _ _ H2 (linspace_int_head _ _ Hnum))
        as (tv & -> & Htv).
      rewrite head_lookup. symmetry. exact Htv.
    + rewrite <- fmap_last. change (curve_t <$> curves) with (map curve_t curves).
      rewrite Hmap.
      destruct (Forall2_last_some _ _ _ _ H2 (linspace_int_last _ _ Hnum))
        as (tv & -> & Htv).
      rewrite last_lookup. rewrite <- Htv. f_equal.
      destruct (1 <? num)%nat eqn:E1; [lia | ].
      apply Nat.ltb_ge in E1. unfold num in *. lia.
    + assert (Hin : Forall (fun tv => tv ∈ times) tvs).
      { clear -H2. induction H2; constructor; [ | assumption].
        eapply list_elem_of_lookup_2; eassumption. }
      assert (Hshape : Forall (fun c =>
                  curve_x c = column x (final_data_at df (curve_t c))
                  /\ curve_u c = column u_numeric (final_data_at df (curve_t c)))
                curves).
      { apply HP; [ | constructor]. intros j tv. cbn. auto. }
      rewrite <- Hmap in Hin. rewrite Forall_map in Hin.
      apply Forall_forall. intros c Hcin.
      rewrite Forall_forall in Hin, Hshape.
      split; [apply (Hin c Hcin) | apply (Hshape c Hcin)].
Qed.

(** ** The comparison loop within its four colours *)










Lemma compare_loop_outcome (fs : FileSystem) (pairs : list (string * string)) :
  forall i done,
  (exists done', outcome (compare_loop fs i pairs done) = Ok done')
  \/ outcome (compare_loop fs i pairs done) = Raise IndexError.
Proof.
  induction pairs as [ | [csv_file label] rest IH]; intros i done.
  - left. eexists. reflexivity.
  - destruct (fs !! csv_file) as [file | ] eqn:E.
    + destruct (le_lt_dec 4 i) as [Hi | Hi].
      * right. rewrite (compare_loop_out_of_colors fs i csv_file label file)
          by assumption. reflexivity.
      * destruct (lookup_lt_is_Some_2 colors i ltac:(cbn; lia)) as [color Hc].
        destruct (lookup_lt_is_Some_2 markers i ltac:(cbn; lia)) as [marker Hm].
        rewrite (compare_loop_take fs i csv_file label file color marker)
          by assumption.
        apply IH.
    + rewrite compare_loop_skip by assumption.
      unfold mbind, run_mbind, run_bind. cbn. apply IH.
Qed.

(** X15. When the first listed source does not exist, [compare_methods]
    never produces a report, whatever the other sources are: it ends
    with the FileNotFoundError of that path, raised when the analytical
    curve is read, unless the loop has already ended with an IndexError. *)
Theorem compare_without_first_source (fs : FileSystem) (first : string)
    (others method_names : list string) :
  fs !! first = None ->
  outcome (compare_methods fs (first :: others) method_names)
  = Raise (FileNotFoundError first)
  \/ outcome (compare_methods fs (first :: others) method_names)
     = Raise IndexError.
Proof.
  intros H.
  pose proof (compare_loop_outcome fs (zip (first :: others) method_names) 0 [])
    as Hl.
  assert (Hout : outcome (compare_methods fs (first :: others) method_names)
                 = match outcome (compare_loop fs 0
                                    (zip (first :: others) method_names) []) with
                   | Ok _ => Raise (FileNotFoundError first)
                   | Raise e => Raise e
                   end).
  { unfold compare_methods. unfold mbind at 1. unfold run_mbind, run_bind.
    destruct (outcome (compare_loop fs 0 (zip (first :: others) method_names) []));
      [ | reflexivity].
    cbn. unfold read_csv. rewrite H. reflexivity. }
  rewrite Hout. destruct Hl as [[d ->] | ->]; auto.
Qed.

Lemma compare_without_first_source_witness :
  outcome (compare_methods fs_second_only ["ftcs.csv"; "btcs.csv"] ["FTCS"; "BTCS"])
  = Raise (FileNotFoundError "ftcs.csv").
Proof.
  destruct (compare_without_first_source fs_second_only "ftcs.csv" ["btcs.csv"]
              ["FTCS"; "BTCS"] eq_refl) as [H | H]; [exact H | ].
  vm_compute in H. discriminate.
Defined.

(** ** The command line *)

Lemma stride_pairs (ps : list (string * string)) :
  stride_from 2 0 (interleave ps) = map fst ps
  /\ stride_from 2 1 (interleave ps) = map snd ps.
Proof.
  induction ps as [ | [a b] ps [IH1 IH2]]; [split; reflexivity | ].
  unfold interleave in *. cbn. rewrite IH1, IH2. split; reflexivity.
Qed.

Lemma interleave_length (ps : list (string * string)) :
  length (interleave ps) = 2 * length ps.
Proof.
  induction ps as [ | [a b] ps IH]; [reflexivity | ].
  unfold interleave in *. cbn. rewrite IH. lia.
Qed.

(** X16. [compare] followed by the files and method names of a non-empty
    list of pairs, alternating, runs [compare_methods] on exactly the
    files and the names of those pairs, in order; the script's exit
    status and saved figure are those of that run. *)
Theorem main_compare_parses_pairs (fs : FileSystem) (prog : string)
    (ps : list (string * string)) :
  ps <> [] ->
  main fs (prog :: "compare" :: interleave ps)
  = finish (compare_methods fs (map fst ps) (map snd ps))
           (fun r => Some (ComparisonFigure r)).
Proof.
  intros Hne. destruct ps as [ | [a b] ps]; [contradiction | ].
  unfold main. cbn [length lookup list_lookup].
  rewrite interleave_length. cbn [length].
  replace (S (S (2 * S (length ps))) <? 2)%nat with false
    by (symmetry; apply Nat.ltb_ge; lia).
  cbn [String.eqb Ascii.eqb Bool.eqb andb].
  replace (S (S (2 * S (length ps))) <? 4)%nat with false
    by (symmetry; apply Nat.ltb_ge; lia).
  replace (S (S (2 * S (length ps))) mod 2 =? 0)%nat with true.
  2:{ symmetry. apply Nat.eqb_eq.
      replace (S (S (2 * S (length ps)))) with ((2 + length ps) * 2) by lia.
      apply Nat.Div0.mod_mul. }
  cbn [negb orb]. unfold slice_step.
  change (drop 2 (prog :: "compare" :: interleave ((a, b) :: ps)))
    with (interleave ((a, b) :: ps)).
  change (drop 3 (prog :: "compare" :: interleave ((a, b) :: ps)))
    with (b :: interleave ps).
  destruct (stride_pairs ((a, b) :: ps)) as [-> _].
  cbn [stride_from Nat.sub]. destruct (stride_pairs ps) as [_ ->].
  reflexivity.
Qed.

Lemma main_compare_parses_pairs_witness :
  map entry_label
      (match saved (main fs_first_and_third
                      ["plot_results.py"; "compare"; "ftcs.csv"; "FTCS";
                       "btcs.csv"; "BTCS"; "cn.csv"; "CN"]) with
       | Some (ComparisonFigure r) => entries r
       | _ => []
       end) = ["FTCS"; "CN"].
Proof.
  pose proof (main_compare_parses_pairs fs_first_and_third "plot_results.py"
                [("ftcs.csv", "FTCS"); ("btcs.csv", "BTCS"); ("cn.csv", "CN")]
                ltac:(discriminate)) as H.
  change (interleave [("ftcs.csv", "FTCS"); ("btcs.csv", "BTCS"); ("cn.csv", "CN")])
    with ["ftcs.csv"; "FTCS"; "btcs.csv"; "BTCS"; "cn.csv"; "CN"] in H.
  rewrite H. vm_compute. reflexivity.
Defined.

(** X17. The script exits with status 1 without an exception exactly on a
    malformed command line (fewer than two arguments, or [compare] with
    fewer than four arguments or an odd count); it then prints the usage
    or the pairs message only and saves nothing, whatever the files are. *)
Theorem main_rejects_malformed (fs : FileSystem) (argv : list string) :
  (malformed argv <->
   exit_status (main fs argv) = 1 /\ uncaught (main fs argv) = None)
  /\ (malformed argv ->
      (process_stdout (main fs argv) = [MsgUsage]
       \/ process_stdout (main fs argv) = [MsgNeedPairs])
      /\ saved (main fs argv) = None).
Proof.
  assert (Hfin : forall A (r : Run A) fig,
            ~ (exit_status (finish r fig) = 1 /\ uncaught (finish r fig) = None)).
  { intros A r fig. unfold finish. destruct (outcome r); cbn; intros [? ?]; discriminate. }
  unfold malformed, main.
  destruct (length argv <? 2)%nat eqn:E2.
  { apply Nat.ltb_lt in E2. cbn. split; [split; [auto | left; exact E2] | auto]. }
  apply Nat.ltb_ge in E2.
  destruct (argv !! 1) as [arg1 | ] eqn:E1.
  2:{ apply lookup_ge_None in E1. lia. }
  destruct (String.eqb arg1 "compare") eqn:Ec.
  - apply String.eqb_eq in Ec. subst arg1.
    destruct ((length argv <? 4)%nat || negb (length argv mod 2 =? 0)%nat) eqn:Eb.
    + assert (Hbad : length argv < 4 \/ length argv mod 2 <> 0).
      { apply orb_true_iff in Eb as [Eb | Eb]; [left; apply Nat.ltb_lt, Eb | right].
        apply negb_true_iff, Nat.eqb_neq in Eb. exact Eb. }
      cbn. split; [split; [auto | intros _; right; auto] | auto].
    + apply orb_false_iff in Eb as [Eb1 Eb2].
      apply Nat.ltb_ge in Eb1. apply negb_false_iff, Nat.eqb_eq in Eb2.
      split; [split | ].
      * intros [H | [_ [H | H]]]; lia.
      * intros H. exfalso. eapply Hfin, H.
      * intros [H | [_ [H | H]]]; lia.
  - apply String.eqb_neq in Ec.
    split; [split | ].
    + intros [H | [H _]]; [lia | congruence].
    + intros H. exfalso. eapply Hfin, H.
    + intros [H | [H _]]; [lia | congruence].
Qed.

Lemma main_rejects_malformed_witness :
  malformed ["plot_results.py"; "compare"; "ftcs.csv"; "FTCS"; "btcs.csv"]
  /\ process_stdout (main fs_exact
       ["plot_results.py"; "compare"; "ftcs.csv"; "FTCS"; "btcs.csv"])
     = [MsgNeedPairs].
Proof.
  assert (H : malformed ["plot_results.py"; "compare"; "ftcs.csv"; "FTCS"; "btcs.csv"]).
  { right. split; [reflexivity | right; cbn; lia]. }
  split; [exact H | ].
  destruct (proj2 (main_rejects_malformed fs_exact _) H) as [[Hu | Hp] _];
    [vm_compute in Hu; discriminate | exact Hp].
Defined.

(** ** The older script *)

Lemma legacy_evolution_panel_ok (df : DataFrame) (times : list float) :
  exists curves, Legacy.evolution_panel df times = Ok curves.
Proof.
  unfold Legacy.evolution_panel.
  apply for_enumerate_ok with (P := fun i => i < length times).
  - intros s i a Ha. unfold list_item.
    destruct (lookup_lt_is_Some_2 times a Ha) as [tv ->]. cbn. eauto.
  - apply Forall_forall. intros i Hi. apply linspace_int_in_range. exact Hi.
Qed.

Lemma stored_frame_length (file : CsvFile) :
  length (Legacy.stored_frame file) = length (csv_rows file).
Proof. unfold Legacy.stored_frame. apply length_imap. Qed.

(** X19. The older [plot_results] needs the [error] column: on a file
    with at least one line and no such column it stops with
    [KeyError('error')] after its two loading lines, before the heat map
    and the statistics, and saves nothing. *)
Theorem legacy_needs_error_column (fs : FileSystem) (csv_file method : string)
    (file : CsvFile) :
  fs !! csv_file = Some file ->
  csv_rows file <> [] ->
  has_error_column file = false ->
  Legacy.plot_results fs csv_file method
  = MkRun [MsgLoading csv_file;
           MsgTimeLayers (length (times_of (Legacy.stored_frame file)))]
          (Raise (KeyError "error")).
Proof.
  intros Hfs Hne Hcol. unfold Legacy.plot_results. rewrite Hfs, Hcol.
  set (df := Legacy.stored_frame file). fold (times_of df).
  destruct (legacy_evolution_panel_ok df (times_of df)) as [curves ->].
  assert (Hdf : df <> []).
  { intros E. apply (f_equal length) in E. unfold df in E.
    rewrite stored_frame_length in E. destruct (csv_rows file); [auto | discriminate]. }
  destruct (last_item_nonempty _ (times_of_nonempty df Hdf)) as [ft ->].
  reflexivity.
Qed.

Lemma legacy_needs_error_column_witness :
  outcome (Legacy.plot_results fs_without_error "ftcs.csv" "FTCS")
  = Raise (KeyError "error")
  /\ exists rep, outcome (plot_results fs_without_error "ftcs.csv" "FTCS")
                 = Ok (Some rep).
Proof.
  split.
  - rewrite (legacy_needs_error_column fs_without_error "ftcs.csv" "FTCS"
               exact_2x2_without_error eq_refl ltac:(discriminate) eq_refl).
    reflexivity.
  - eexists. vm_compute. reflexivity.
Defined.

Lemma replace_inf_not_isinf (v : float) :
  F64.isinf v = false -> replace_inf v = v.
Proof. unfold replace_inf. intros ->. reflexivity. Qed.

Lemma consistent_frames_equal (file : CsvFile) :
  Forall consistent_row (csv_rows file) ->
  Legacy.stored_frame file = load_frame file.
Proof.
  intros H. unfold Legacy.stored_frame, load_frame.
  change (map ?h ?l) with (h <$> l). rewrite fmap_imap.
  apply imap_ext. intros i r Hr.
  rewrite Forall_forall in H.
  destruct (H r (list_elem_of_lookup_2 _ _ _ Hr))
    as (Ht & Hx & a & b & Ea & Eb & Ha & Hb & Ee & Hfin).
  unfold replace_inf_row, recompute_error.
  unfold compose. cbn [idx t x u_numeric u_exact error].
  rewrite Ea, Eb, Ee. cbn [to_numeric].
  rewrite (replace_inf_not_isinf _ Ht), (replace_inf_not_isinf _ Hx).
  rewrite (replace_inf_finite a Ha), (replace_inf_finite b Hb).
  rewrite (replace_inf_finite _ Hfin). reflexivity.
Qed.

Lemma for_enumerate_ext {A St} (f g : St -> nat -> A -> result St) (l : list A) :
  (forall s i a, f s i a = g s i a) ->
  forall i s, for_enumerate f i l s = for_enumerate g i l s.
Proof.
  intros H. induction l as [ | a l IH]; intros i s; cbn; [reflexivity | ].
  rewrite H. destruct (g s i a); [apply IH | reflexivity].
Qed.

Lemma consistent_fill_matrix (file : CsvFile) (ncols : nat)
    (subset : list float) (zeros : list (list float)) :
  Forall consistent_row (csv_rows file) ->
  Legacy.fill_matrix file (load_frame file) ncols subset zeros
  = fill_matrix (load_frame file) ncols subset zeros.
Proof.
  intros H. unfold Legacy.fill_matrix, fill_matrix.
  apply for_enumerate_ext. intros m i tv. unfold layer_row.
  set (data := sort_values_x (rows_at (load_frame file) tv)).
  assert (Hdata : forall row, row ∈ data ->
            Legacy.cell_is_text file csv_u_numeric row = false
            /\ fillna0 (u_numeric row) = u_numeric row).
  { intros row Hrow. apply (final_data_at_elem (load_frame file) tv) in Hrow as [Hdf _].
    apply load_frame_elem in Hdf as (r & Hr & Erow).
    rewrite Forall_forall in H.
    destruct (H r (list_elem_of_lookup_2 _ _ _ Hr))
      as (_ & _ & a & b & Ea & _ & Ha & _).
    unfold Legacy.cell_is_text. rewrite Hr, Ea. split; [reflexivity | ].
    rewrite Erow. cbn. rewrite Ea. cbn. rewrite (replace_inf_finite a Ha).
    destruct a; (discriminate || reflexivity). }
  assert (E1 : existsb (Legacy.cell_is_text file csv_u_numeric) data = false).
  { apply not_true_is_false. intros Hex. apply existsb_exists in Hex as (row & Hin & Ht).
    apply list_elem_of_In in Hin. destruct (Hdata row Hin). congruence. }
  assert (Em : map u_numeric data = map (fun r => fillna0 (u_numeric r)) data).
  { apply map_ext_in. intros row Hin. apply list_elem_of_In in Hin.
    symmetry. apply Hdata, Hin. }
  rewrite E1, Em. reflexivity.
Qed.

Lemma consistent_errors_finite (file : CsvFile) (tv : float) :
  Forall consistent_row (csv_rows file) ->
  Forall (fun row => F64.isfinite (error row) = true)
         (final_data_at (load_frame file) tv).
Proof.
  intros H. apply Forall_forall. intros row Hrow.
  apply final_data_at_elem in Hrow as [Hdf _].
  apply load_frame_elem in Hdf as (r & Hr & ->).
  rewrite Forall_forall in H.
  destruct (H r (list_elem_of_lookup_2 _ _ _ Hr))
    as (_ & _ & a & b & Ea & Eb & Ha & Hb & _ & Hfin).
  cbn. rewrite Ea, Eb. cbn. rewrite (replace_inf_finite _ Hfin). exact Hfin.
Qed.

Lemma consistent_no_text (file : CsvFile) :
  Forall consistent_row (csv_rows file) -> Legacy.has_text csv_error file = false.
Proof.
  intros H. unfold Legacy.has_text. apply not_true_is_false. intros Hex.
  apply existsb_exists in Hex as (r & Hin & Ht).
  rewrite Forall_forall in H. apply list_elem_of_In in Hin.
  destruct (H r Hin) as (_ & _ & a & b & _ & _ & _ & _ & Ee & _).
  rewrite Ee in Ht. discriminate.
Qed.

(** On a file of numbers whose stored [error] column is the absolute
    difference of the two value columns, the two [plot_results] without
    their drawing calls agree. *)
Lemma consistent_runs_agree (fs : FileSystem)
    (csv_file method : string) (file : CsvFile) :
  fs !! csv_file = Some file ->
  has_error_column file = true ->
  Forall consistent_row (csv_rows file) ->
  match outcome (plot_results fs csv_file method) with
  | Ok (Some rep') =>
      exists rep,
        outcome (Legacy.plot_results fs csv_file method) = Ok (Some rep)
        /\ Legacy.final_t rep = final_t rep'
        /\ Legacy.u_matrix rep = u_matrix (heat_map rep')
        /\ Legacy.summary rep = summary rep'
  | Ok None => False
  | Raise e => outcome (Legacy.plot_results fs csv_file method) = Raise e
  end.
Proof.
  intros Hfs Hcol Hrows.
  destruct (plot_results_existing fs csv_file method file Hfs)
    as (curves & _ & ->).
  unfold Legacy.plot_results. rewrite Hfs, Hcol.
  rewrite (consistent_frames_equal file Hrows).
  set (df := load_frame file). fold (times_of df).
  destruct (legacy_evolution_panel_ok df (times_of df)) as [lcurves ->].
  destruct (last_item (times_of df)) as [ft | e] eqn:Hft; [ | reflexivity].
  rewrite (consistent_no_text file Hrows).
  unfold build_heatmap. fold (times_of df).
  unfold df at 3. rewrite (consistent_fill_matrix file _ _ _ Hrows). fold df.
  destruct (fill_matrix df _ _ _) as [m | e]; [ | reflexivity].
  cbn. eexists. split; [reflexivity | ]. cbn.
  split; [reflexivity | split; [reflexivity | ]].
  destruct (err_valid_all (final_data_at df ft)
              (consistent_errors_finite file ft Hrows)) as [-> _].
  unfold error_statistics, final_data_at.
  destruct (column error (sort_values_x (rows_at df ft))); reflexivity.
Qed.

(** ** The older script and matplotlib *)

Lemma legacy_draw_cases (mpl : list LegacyRendered.DrawCall -> option string)
    (h : list LegacyRendered.DrawCall) (c : LegacyRendered.DrawCall) :
  LegacyRendered.draw mpl h c = Ok (h ++ [c])%list
  \/ exists what, mpl (h ++ [c])%list = Some what
                  /\ LegacyRendered.draw mpl h c = Raise (MatplotlibError what).
Proof. unfold LegacyRendered.draw. destruct (mpl _); eauto. Qed.

Ltac legacy_draw_step mpl :=
  match goal with
  | |- context [LegacyRendered.draw mpl ?h ?c] =>
      let what := fresh "what" in
      let Hm := fresh "Hm" in
      destruct (legacy_draw_cases mpl h c) as [-> | (what & Hm & ->)]; run_simpl
  end.

(** A run that ended inside matplotlib, having printed a beginning of the
    lines [printed]. *)
Ltac interrupted what Hm :=
  right; exists what; eexists; split; [exact Hm | ];
  split; [reflexivity | cbn [stdout]; repeat apply prefix_cons; apply prefix_nil].

Lemma legacy_rendered_evolution_loop
    (mpl : list LegacyRendered.DrawCall -> option string)
    (df : DataFrame) (times : list float) (num : nat) (l : list nat) :
  forall (i : nat) (curves : list Curve) (h : list LegacyRendered.DrawCall),
  match for_enumerate
          (fun (s : list Curve * list LegacyRendered.DrawCall) i t_idx =>
             tv ← list_item times t_idx;
             let data := rows_at df tv in
             let c := {| curve_t := tv;
                         curve_color := (i, num);
                         curve_x := column x data;
                         curve_u := column u_numeric data |} in
             h' ← LegacyRendered.draw mpl s.2 (LegacyRendered.PlotSnapshot c);
             Ok (s.1 ++ [c], h')%list)
          i l (curves, h) with
  | Ok s =>
      for_enumerate
        (fun curves i t_idx =>
           tv ← list_item times t_idx;
           let data := rows_at df tv in
           Ok (curves ++ [ {| curve_t := tv;
                              curve_color := (i, num);
                              curve_x := column x data;
                              curve_u := column u_numeric data |} ])%list)
        i l curves = Ok s.1
  | Raise e =>
      (exists what h0, mpl h0 = Some what /\ e = MatplotlibError what)
      \/ for_enumerate
           (fun curves i t_idx =>
              tv ← list_item times t_idx;
              let data := rows_at df tv in
              Ok (curves ++ [ {| curve_t := tv;
                                 curve_color := (i, num);
                                 curve_x := column x data;
                                 curve_u := column u_numeric data |} ])%list)
           i l curves = Raise e
  end.
Proof.
  induction l as [ | t_idx l IH]; intros i curves h; cbn [for_enumerate].
  - reflexivity.
  - destruct (list_item times t_idx) as [tv | e]; cbn; [ | right; reflexivity].
    destruct (legacy_draw_cases mpl h
                (LegacyRendered.PlotSnapshot
                   {| curve_t := tv; curve_color := (i, num);
                      curve_x := column x (rows_at df tv);
                      curve_u := column u_numeric (rows_at df tv) |}))
      as [-> | (what & Hm & ->)]; cbn.
    + apply IH.
    + left. eauto.
Qed.

Lemma legacy_rendered_evolution_panel
    (mpl : list LegacyRendered.DrawCall -> option string)
    (df : DataFrame) (times : list float) (h : list LegacyRendered.DrawCall) :
  (exists curves h',
      LegacyRendered.evolution_panel mpl df times h = Ok (curves, h')
      /\ Legacy.evolution_panel df times = Ok curves)
  \/ exists what h0,
      mpl h0 = Some what
      /\ LegacyRendered.evolution_panel mpl df times h
         = Raise (MatplotlibError what).
Proof.
  pose proof (legacy_rendered_evolution_loop mpl df times (Nat.min 6 (length times))
                (linspace_int (length times - 1) (Nat.min 6 (length times)))
                0 [] h) as H.
  change (match LegacyRendered.evolution_panel mpl df times h with
          | Ok s => Legacy.evolution_panel df times = Ok s.1
          | Raise e => (exists what h0, mpl h0 = Some what /\ e = MatplotlibError what)
                       \/ Legacy.evolution_panel df times = Raise e
          end) in H.
  destruct (legacy_evolution_panel_ok df times) as [curves Hc].
  destruct (LegacyRendered.evolution_panel mpl df times h) as [[cs h'] | e].
  - left. exists cs, h'. split; [reflexivity | exact H].
  - right. destruct H as [(what & h0 & Hm & ->) | H]; [eauto | ].
    rewrite Hc in H. discriminate.
Qed.

(** The older [plot_results] with its drawing calls either runs as the
    one without them does, or ends in matplotlib, having printed a
    beginning of the same lines. *)
Lemma legacy_rendered_plot_results
    (mpl : list LegacyRendered.DrawCall -> option string)
    (fs : FileSystem) (csv_file method : string) :
  LegacyRendered.plot_results mpl fs csv_file method
  = Legacy.plot_results fs csv_file method
  \/ (exists what h0,
        mpl h0 = Some what
        /\ outcome (LegacyRendered.plot_results mpl fs csv_file method)
           = Raise (MatplotlibError what)
        /\ stdout (LegacyRendered.plot_results mpl fs csv_file method)
           `prefix_of` stdout (Legacy.plot_results fs csv_file method)).
Proof.
  unfold LegacyRendered.plot_results, Legacy.plot_results.
  destruct (fs !! csv_file) as [file | ]; [ | left; reflexivity].
  set (df := Legacy.stored_frame file). fold (times_of df). run_simpl.
  legacy_draw_step mpl; [ | interrupted what Hm].
  match goal with
  | |- context [LegacyRendered.evolution_panel mpl df ?ts ?h] =>
      destruct (legacy_rendered_evolution_panel mpl df ts h)
        as [(curves & h' & -> & ->) | (what & h0 & Hm & ->)]; run_simpl;
        [ | interrupted what Hm]
  end.
  legacy_draw_step mpl; [ | interrupted what Hm].
  destruct (last_item (times_of df)) as [ft | e]; run_simpl; [ | left; reflexivity].
  legacy_draw_step mpl; [ | interrupted what Hm].
  destruct (has_error_column file); run_simpl; [ | left; reflexivity].
  legacy_draw_step mpl; [ | interrupted what Hm].
  destruct (Legacy.fill_matrix file df _ _ _) as [m | e]; run_simpl;
    [ | left; reflexivity].
  legacy_draw_step mpl; [ | interrupted what Hm].
  destruct (Legacy.has_text csv_error file); run_simpl; [left; reflexivity | ].
  legacy_draw_step mpl; [ | interrupted what Hm].
  legacy_draw_step mpl; [left; reflexivity | interrupted what Hm].
Qed.

(** X20. On a file of numbers whose stored [error] column is the absolute
    difference of [u_numeric] and [u_exact], all three columns being
    read as floating point, the two scripts agree up to what matplotlib
    does: when both run to their end they report the same final time,
    the same heat-map matrix and the same [l2], [linf] and mean; when
    both raise, they raise the same exception unless one of the two comes
    from matplotlib; and when only one raises, its exception comes from
    matplotlib. *)
Theorem legacy_agrees_on_consistent_file
    (mpl : list Rendered.DrawCall -> option string)
    (mpl' : list LegacyRendered.DrawCall -> option string)
    (fs : FileSystem) (csv_file method : string) (file : CsvFile) :
  fs !! csv_file = Some file ->
  has_error_column file = true ->
  Forall consistent_row (csv_rows file) ->
  float64_column csv_u_numeric file = true ->
  float64_column csv_u_exact file = true ->
  float64_column csv_error file = true ->
  match outcome (Rendered.plot_results mpl fs csv_file method),
        outcome (LegacyRendered.plot_results mpl' fs csv_file method) with
  | Ok (Some rep'), Ok (Some rep) =>
      Legacy.final_t rep = final_t rep'
      /\ Legacy.u_matrix rep = u_matrix (heat_map rep')
      /\ Legacy.summary rep = summary rep'
  | Raise e', Raise e =>
      e' = e \/ (exists what, e' = MatplotlibError what)
      \/ (exists what, e = MatplotlibError what)
  | Ok (Some _), Raise e => exists what, e = MatplotlibError what
  | Raise e', Ok (Some _) => exists what, e' = MatplotlibError what
  | _, _ => False
  end
  /\ ((forall h, mpl h = None) -> (forall h, mpl' h = None) ->
      match outcome (Rendered.plot_results mpl fs csv_file method),
            outcome (LegacyRendered.plot_results mpl' fs csv_file method) with
      | Ok (Some _), Ok (Some _) => True
      | Raise e', Raise e => e' = e
      | _, _ => False
      end).
Proof.
  intros Hfs Hcol Hrows _ _ _.
  pose proof (consistent_runs_agree fs csv_file method file Hfs Hcol Hrows) as Hp.
  assert (Hcases :
    forall r r' : Run _,
      (r = plot_results fs csv_file method
       \/ exists what, outcome r = Raise (MatplotlibError what)) ->
      (r' = Legacy.plot_results fs csv_file method
       \/ exists what, outcome r' = Raise (MatplotlibError what)) ->
      match outcome r, outcome r' with
      | Ok (Some rep'), Ok (Some rep) =>
          Legacy.final_t rep = final_t rep'
          /\ Legacy.u_matrix rep = u_matrix (heat_map rep')
          /\ Legacy.summary rep = summary rep'
      | Raise e', Raise e =>
          e' = e \/ (exists what, e' = MatplotlibError what)
          \/ (exists what, e = MatplotlibError what)
      | Ok (Some _), Raise e => exists what, e = MatplotlibError what
      | Raise e', Ok (Some _) => exists what, e' = MatplotlibError what
      | _, _ => False
      end).
  { intros r r' [-> | [what ->]] [-> | [what' ->]].
    - destruct (outcome (plot_results fs csv_file method)) as [[rep' | ] | e'].
      + destruct Hp as (rep & -> & H). exact H.
      + contradiction.
      + rewrite Hp. left. reflexivity.
    - destruct (outcome (plot_results fs csv_file method)) as [[rep' | ] | e'];
        [eauto | contradiction | eauto].
    - destruct (outcome (plot_results fs csv_file method)) as [[rep' | ] | e'].
      + destruct Hp as (rep & -> & _). eauto.
      + contradiction.
      + rewrite Hp. eauto.
    - eauto. }
  split.
  - apply Hcases.
    + destruct (rendered_plot_results_existing mpl fs csv_file method file Hfs)
        as [H | [(what & h0 & _ & H) | (what & h0 & rep & _ & _ & H)]];
        [left; exact H | right; exists what; rewrite H; reflexivity
                       | right; exists what; rewrite H; reflexivity].
    + destruct (legacy_rendered_plot_results mpl' fs csv_file method)
        as [H | (what & h0 & _ & H & _)]; [left; exact H | right; eauto].
  - intros Hs Hs'.
    rewrite (rendered_plot_results_silent mpl fs csv_file method Hs).
    destruct (legacy_rendered_plot_results mpl' fs csv_file method)
      as [-> | (what & h0 & Hm & _)]; [ | rewrite Hs' in Hm; discriminate].
    destruct (outcome (plot_results fs csv_file method)) as [[rep' | ] | e'].
    + destruct Hp as (rep & -> & _). exact I.
    + contradiction.
    + rewrite Hp. reflexivity.
Qed.

Lemma legacy_agrees_on_consistent_file_witness :
  exists rep,
    outcome (LegacyRendered.plot_results silent fs_fractional "cn.csv" "CN")
    = Ok (Some rep)
    /\ linf_error (Legacy.summary rep) = F64.div (F64.of_Z 3) (F64.of_Z 2).
Proof.
  pose proof (legacy_agrees_on_consistent_file silent silent fs_fractional
                "cn.csv" "CN" fractional_2x2 eq_refl eq_refl) as H.
  destruct H as [H _]; try reflexivity.
  - repeat (apply List.Forall_cons;
              [ split; [reflexivity | split; [reflexivity | ]];
                do 2 eexists; repeat split; reflexivity | ]).
    apply List.Forall_nil.
  - destruct (outcome (Rendered.plot_results silent fs_fractional "cn.csv" "CN"))
      as [[rep' | ] | e'] eqn:E;
      [ | vm_compute in E; discriminate | vm_compute in E; discriminate].
    destruct (outcome (LegacyRendered.plot_results silent fs_fractional
                         "cn.csv" "CN")) as [[rep | ] | e] eqn:E';
      [ | contradiction | vm_compute in E'; discriminate].
    exists rep. split; [reflexivity | ].
    destruct H as (_ & _ & ->).
    vm_compute in E. injection E as <-. reflexivity.
Defined.

Lemma cycle_lookup (l : list string) (i : nat) :
  length l = 4 -> exists c, l !! (i mod 4) = Some c.
Proof.
  intros Hl. apply lookup_lt_is_Some_2. rewrite Hl.
  apply Nat.mod_upper_bound. lia.
Qed.

(** The older loop without its drawing calls, on sources whose [error]
    column is there and numeric. *)
Lemma legacy_compare_loop_entries (fs : FileSystem)
    (pairs : list (string * string)) :
  Forall (fun p => forall file, fs !! p.1 = Some file ->
            has_error_column file = true
            /\ Legacy.has_text csv_error file = false) pairs ->
  forall (i : nat) (done : list MethodEntry),
  Legacy.compare_loop fs i pairs done
  = MkRun (warnings_of fs pairs)
          (Ok (done ++ legacy_entries_from fs i pairs)%list).
Proof.
  induction 1 as [ | [csv_file label] rest Hp _ IH]; intros i done.
  - cbn. rewrite app_nil_r. reflexivity.
  - unfold warnings_of.
    cbn [Legacy.compare_loop legacy_entries_from List.filter fst].
    unfold Legacy.compare_step at 1.
    destruct (fs !! csv_file) as [file | ] eqn:E.
    + destruct (Hp file E) as [Hcol Htext]. cbn [fst] in *.
      unfold Legacy.cycle_item, list_item.
      change (length colors) with 4. change (length markers) with 4.
      destruct (cycle_lookup colors i eq_refl) as [color ->].
      destruct (cycle_lookup markers i eq_refl) as [marker ->].
      rewrite Hcol, Htext.
      rewrite bool_decide_true by eauto. cbn [negb].
      run_simpl. rewrite IH. unfold warnings_of. cbn [stdout outcome].
      rewrite <- app_assoc. reflexivity.
    + rewrite bool_decide_false by (intros [? ?]; discriminate).
      cbn [negb map fst]. run_simpl. rewrite IH. reflexivity.
Qed.

Lemma legacy_entries_from_labels (fs : FileSystem)
    (pairs : list (string * string)) :
  forall i,
  map entry_label (legacy_entries_from fs i pairs) = map snd (existing fs pairs).
Proof.
  induction pairs as [ | [csv_file label] rest IH]; intros i; [reflexivity | ].
  unfold existing. cbn [legacy_entries_from List.filter fst].
  destruct (fs !! csv_file) as [file | ] eqn:E.
  - destruct (cycle_lookup colors i eq_refl) as [color ->].
    destruct (cycle_lookup markers i eq_refl) as [marker ->].
    rewrite bool_decide_true by eauto. cbn. f_equal. apply IH.
  - rewrite bool_decide_false by (intros [? ?]; discriminate).
    apply IH.
Qed.

Lemma legacy_entries_from_positions (fs : FileSystem)
    (pairs : list (string * string)) :
  forall i,
  Forall (fun e => exists k csv_file file,
            entry_idx e = i + k
            /\ pairs !! k = Some (csv_file, entry_label e)
            /\ fs !! csv_file = Some file
            /\ colors !! (entry_idx e mod 4) = Some (entry_color e)
            /\ markers !! (entry_idx e mod 4) = Some (entry_marker e)
            /\ e = Legacy.method_entry (entry_idx e) (entry_label e)
                     (entry_color e) (entry_marker e) file)
         (legacy_entries_from fs i pairs).
Proof.
  induction pairs as [ | [csv_file label] rest IH]; intros i;
    cbn [legacy_entries_from].
  - constructor.
  - assert (Hrest : Forall (fun e => exists k csv_file0 file,
              entry_idx e = i + k
              /\ ((csv_file, label) :: rest) !! k = Some (csv_file0, entry_label e)
              /\ fs !! csv_file0 = Some file
              /\ colors !! (entry_idx e mod 4) = Some (entry_color e)
              /\ markers !! (entry_idx e mod 4) = Some (entry_marker e)
              /\ e = Legacy.method_entry (entry_idx e) (entry_label e)
                       (entry_color e) (entry_marker e) file)
              (legacy_entries_from fs (S i) rest)).
    { eapply Forall_impl; [apply (IH (S i)) | ].
      intros e (k & c & f & H1 & H2 & H3 & H4 & H5 & H6). cbn beta.
      exists (S k), c, f. repeat split; auto. lia. }
    destruct (fs !! csv_file) as [file | ] eqn:E; [ | exact Hrest].
    destruct (colors !! (i mod 4)) as [color | ] eqn:Ec; [ | exact Hrest].
    destruct (markers !! (i mod 4)) as [marker | ] eqn:Em; [ | exact Hrest].
    constructor; [ | exact Hrest].
    exists 0, csv_file, file. cbn. rewrite Nat.add_0_r. repeat split; auto.
Qed.

(** The older loop with its drawing calls next to the loop without. *)
Lemma legacy_rendered_compare_loop
    (mpl : list LegacyRendered.DrawCall -> option string)
    (fs : FileSystem) (pairs : list (string * string)) :
  forall (i : nat) (done : list MethodEntry) (h : list LegacyRendered.DrawCall),
  (exists h',
     LegacyRendered.compare_loop mpl fs i pairs (done, h)
     = MkRun (stdout (Legacy.compare_loop fs i pairs done))
             (match outcome (Legacy.compare_loop fs i pairs done) with
              | Ok d => Ok (d, h')
              | Raise e => Raise e
              end))
  \/ (exists what h0,
        mpl h0 = Some what
        /\ outcome (LegacyRendered.compare_loop mpl fs i pairs (done, h))
           = Raise (MatplotlibError what)
        /\ stdout (LegacyRendered.compare_loop mpl fs i pairs (done, h))
           `prefix_of` stdout (Legacy.compare_loop fs i pairs done)).
Proof.
  induction pairs as [ | [csv_file method] rest IH]; intros i done h.
  - left. exists h. reflexivity.
  - cbn [LegacyRendered.compare_loop Legacy.compare_loop].
    unfold LegacyRendered.compare_step, Legacy.compare_step.
    destruct (fs !! csv_file) as [file | ].
    + destruct (Legacy.cycle_item colors i) as [color | e]; run_simpl;
        [ | left; exists h; reflexivity].
      destruct (Legacy.cycle_item markers i) as [marker | e]; run_simpl;
        [ | left; exists h; reflexivity].
      legacy_draw_step mpl; [ | interrupted what Hm].
      destruct (has_error_column file); run_simpl;
        [ | left; exists h; reflexivity].
      legacy_draw_step mpl; [ | interrupted what Hm].
      destruct (Legacy.has_text csv_error file); run_simpl;
        [left; exists h; reflexivity | ].
      legacy_draw_step mpl; [ | interrupted what Hm].
      match goal with
      | |- context [LegacyRendered.compare_loop mpl fs (S i) rest (?d, ?h1)] =>
          destruct (IH (S i) d h1) as [[h' ->] | (what & h0 & Hm & -> & Hpre)]
      end.
      * left. exists h'. reflexivity.
      * right. exists what, h0. split; [exact Hm | ]. split; [reflexivity | ].
        exact Hpre.
    + run_simpl.
      destruct (IH (S i) done h) as [[h' ->] | (what & h0 & Hm & -> & Hpre)].
      * left. exists h'. reflexivity.
      * right. exists what, h0. split; [exact Hm | ]. split; [reflexivity | ].
        apply prefix_cons, Hpre.
Qed.

Lemma legacy_rendered_compare_methods
    (mpl : list LegacyRendered.DrawCall -> option string)
    (fs : FileSystem) (csv_files method_names : list string) :
  LegacyRendered.compare_methods mpl fs csv_files method_names
  = Legacy.compare_methods fs csv_files method_names
  \/ (exists what h0,
        mpl h0 = Some what
        /\ outcome (LegacyRendered.compare_methods mpl fs csv_files method_names)
           = Raise (MatplotlibError what)
        /\ stdout (LegacyRendered.compare_methods mpl fs csv_files method_names)
           `prefix_of` stdout (Legacy.compare_methods fs csv_files method_names)).
Proof.
  unfold LegacyRendered.compare_methods, Legacy.compare_methods.
  legacy_draw_step mpl; [ | interrupted what Hm].
  match goal with
  | |- context [LegacyRendered.compare_loop mpl fs 0 ?ps (?d, ?h)] =>
      destruct (legacy_rendered_compare_loop mpl fs ps 0 d h)
        as [[h' ->] | (what & h0 & Hm & Ho & Hpre)]
  end.
  - destruct (Legacy.compare_loop fs 0 (zip csv_files method_names) [])
      as [out [d | e]]; run_simpl; [ | left; reflexivity].
    destruct (analytical_curve fs csv_files) as [curve | e]; run_simpl;
      [ | left; reflexivity].
    assert (Hc : (exists h'', match curve with
                              | Some c => LegacyRendered.draw mpl h'
                                            (LegacyRendered.PlotAnalytical c)
                              | None => Ok h'
                              end = Ok h'')
                 \/ exists what h0,
                      mpl h0 = Some what
                      /\ match curve with
                         | Some c => LegacyRendered.draw mpl h'
                                       (LegacyRendered.PlotAnalytical c)
                         | None => Ok h'
                         end = Raise (MatplotlibError what)).
    { destruct curve as [c | ]; [ | eauto].
      destruct (legacy_draw_cases mpl h' (LegacyRendered.PlotAnalytical c))
        as [-> | (what & Hm & ->)]; eauto. }
    destruct Hc as [[h'' ->] | (what & h0 & Hm & ->)]; run_simpl.
    + legacy_draw_step mpl.
      * legacy_draw_step mpl.
        -- left. reflexivity.
        -- right. exists what. eexists. split; [exact Hm | ].
           split; reflexivity.
      * right. exists what. eexists. split; [exact Hm | ].
        split; [reflexivity | ]. apply prefix_app, prefix_nil.
    + right. exists what, h0. split; [exact Hm | ].
      split; [reflexivity | ]. apply prefix_app, prefix_nil.
  - right. exists what, h0. split; [exact Hm | ].
    destruct (LegacyRendered.compare_loop mpl fs 0 (zip csv_files method_names) _)
      as [out o]. cbn in Ho, Hpre. subst o. run_simpl.
    split; [reflexivity | ].
    destruct (Legacy.compare_loop fs 0 (zip csv_files method_names) [])
      as [out' [d | e]]; run_simpl; cbn in Hpre; [ | exact Hpre].
    apply prefix_app_r. exact Hpre.
Qed.

(** X21. The older [compare_methods] takes its colours and markers modulo
    four, so the number of sources does not matter: when the first listed
    source exists and every existing source has a numeric [error] column,
    it raises nothing of its own and completes unless a call into
    matplotlib raises. Its report then holds one entry per existing
    source, in input order; the entry of the source at position [k] of
    the argument lists is computed from that source and drawn at bar [k]
    with [colors[k mod 4]] and [markers[k mod 4]]. *)
Theorem legacy_compare_cycles_colors
    (mpl : list LegacyRendered.DrawCall -> option string) (fs : FileSystem)
    (first : string) (others method_names : list string) (file0 : CsvFile) :
  fs !! first = Some file0 ->
  Forall (fun p => forall file, fs !! p.1 = Some file ->
            has_error_column file = true
            /\ Legacy.has_text csv_error file = false)
         (zip (first :: others) method_names) ->
  let pairs := zip (first :: others) method_names in
  let run := LegacyRendered.compare_methods mpl fs (first :: others) method_names in
  let printed := (warnings_of fs pairs ++ [MsgComparisonSaved])%list in
  exists rep,
    entries rep = legacy_entries_from fs 0 pairs
    /\ tick_labels rep = method_names
    /\ map entry_label (entries rep) = map snd (existing fs pairs)
    /\ Forall (fun e => exists k csv_file file,
                 entry_idx e = k
                 /\ pairs !! k = Some (csv_file, entry_label e)
                 /\ fs !! csv_file = Some file
                 /\ colors !! (k mod 4) = Some (entry_color e)
                 /\ markers !! (k mod 4) = Some (entry_marker e)
                 /\ e = Legacy.method_entry k (entry_label e) (entry_color e)
                                            (entry_marker e) file)
              (entries rep)
    /\ (run = MkRun printed (Ok rep)
        \/ exists what, outcome run = Raise (MatplotlibError what)
                        /\ stdout run `prefix_of` printed)
    /\ ((forall h, mpl h = None) -> run = MkRun printed (Ok rep)).
Proof.
  intros Hfirst Hall pairs run printed.
  set (rep := {| entries := legacy_entries_from fs 0 pairs;
                 analytical := Some (reference_curve file0);
                 tick_labels := method_names |}).
  assert (Hpure : Legacy.compare_methods fs (first :: others) method_names
                  = MkRun printed (Ok rep)).
  { unfold Legacy.compare_methods. fold pairs.
    rewrite (legacy_compare_loop_entries fs pairs Hall 0 []).
    unfold analytical_curve, read_csv. rewrite Hfirst. reflexivity. }
  exists rep. split; [reflexivity | split; [reflexivity | split]].
  { apply legacy_entries_from_labels. }
  split.
  { cbn [entries rep].
    eapply Forall_impl; [apply (legacy_entries_from_positions fs pairs 0) | ].
    intros e (k & c & f & H1 & H2 & H3 & H4 & H5 & H6). cbn beta.
    cbn in H1. subst k. exists (entry_idx e), c, f. repeat split; auto. }
  destruct (legacy_rendered_compare_methods mpl fs (first :: others) method_names)
    as [H | (what & h0 & Hm & Ho & Hp)].
  - split; [left | intros _]; unfold run; rewrite H; exact Hpure.
  - split.
    + right. exists what. split; [exact Ho | ]. rewrite Hpure in Hp. exact Hp.
    + intros Hs. rewrite Hs in Hm. discriminate.
Qed.

Lemma legacy_compare_cycles_colors_witness :
  exists rep,
    outcome (LegacyRendered.compare_methods silent fs_consistent
               ["cn.csv"; "missing.csv"; "cn.csv"; "cn.csv"; "cn.csv"; "cn.csv"]
               ["A"; "B"; "C"; "D"; "E"; "F"]) = Ok rep
    /\ map entry_idx (entries rep) = [0; 2; 3; 4; 5]
    /\ map entry_color (entries rep) = ["blue"; "green"; "orange"; "blue"; "red"].
Proof.
  destruct (legacy_compare_cycles_colors silent fs_consistent "cn.csv"
              ["missing.csv"; "cn.csv"; "cn.csv"; "cn.csv"; "cn.csv"]
              ["A"; "B"; "C"; "D"; "E"; "F"]
              consistent_2x2 eq_refl) as (rep & Hent & _ & _ & _ & _ & Hrun).
  - repeat (apply List.Forall_cons;
              [ intros file Hf; vm_compute in Hf;
                first [discriminate | injection Hf as <-; split; reflexivity] | ]).
    apply List.Forall_nil.
  - exists rep. rewrite Hrun by reflexivity.
    split; [reflexivity | ]. rewrite Hent. split; reflexivity.
Defined.

(** ** Snapshots and axis extents *)

Lemma insert_by_ascending {A} (key : A -> float) (a : A) (l : list A) :
  F64.isnan (key a) = false ->
  Forall (fun b => F64.isnan (key b) = false) l ->
  StronglySorted (fun u v => F64.leb (key u) (key v) = true) l ->
  StronglySorted (fun u v => F64.leb (key u) (key v) = true) (insert_by key a l).
Proof.
  intros Ha Hn Hs. induction Hs as [ | b l Hs IH Hb]; cbn.
  - repeat constructor.
  - inversion Hn as [ | ? ? Hbn Hln]; subst.
    destruct (F64.ltb (key b) (key a)) eqn:E.
    + constructor; [apply IH; assumption | ].
      rewrite insert_by_perm. constructor; [apply ltb_leb, E | assumption].
    + assert (Hab : F64.leb (key a) (key b) = true)
        by (apply not_ltb_leb; assumption).
      constructor; [constructor; assumption | ].
      constructor; [exact Hab | ].
      eapply Forall_impl; [exact Hb | ].
      intros c Hc. cbn in Hc. eapply leb_trans; eassumption.
Qed.

Lemma sort_by_ascending {A} (key : A -> float) (l : list A) :
  Forall (fun b => F64.isnan (key b) = false) l ->
  StronglySorted (fun u v => F64.leb (key u) (key v) = true) (sort_by key l).
Proof.
  unfold sort_by. induction 1 as [ | a l Ha Hl IH]; [constructor | ].
  change (foldr (insert_by key) [] (a :: l))
    with (insert_by key a (foldr (insert_by key) [] l)).
  apply insert_by_ascending; [assumption | | assumption].
  fold (sort_by key l). rewrite sort_by_perm. assumption.
Qed.

(** X12. The snapshot of a time is made of exactly the lines of that
    time, none lost and none repeated; those with a position come first,
    in ascending position, and those whose position is NaN come last. *)
Theorem snapshot_sorted_by_position (df : DataFrame) (tv : float) :
  final_data_at df tv ≡ₚ List.filter (fun r => F64.eqb (t r) tv) df
  /\ exists located unlocated,
       final_data_at df tv = (located ++ unlocated)%list
       /\ StronglySorted (fun u v => F64.leb (x u) (x v) = true) located
       /\ Forall (fun r => F64.isnan (x r) = false) located
       /\ Forall (fun r => F64.isnan (x r) = true) unlocated.
Proof.
  split; [apply sort_values_x_perm | ].
  unfold final_data_at, sort_values_x.
  set (rows := rows_at df tv).
  assert (Hn : Forall (fun r => F64.isnan (x r) = false)
                      (List.filter (fun r => negb (F64.isnan (x r))) rows)).
  { apply Forall_forall. intros r Hr.
    rewrite list_elem_of_In, filter_In in Hr. destruct Hr as [_ Hr].
    apply negb_true_iff, Hr. }
  eexists _, _. split; [reflexivity | split; [ | split]].
  - apply sort_by_ascending, Hn.
  - rewrite sort_by_perm. exact Hn.
  - apply Forall_forall. intros r Hr.
    rewrite list_elem_of_In, filter_In in Hr. apply Hr.
Qed.

Lemma stride_from_forall {A} (P : A -> Prop) (step : nat) (l : list A) :
  forall skip, Forall P l -> Forall P (stride_from step skip l).
Proof.
  induction l as [ | a l IH]; intros skip H; cbn; [constructor | ].
  inversion H; subst. destruct skip; [constructor | ]; auto.
Qed.

Lemma stride_from_sorted {A} (R : A -> A -> Prop) (step : nat) (l : list A) :
  forall skip, StronglySorted R l -> StronglySorted R (stride_from step skip l).
Proof.
  induction l as [ | a l IH]; intros skip H; cbn; [constructor | ].
  inversion H; subst. destruct skip; [ | auto].
  constructor; [auto | apply stride_from_forall; assumption].
Qed.

Lemma ltb_asym (a b : float) : F64.ltb a b = true -> F64.ltb b a = false.
Proof.
  intros H. apply not_true_is_false. intros H'.
  apply ltb_rank in H as (_ & _ & H). apply ltb_rank in H' as (_ & _ & H').
  destruct (lex_le_total (rank a) (rank b)); tauto.
Qed.

Lemma py_min_ascending (a : float) (l : list float) :
  StronglySorted (fun u v => F64.ltb u v = true) (a :: l) -> py_min a l = a.
Proof.
  intros H. inversion H as [ | ? ? _ Ha]; subst. clear H.
  unfold py_min. induction Ha as [ | b l Hb _ IH]; cbn; [reflexivity | ].
  unfold F64.py_min2 at 2. rewrite (ltb_asym _ _ Hb). exact IH.
Qed.

Lemma py_max_ascending (l : list float) : forall a,
  StronglySorted (fun u v => F64.ltb u v = true) (a :: l) ->
  Some (py_max a l) = last (a :: l).
Proof.
  unfold py_max. induction l as [ | b l IH]; intros a H; cbn; [reflexivity | ].
  inversion H as [ | ? ? Hs Ha]; subst. inversion Ha as [ | ? ? Hab _]; subst.
  unfold F64.py_max2 at 2. rewrite Hab. rewrite IH by exact Hs.
  reflexivity.
Qed.

(** X6. On a frame with no NaN among its times, the time extent handed
    to [imshow] runs from the time of the first matrix row to the time of
    the last matrix row: the least time, and the last selected time,
    which is [times[(rows - 1) * step]]. *)
Theorem heatmap_time_extent (df : DataFrame) (hm : Heatmap) :
  df <> [] ->
  Forall (fun v => F64.isnan v = false) (map t df) ->
  build_heatmap df = Ok hm ->
  let '(_, _, t_low, t_high) := extent hm in
  Some t_low = head (times_of df)
  /\ Some t_low = t_vals_subset hm !! 0
  /\ Some t_high = last (t_vals_subset hm)
  /\ Some t_high
     = times_of df !! ((length (u_matrix hm) - 1) * step_of (times_of df)).
Proof.
  intros Hdf Hn Hb.
  destruct (build_heatmap_spec df hm Hb) as (_ & Ht & Hlen & _ & _).
  destruct (times_of_sorted_cover df Hn) as (Hs & _ & _).
  assert (Hext : extent hm
                 = (py_min_list (x_vals hm), py_max_list (x_vals hm),
                    py_min_list (t_vals_subset hm), py_max_list (t_vals_subset hm))).
  { unfold build_heatmap in Hb.
    destruct (fill_matrix _ _ _ _) as [m | e]; cbn in Hb; [ | discriminate].
    injection Hb as <-. reflexivity. }
  rewrite Hext.
  pose proof (stride_from_sorted _ (step_of (times_of df)) (times_of df) 0 Hs) as Hsub.
  fold (slice_step (step_of (times_of df)) (times_of df)) in Hsub.
  rewrite <- Ht in Hsub.
  destruct (t_vals_subset hm) as [ | a sub] eqn:Esub.
  { exfalso. pose proof (times_of_nonempty df Hdf) as Hne.
    pose proof (slice_step_head (step_of (times_of df)) (times_of df)) as Hh.
    rewrite <- Ht in Hh. cbn in Hh. destruct (times_of df); [auto | discriminate]. }
  cbn [py_min_list py_max_list].
  rewrite (py_min_ascending a sub Hsub).
  split; [ | split; [reflexivity | split; [apply py_max_ascending, Hsub | ]]].
  - rewrite <- (slice_step_head (step_of (times_of df)) (times_of df)), <- Ht.
    reflexivity.
  - rewrite (py_max_ascending sub a Hsub), last_lookup, Hlen.
    rewrite Ht. rewrite slice_step_lookup by apply step_of_positive.
    f_equal. f_equal. lia.
Qed.

Lemma heatmap_time_extent_witness :
  exists hm,
    build_heatmap (load_frame (ramp_file 120)) = Ok hm
    /\ length (u_matrix hm) = 60
    /\ (extent hm).2 = F64.of_Z 118.
Proof.
  destruct (build_heatmap (load_frame (ramp_file 120))) as [hm | e] eqn:E;
    [ | vm_compute in E; discriminate].
  exists hm. split; [reflexivity | ].
  pose proof (heatmap_time_extent (load_frame (ramp_file 120)) hm) as H.
  assert (Hlen : length (u_matrix hm) = 60).
  { vm_compute in E. injection E as <-. reflexivity. }
  split; [exact Hlen | ].
  destruct (extent hm) as [[[x_low x_high] t_low] t_high]. cbn [snd].
  destruct H as (_ & _ & _ & H4).
  - vm_compute. discriminate.
  - vm_compute. repeat constructor.
  - exact E.
  - rewrite Hlen in H4. vm_compute in H4. injection H4 as ->. reflexivity.
Defined.

(** ** The stored error column and the current script *)

(** X18. Two files that differ only in their [error] column (or in
    having one) give the same run of the current [plot_results], printed
    lines and report included, and the same comparison entry. *)
Theorem current_script_ignores_error_column (fs fs' : FileSystem)
    (csv_file method : string) (f g : CsvFile) :
  fs !! csv_file = Some f -> fs' !! csv_file = Some g ->
  same_measurements f g ->
  plot_results fs csv_file method = plot_results fs' csv_file method
  /\ (forall i label color marker,
        method_entry i label color marker f
        = method_entry i label color marker g).
Proof.
  intros Hf Hg H. split.
  - unfold plot_results. rewrite Hf, Hg.
    rewrite (load_frame_ignores_stored_error f g H). reflexivity.
  - intros. unfold method_entry.
    rewrite (load_frame_ignores_stored_error f g H). reflexivity.
Qed.

Lemma current_script_ignores_error_column_witness :
  same_measurements exact_2x2 exact_2x2_without_error
  /\ plot_results fs_exact "ftcs.csv" "FTCS"
     = plot_results fs_without_error "ftcs.csv" "FTCS".
Proof.
  assert (H : same_measurements exact_2x2 exact_2x2_without_error) by reflexivity.
  split; [exact H | ].
  apply (current_script_ignores_error_column fs_exact fs_without_error
           "ftcs.csv" "FTCS" exact_2x2 exact_2x2_without_error eq_refl eq_refl H).
Defined.

